(** * OKX trader: symbol translation, precision cache, order placement

    A shallow embedding of [trader/okx_trader.go].  Go strings are byte
    sequences and are modelled by [string]; [float64] is the kernel's binary64
    [float]; [int] is [Z]; [map[string]interface{}] is a [gmap string iface];
    the [sync.Map] precision cache is a [gmap string Z].  The REST client
    ([t.client.Rest.Api...]) is outside the package: a trader method runs in a
    state monad over a world holding the exchange's state, the precision cache
    and the log of requests sent so far, and the exchange answers each request
    through a transition function that the development quantifies over.
    Of the Go library, [strings], the special values of [strconv.ParseFloat]
    and the verb [%.<digits>f] of [fmt] are modelled; the number scanner of
    [strconv] and what [fmt] prints under any other format are parameters.
    Logging and the settling delay of [SetLeverage] leave no trace in the
    model; the constructor [NewOkxTrader] and [parseInt], which no method
    calls, are left out.  The repository also holds an earlier skeleton of
    the file, in which every method returns a not-implemented error; the
    embedding follows the implemented version. *)

From Stdlib Require Import ZArith Ascii String Numbers.DecimalString Numbers.DecimalPos.
From Stdlib Require Import Floats.PrimFloat Floats.SpecFloat Floats.FloatOps.
From stdpp Require Import base strings list gmap.

Local Open Scope string_scope.
Local Open Scope list_scope.

(** ** Package [strings] of the Go standard library *)

Module strings.

(** [s[:n]], clipped at the end of [s]. *)
Fixpoint take (n : nat) (s : string) : string :=
  match n, s with
  | S n', String c s' => String c (take n' s')
  | _, _ => EmptyString
  end.

(** [s[n:]], empty past the end of [s]. *)
Fixpoint drop (n : nat) (s : string) : string :=
  match n, s with
  | S n', String _ s' => drop n' s'
  | _, _ => s
  end.

(** [len(s) >= len(prefix) && s[:len(prefix)] == prefix] *)
Definition HasPrefix (s prefix : string) : bool :=
  (String.length prefix <=? String.length s)%nat
  && String.eqb (take (String.length prefix) s) prefix.

(** [len(s) >= len(suffix) && s[len(s)-len(suffix):] == suffix] *)
Definition HasSuffix (s suffix : string) : bool :=
  (String.length suffix <=? String.length s)%nat
  && String.eqb (drop (String.length s - String.length suffix) s) suffix.

(** Position of the leftmost occurrence of [substr] in [s]; [None] stands
    for Go's [-1]. *)
Fixpoint Index (s substr : string) : option nat :=
  if HasPrefix s substr then Some 0%nat
  else match s with
       | EmptyString => None
       | String _ s' => S <$> Index s' substr
       end.

(** [Index(s, substr) >= 0] *)
Definition Contains (s substr : string) : bool :=
  match Index s substr with Some _ => true | None => false end.

(** [Replace(s, old, new, 1)]: the leftmost occurrence of [old] is cut out
    at [j = Index(s, old)] and the result is [s[:j] + new + s[j+len(old):]];
    [s] is returned as it is when [old] does not occur. *)
Definition Replace1 (s old new : string) : string :=
  match Index s old with
  | None => s
  | Some j => take j s +:+ new +:+ drop (j + String.length old) s
  end.

(** [ToLower] on one byte of the ASCII range. *)
Definition lower (c : ascii) : ascii :=
  let n := Ascii.nat_of_ascii c in
  if (65 <=? n)%nat && (n <=? 90)%nat then Ascii.ascii_of_nat (n + 32) else c.

(** [ToLower(s)] for strings of ASCII bytes, which Go lowers byte by byte.
    A string with a byte outside ASCII goes through the Unicode tables in
    Go; those are not modelled, and what is stated of a lowered text is
    stated for the strings that satisfy [isASCII]. *)
Fixpoint ToLower (s : string) : string :=
  match s with
  | EmptyString => EmptyString
  | String c s' => String (lower c) (ToLower s')
  end.

(** Every byte of [s] is below [utf8.RuneSelf]. *)
Fixpoint isASCII (s : string) : bool :=
  match s with
  | EmptyString => true
  | String c s' => (Ascii.nat_of_ascii c <? 128)%nat && isASCII s'
  end.

End strings.

(** ** Helpers *)

(** [okxSymbol] turns "BTCUSDT" into "BTC-USDT-SWAP". *)
Definition okxSymbol (symbol : string) : string :=
  if strings.HasSuffix symbol "USDT"
  then strings.Replace1 symbol "USDT" "-USDT-SWAP"
  else symbol +:+ "-USDT-SWAP".

(** [standardSymbol] turns "BTC-USDT-SWAP" into "BTCUSDT". *)
Definition standardSymbol (instID : string) : string :=
  if strings.HasSuffix instID "-USDT-SWAP"
  then strings.Replace1 instID "-USDT-SWAP" "USDT"
  else instID.

(** ** Errors and results *)

(** A Go [error] value: a message, or an error wrapping another through the
    [%w] verb of [fmt.Errorf]. *)
Inductive error : Type :=
| errorString (msg : string)
| wrapError (msg : string) (err : error).

(** [err.Error()]: the message of a wrapping error ends with the message of
    the error it wraps. *)
Fixpoint Error (e : error) : string :=
  match e with
  | errorString msg => msg
  | wrapError msg err => msg +:+ Error err
  end.

(** A Go pair [(value, err)] of which exactly one component is set. *)
Inductive result (A : Type) : Type :=
| Ok (a : A)
| Err (err : error).
Arguments Ok {A} a.
Arguments Err {A} err.

(** A value stored under [interface{}] by this package. *)
Inductive iface : Type :=
| I_string (s : string)
| I_float64 (f : float).

(** ** Request and response models of the OKX SDK *)

Module GetAccountRequest.
Record t := { Ccy : string }.
End GetAccountRequest.

Module Account.
Record t := { TotalEq : string; Upl : string; AvailEq : string }.
End Account.

Module GetPositionsRequest.
Record t := { InstType : string; InstID : string }.
End GetPositionsRequest.

Module Position.
Record t := {
  InstID : string; Pos : string; PosSide : string; AvgPx : string;
  MarkPx : string; Upl : string; Lever : string; LiqPx : string }.
End Position.

Module SetLeverageRequest.
Record t := { InstID : string; Lever : string; MgnMode : string }.
End SetLeverageRequest.

Module PlaceOrderRequest.
Record t := {
  InstID : string; TdMode : string; Side : string; OrdType : string;
  Sz : string; PosSide : string }.
End PlaceOrderRequest.

Module OrderData.
Record t := { OrdID : string; SCode : string; SMsg : string }.
End OrderData.

Module PlaceAlgoOrderRequest.
Record t := {
  InstID : string; TdMode : string; Side : string; PosSide : string;
  OrdType : string; Sz : string;
  SlTriggerPx : string; SlOrdPx : string;
  TpTriggerPx : string; TpOrdPx : string }.
End PlaceAlgoOrderRequest.

Module AlgoOrderData.
Record t := { SCode : string; SMsg : string }.
End AlgoOrderData.

Module GetAlgoOrderListRequest.
Record t := { InstType : string; InstID : string; OrdType : string }.
End GetAlgoOrderListRequest.

Module AlgoOrder.
Record t := { AlgoID : string }.
End AlgoOrder.

Module CancelAlgoOrderRequest.
Record t := { InstID : string; AlgoID : string }.
End CancelAlgoOrderRequest.

Module GetTickerRequest.
Record t := { InstID : string }.
End GetTickerRequest.

Module Ticker.
Record t := { Last : string }.
End Ticker.

Module GetInstrumentsRequest.
Record t := { InstType : string; InstID : string }.
End GetInstrumentsRequest.

Module Instrument.
Record t := { LotSz : string; TickSz : string }.
End Instrument.

(** One constructor per endpoint of [t.client.Rest.Api] that the trader
    calls. *)
Inductive Request : Type :=
| Account_GetAccount (req : GetAccountRequest.t)
| Account_GetPositions (req : GetPositionsRequest.t)
| Account_SetLeverage (req : SetLeverageRequest.t)
| Trade_PlaceOrder (req : PlaceOrderRequest.t)
| Trade_PlaceAlgoOrder (req : PlaceAlgoOrderRequest.t)
| Trade_GetAlgoOrderList (req : GetAlgoOrderListRequest.t)
| Trade_CancelAlgoOrder (req : CancelAlgoOrderRequest.t)
| Market_GetTicker (req : GetTickerRequest.t)
| Public_GetInstruments (req : GetInstrumentsRequest.t).

(** The [Data] field of the response to each request. *)
Definition Data (r : Request) : Type :=
  match r with
  | Account_GetAccount _ => list Account.t
  | Account_GetPositions _ => list Position.t
  | Account_SetLeverage _ => unit
  | Trade_PlaceOrder _ => list OrderData.t
  | Trade_PlaceAlgoOrder _ => list AlgoOrderData.t
  | Trade_GetAlgoOrderList _ => list AlgoOrder.t
  | Trade_CancelAlgoOrder _ => unit
  | Market_GetTicker _ => list Ticker.t
  | Public_GetInstruments _ => list Instrument.t
  end.

(** ** Package [strconv] *)

Module strconv.

Inductive NumError : Type := ErrSyntax | ErrRange.

(** Length of the longest common prefix of [s] and the lower-case [prefix],
    letters of [s] compared without their case. *)
Fixpoint commonPrefixLenIgnoreCase (s prefix : string) : nat :=
  match s, prefix with
  | String c s', String p prefix' =>
      if Ascii.eqb (strings.lower c) p
      then S (commonPrefixLenIgnoreCase s' prefix')
      else 0%nat
  | _, _ => 0%nat
  end.

(** The infinity read at the head of [s], after a sign of [nsign] bytes:
    "inf" or "infinity", and only "inf" of anything in between. *)
Definition infinity_at (negative : bool) (nsign : nat) (s : string) : option (float * nat) :=
  let n := commonPrefixLenIgnoreCase s "infinity" in
  let n := if (3 <? n)%nat && (n <? 8)%nat then 3%nat else n in
  if (n =? 3)%nat || (n =? 8)%nat
  then Some (if negative then neg_infinity else infinity, (nsign + n)%nat)
  else None.

(** [special]: the infinity or NaN spelled at the head of [s], with the
    number of bytes it takes. *)
Definition special (s : string) : option (float * nat) :=
  match s with
  | EmptyString => None
  | String c rest =>
      if Ascii.eqb c "+" then infinity_at false 1 rest
      else if Ascii.eqb c "-" then infinity_at true 1 rest
      else if Ascii.eqb c "i" || Ascii.eqb c "I" then infinity_at false 0 s
      else if Ascii.eqb c "n" || Ascii.eqb c "N" then
        if (commonPrefixLenIgnoreCase s "nan" =? 3)%nat then Some (nan, 3%nat) else None
      else None
  end.

(** What [readFloat] and the conversion to binary64 make of a string that
    spells no special value. *)
Inductive scanned : Type :=
| Number (f : float)
| OutOfRange (inf : float)
| Malformed.

End strconv.

(** ** Package [fmt] *)

Module fmt.

(** [Sprintf("%d", n)] *)
Definition Sprintf_d (n : Z) : string := NilZero.string_of_int (Z.to_int n).

Definition digit (c : ascii) : option Z :=
  let n := Ascii.nat_of_ascii c in
  if (48 <=? n)%nat && (n <=? 57)%nat then Some (Z.of_nat (n - 48)) else None.

(** Reads a run of digits: the number read so far, how many digits were
    read, and what is left of the string. *)
Fixpoint digits (s : string) (acc : Z) (count : nat) : Z * nat * string :=
  match s with
  | EmptyString => (acc, count, s)
  | String c s' =>
      match digit c with
      | Some d => digits s' (10 * acc + d)%Z (S count)
      | None => (acc, count, s)
      end
  end.

(** The precision of a format that is the one verb [%.<digits>f], up to the
    largest precision [fmt] reads. *)
Definition precision_of (format : string) : option nat :=
  match format with
  | String "%" (String "." rest) =>
      let '(p, count, verb) := digits rest 0%Z 0%nat in
      if (0 <? count)%nat && String.eqb verb "f" && (p <=? 1000000)%Z
      then Some (Z.to_nat p) else None
  | _ => None
  end.

(** [n / d] rounded to the nearest integer, ties to even. *)
Definition round_half_even (n d : Z) : Z :=
  let q := (n / d)%Z in
  let r := (n mod d)%Z in
  if (2 * r <? d)%Z then q
  else if (d <? 2 * r)%Z then (q + 1)%Z
  else if Z.even q then q else (q + 1)%Z.

(** The last [width] decimal digits of [v]. *)
Fixpoint fraction (width : nat) (v : Z) : string :=
  match width with
  | O => EmptyString
  | S width' =>
      fraction width' (v / 10)
      +:+ String (Ascii.ascii_of_nat (48 + Z.to_nat (v mod 10))) EmptyString
  end.

(** [k / 10^precision] written with [precision] digits after the point. *)
Definition fixed (k : Z) (precision : nat) : string :=
  let unit := (10 ^ Z.of_nat precision)%Z in
  NilZero.string_of_uint (N.to_uint (Z.to_N (k / unit)))
  +:+ (if (precision =? 0)%nat then EmptyString
       else "." +:+ fraction precision (k mod unit)).

(** A [float64] under the verb [%.<precision>f]: NaN and the infinities by
    name, any other value by its exact decimal expansion rounded to
    [precision] digits after the point, ties to even. *)
Definition fmtFloat (precision : nat) (f : float) : string :=
  match Prim2SF f with
  | S754_nan => "NaN"
  | S754_infinity s => if s then "-Inf" else "+Inf"
  | S754_zero s => (if s then "-" else "") +:+ fixed 0 precision
  | S754_finite s m e =>
      let n := (Zpos m * 10 ^ Z.of_nat precision)%Z in
      let k := if (0 <=? e)%Z then (n * 2 ^ e)%Z else round_half_even n (2 ^ (- e)) in
      (if s then "-" else "") +:+ fixed k precision
  end.

End fmt.

(** ** Integers in [strconv] *)

Module atoi.

Definition maxUint64 : Z := 2 ^ 64 - 1.

(** The loop of [ParseUint(s, 10, 64)] from the value [n] read so far: a
    byte that is not a digit is a syntax error, and a value that leaves 64
    bits is a range error, reported with the largest value as soon as it
    shows. *)
Fixpoint ParseUint_from (s : string) (n : Z) : Z * option strconv.NumError :=
  match s with
  | EmptyString => (n, None)
  | String c s' =>
      match fmt.digit c with
      | None => (0%Z, Some strconv.ErrSyntax)
      | Some d =>
          if (maxUint64 / 10 + 1 <=? n)%Z then (maxUint64, Some strconv.ErrRange)
          else
            let n1 := (n * 10 + d)%Z in
            if (maxUint64 <? n1)%Z then (maxUint64, Some strconv.ErrRange)
            else ParseUint_from s' n1
      end
  end.

(** [ParseUint(s, 10, 64)] *)
Definition ParseUint (s : string) : Z * option strconv.NumError :=
  match s with
  | EmptyString => (0%Z, Some strconv.ErrSyntax)
  | _ => ParseUint_from s 0%Z
  end.

(** [ParseInt(s, 10, 64)]: an optional sign, then [ParseUint]; a syntax error
    comes with 0, a value out of range with the nearest bound. *)
Definition ParseInt (s : string) : Z * option strconv.NumError :=
  match s with
  | EmptyString => (0%Z, Some strconv.ErrSyntax)
  | String c rest =>
      let neg := Ascii.eqb c "-" in
      let digits := if Ascii.eqb c "+" || neg then rest else s in
      let '(un, err) := ParseUint digits in
      match err with
      | Some strconv.ErrSyntax => (0%Z, err)
      | _ =>
          let cutoff := (2 ^ 63)%Z in
          if negb neg && (cutoff <=? un)%Z then ((cutoff - 1)%Z, Some strconv.ErrRange)
          else if neg && (cutoff <? un)%Z then ((- cutoff)%Z, Some strconv.ErrRange)
          else (if neg then (- un)%Z else un, None)
      end
  end.

End atoi.

(** [parseInt] drops the error of [strconv.ParseInt]; [int] has 64 bits. *)
Definition parseInt (s : string) : Z := fst (atoi.ParseInt s).

(** ** Fixed-point notation *)

Definition is_digit (c : ascii) : bool :=
  match fmt.digit c with Some _ => true | None => false end.

Fixpoint digits_only (s : string) : bool :=
  match s with
  | EmptyString => true
  | String c s' => is_digit c && digits_only s'
  end.

Fixpoint skip_digits (s : string) : string :=
  match s with
  | EmptyString => EmptyString
  | String c s' => if is_digit c then skip_digits s' else s
  end.

(** [s] is an optional minus sign, one digit or more, a point, and exactly
    [decimals] digits. *)
Definition is_fixed_point (decimals : nat) (s : string) : bool :=
  let body := match s with String "-" s' => s' | _ => s end in
  match body with
  | EmptyString => false
  | String c _ =>
      is_digit c
      && match skip_digits body with
         | String "." frac => digits_only frac && (String.length frac =? decimals)%nat
         | _ => false
         end
  end.

(** ** The trader *)

Section Trader.

(** State of the exchange behind the REST client, and the answer of the client
    to each request. *)
Context {Exchange : Type}.
Variable api : forall r : Request, Exchange -> result (Data r) * Exchange.

(** The number scanner of [strconv.ParseFloat], what [fmt.Sprintf] prints for
    a float under a format other than [%.<digits>f], and
    [calculatePrecision], a helper of this package defined in another
    file. *)
Variable scan : string -> strconv.scanned.
Variable Sprintf_other : string -> float -> string.
Variable calculatePrecision : string -> Z.

(** [strconv.ParseFloat(s, 64)].  A special value spelled by the whole of [s]
    is returned without error, one followed by anything else is a syntax
    error.  Otherwise the result is the nearest float of a well-formed
    number, an infinity with [ErrRange] for one out of range, and 0 with
    [ErrSyntax] for a string that is not a number. *)
Definition ParseFloat (s : string) : float * option strconv.NumError :=
  match strconv.special s with
  | Some (val, n) =>
      if (n =? String.length s)%nat then (val, None)
      else (0%float, Some strconv.ErrSyntax)
  | None =>
      match scan s with
      | strconv.Number f => (f, None)
      | strconv.OutOfRange inf => (inf, Some strconv.ErrRange)
      | strconv.Malformed => (0%float, Some strconv.ErrSyntax)
      end
  end.

(** [fmt.Sprintf(format, f)] for one float operand. *)
Definition Sprintf (format : string) (f : float) : string :=
  match fmt.precision_of format with
  | Some precision => fmt.fmtFloat precision f
  | None => Sprintf_other format f
  end.

(** [fmt.Sprintf("%%.%df", precision)] *)
Definition Sprintf_format (precision : Z) : string :=
  "%." +:+ fmt.Sprintf_d precision +:+ "f".

(** [OkxTrader]: the precision cache, with the exchange behind [client] and
    the requests sent to it so far. *)
Record World : Type := {
  exchange : Exchange;
  precisions : gmap string Z;
  sent : list Request }.

Definition M (A : Type) : Type := World -> A * World.

#[global] Instance M_ret : MRet M := fun _ a w => (a, w).
#[global] Instance M_bind : MBind M :=
  fun _ _ k m w => let '(a, w') := m w in k a w'.

(** A call [t.client.Rest.Api...(req)]. *)
Definition call (r : Request) : M (result (Data r)) :=
  fun w =>
    let '(resp, ex) := api r (exchange w) in
    (resp, {| exchange := ex; precisions := precisions w; sent := sent w ++ [r] |}).

(** [t.precisions.Load(key)] *)
Definition Load (key : string) : M (option Z) :=
  fun w => (precisions w !! key, w).

(** [t.precisions.Store(key, value)] *)
Definition Store (key : string) (value : Z) : M unit :=
  fun w => (tt, {| exchange := exchange w;
                   precisions := <[key := value]> (precisions w);
                   sent := sent w |}).

(** [for _, x := range xs { body(x) }] *)
Fixpoint range {A : Type} (xs : list A) (body : A -> M unit) : M unit :=
  match xs with
  | [] => mret tt
  | x :: xs' => _ ← body x; range xs' body
  end.

(** [parseFloat] drops the error of [strconv.ParseFloat]. *)
Definition parseFloat (s : string) : float := fst (ParseFloat s).

Definition GetBalance : M (result (gmap string iface)) :=
  resp ← call (Account_GetAccount {| GetAccountRequest.Ccy := "USDT" |});
  match resp with
  | Err err => mret (Err (wrapError "OKX GetBalance 失败: " err))
  | Ok [] => mret (Err (errorString "OKX GetBalance: 未返回账户数据"))
  | Ok (acc :: _) =>
      let totalEq := parseFloat (Account.TotalEq acc) in
      let upl := parseFloat (Account.Upl acc) in
      let availEq := parseFloat (Account.AvailEq acc) in
      let totalWalletBalance := (totalEq - upl)%float in
      mret (Ok (<["totalWalletBalance" := I_float64 totalWalletBalance]>
               (<["availableBalance" := I_float64 availEq]>
               (<["totalUnrealizedProfit" := I_float64 upl]> ∅))))
  end.

(** The map built for one position in the loop of [GetPositions]. *)
Definition posMap (pos : Position.t) (posAmt : float) : gmap string iface :=
  <["liquidationPrice" := I_float64 (parseFloat (Position.LiqPx pos))]>
  (<["leverage" := I_float64 (parseFloat (Position.Lever pos))]>
  (<["unRealizedProfit" := I_float64 (parseFloat (Position.Upl pos))]>
  (<["markPrice" := I_float64 (parseFloat (Position.MarkPx pos))]>
  (<["entryPrice" := I_float64 (parseFloat (Position.AvgPx pos))]>
  (<["positionAmt" := I_float64 posAmt]>
  (<["side" := I_string (Position.PosSide pos)]>
  (<["symbol" := I_string (standardSymbol (Position.InstID pos))]> ∅))))))).

(** The body of the loop of [GetPositions]: [result] after one more [pos]. *)
Definition GetPositions_step (result : list (gmap string iface)) (pos : Position.t)
  : list (gmap string iface) :=
  let posAmt := parseFloat (Position.Pos pos) in
  if (posAmt =? 0)%float then result
  else result ++ [posMap pos posAmt].

Definition GetPositions : M (result (list (gmap string iface))) :=
  resp ← call (Account_GetPositions
                 {| GetPositionsRequest.InstType := "SWAP";
                    GetPositionsRequest.InstID := "" |});
  match resp with
  | Err err => mret (Err (wrapError "OKX GetPositions 失败: " err))
  | Ok data => mret (Ok (fold_left GetPositions_step data []))
  end.

Definition SetLeverage (symbol : string) (leverage : Z) : M (option error) :=
  let instID := okxSymbol symbol in
  let req := {| SetLeverageRequest.InstID := instID;
                SetLeverageRequest.Lever := fmt.Sprintf_d leverage;
                SetLeverageRequest.MgnMode := "isolated" |} in
  resp ← call (Account_SetLeverage req);
  match resp with
  | Err err =>
      if strings.Contains (Error err) "Leverage not change" then mret None
      else mret (Some (wrapError "OKX SetLeverage 失败: " err))
  | Ok _ => mret None
  end.

Definition getInstrument (instID : string) : M (result Instrument.t) :=
  resp ← call (Public_GetInstruments
                 {| GetInstrumentsRequest.InstType := "SWAP";
                    GetInstrumentsRequest.InstID := instID |});
  match resp with
  | Err err => mret (Err err)
  | Ok [] => mret (Err (errorString ("未找到合约信息: " +:+ instID)))
  | Ok (inst :: _) => mret (Ok inst)
  end.

Definition getLotSzPrecision (instID : string) : M (result Z) :=
  val ← Load (instID +:+ "_lotSz");
  match val with
  | Some v => mret (Ok v)
  | None =>
      inst ← getInstrument instID;
      match inst with
      | Err err => mret (Err err)
      | Ok inst =>
          let precision := calculatePrecision (Instrument.LotSz inst) in
          _ ← Store (instID +:+ "_lotSz") precision;
          mret (Ok precision)
      end
  end.

Definition getTickSzPrecision (instID : string) : M (result Z) :=
  val ← Load (instID +:+ "_tickSz");
  match val with
  | Some v => mret (Ok v)
  | None =>
      inst ← getInstrument instID;
      match inst with
      | Err err => mret (Err err)
      | Ok inst =>
          let precision := calculatePrecision (Instrument.TickSz inst) in
          _ ← Store (instID +:+ "_tickSz") precision;
          mret (Ok precision)
      end
  end.

Definition FormatQuantity (symbol : string) (quantity : float) : M (string * option error) :=
  let instID := okxSymbol symbol in
  r ← getLotSzPrecision instID;
  let precision := match r with Ok precision => precision | Err _ => 3%Z end in
  let format := Sprintf_format precision in
  mret (Sprintf format quantity, None).

Definition FormatPrice (symbol : string) (price : float) : M (string * option error) :=
  let instID := okxSymbol symbol in
  r ← getTickSzPrecision instID;
  let precision := match r with Ok precision => precision | Err _ => 2%Z end in
  let format := Sprintf_format precision in
  mret (Sprintf format price, None).

(** The request built by [placeOrder] before it is sent; [PosSide] is set
    only when [posSide] is not empty. *)
Definition orderRequest (instID side ordType posSide quantityStr : string)
  : PlaceOrderRequest.t :=
  {| PlaceOrderRequest.InstID := instID;
     PlaceOrderRequest.TdMode := "isolated";
     PlaceOrderRequest.Side := side;
     PlaceOrderRequest.OrdType := ordType;
     PlaceOrderRequest.Sz := quantityStr;
     PlaceOrderRequest.PosSide := if String.eqb posSide "" then "" else posSide |}.

(** [placeOrder], the internal order call. *)
Definition placeOrder (symbol side ordType posSide : string) (quantity : float)
  : M (result (gmap string iface)) :=
  let instID := okxSymbol symbol in
  '(quantityStr, err) ← FormatQuantity instID quantity;
  match err with
  | Some err => mret (Err err)
  | None =>
      resp ← call (Trade_PlaceOrder (orderRequest instID side ordType posSide quantityStr));
      match resp with
      | Err err =>
          mret (Err (wrapError
            ("OKX PlaceOrder 失败 (" +:+ instID +:+ " " +:+ side +:+ " "
               +:+ quantityStr +:+ "): ") err))
      | Ok [] => mret (Err (errorString "OKX PlaceOrder 未返回订单数据"))
      | Ok (orderData :: _) =>
          if negb (String.eqb (OrderData.SCode orderData) "0")
          then mret (Err (errorString
                 ("OKX 下单失败: " +:+ OrderData.SMsg orderData
                    +:+ " (code: " +:+ OrderData.SCode orderData +:+ ")")))
          else mret (Ok (<["status" := I_string "FILLED"]>
                         (<["symbol" := I_string symbol]>
                         (<["orderId" := I_string (OrderData.OrdID orderData)]> ∅))))
      end
  end.

(** The two requests of [CancelAllOrders]: the list of resting conditional
    orders of one kind, and the cancellation of one of them. *)
Definition listRequest (instID ordType : string) : Request :=
  Trade_GetAlgoOrderList
    {| GetAlgoOrderListRequest.InstType := "SWAP";
       GetAlgoOrderListRequest.InstID := instID;
       GetAlgoOrderListRequest.OrdType := ordType |}.

Definition cancelRequest (instID : string) (algo : AlgoOrder.t) : Request :=
  Trade_CancelAlgoOrder
    {| CancelAlgoOrderRequest.InstID := instID;
       CancelAlgoOrderRequest.AlgoID := AlgoOrder.AlgoID algo |}.

Definition CancelAllOrders (symbol : string) : M (option error) :=
  let instID := okxSymbol symbol in
  algoList ← call (listRequest instID "stop");
  _ ← match algoList with
      | Ok data => range data (fun algo => _ ← call (cancelRequest instID algo); mret tt)
      | Err _ => mret tt
      end;
  algoList ← call (listRequest instID "tp");
  _ ← match algoList with
      | Ok data => range data (fun algo => _ ← call (cancelRequest instID algo); mret tt)
      | Err _ => mret tt
      end;
  mret None.

Definition OpenLong (symbol : string) (quantity : float) (leverage : Z)
  : M (result (gmap string iface)) :=
  _ ← CancelAllOrders symbol;
  err ← SetLeverage symbol leverage;
  match err with
  | Some err => mret (Err err)
  | None => placeOrder symbol "buy" "market" "long" quantity
  end.

Definition OpenShort (symbol : string) (quantity : float) (leverage : Z)
  : M (result (gmap string iface)) :=
  _ ← CancelAllOrders symbol;
  err ← SetLeverage symbol leverage;
  match err with
  | Some err => mret (Err err)
  | None => placeOrder symbol "sell" "market" "short" quantity
  end.

(** The first position of the instrument on side [posSide]; [Ok None] is the
    pair [(nil, nil)] returned when there is none. *)
Definition getSpecificPosition (symbol posSide : string) : M (result (option Position.t)) :=
  let instID := okxSymbol symbol in
  resp ← call (Account_GetPositions
                 {| GetPositionsRequest.InstType := "";
                    GetPositionsRequest.InstID := instID |});
  match resp with
  | Err err => mret (Err err)
  | Ok data =>
      mret (Ok (find (fun pos => String.eqb (Position.PosSide pos) posSide) data))
  end.

Definition CloseLong (symbol : string) (quantity : float) : M (result (gmap string iface)) :=
  if (quantity =? 0)%float then
    r ← getSpecificPosition symbol "long";
    match r with
    | Err err => mret (Err err)
    | Ok None => mret (Err (errorString ("没有找到 " +:+ symbol +:+ " 的多仓")))
    | Ok (Some pos) =>
        placeOrder symbol "sell" "market" "long" (parseFloat (Position.Pos pos))
    end
  else placeOrder symbol "sell" "market" "long" quantity.

Definition CloseShort (symbol : string) (quantity : float) : M (result (gmap string iface)) :=
  if (quantity =? 0)%float then
    r ← getSpecificPosition symbol "short";
    match r with
    | Err err => mret (Err err)
    | Ok None => mret (Err (errorString ("没有找到 " +:+ symbol +:+ " 的空仓")))
    | Ok (Some pos) =>
        placeOrder symbol "buy" "market" "short" (parseFloat (Position.Pos pos))
    end
  else placeOrder symbol "buy" "market" "short" quantity.

Definition GetMarketPrice (symbol : string) : M (result float) :=
  let instID := okxSymbol symbol in
  resp ← call (Market_GetTicker {| GetTickerRequest.InstID := instID |});
  match resp with
  | Err err => mret (Err (wrapError "OKX GetTicker 失败: " err))
  | Ok [] => mret (Err (errorString ("OKX GetTicker: 未返回 " +:+ instID +:+ " 的数据")))
  | Ok (ticker :: _) => mret (Ok (parseFloat (Ticker.Last ticker)))
  end.

(** The request built by [placeAlgoOrder] before it is sent. *)
Definition algoRequest (symbol posSide ordType triggerPrice sz : string)
  : PlaceAlgoOrderRequest.t :=
  let instID := okxSymbol symbol in
  let side := if String.eqb posSide "short" then "buy" else "sell" in
  let isStop := String.eqb ordType "stop" in
  let isTp := negb isStop && String.eqb ordType "tp" in
  {| PlaceAlgoOrderRequest.InstID := instID;
     PlaceAlgoOrderRequest.TdMode := "isolated";
     PlaceAlgoOrderRequest.Side := side;
     PlaceAlgoOrderRequest.PosSide := posSide;
     PlaceAlgoOrderRequest.OrdType := ordType;
     PlaceAlgoOrderRequest.Sz := sz;
     PlaceAlgoOrderRequest.SlTriggerPx := if isStop then triggerPrice else "";
     PlaceAlgoOrderRequest.SlOrdPx := if isStop then "-1" else "";
     PlaceAlgoOrderRequest.TpTriggerPx := if isTp then triggerPrice else "";
     PlaceAlgoOrderRequest.TpOrdPx := if isTp then "-1" else "" |}.

(** [placeAlgoOrder], the internal call behind stop loss and take profit. *)
Definition placeAlgoOrder (symbol posSide ordType triggerPrice sz : string) : M (option error) :=
  resp ← call (Trade_PlaceAlgoOrder (algoRequest symbol posSide ordType triggerPrice sz));
  match resp with
  | Err err => mret (Some (wrapError "OKX PlaceAlgoOrder 失败: " err))
  | Ok [] => mret (Some (errorString "OKX PlaceAlgoOrder 未返回数据"))
  | Ok (d :: _) =>
      if negb (String.eqb (AlgoOrderData.SCode d) "0")
      then mret (Some (errorString
             ("OKX PlaceAlgoOrder 失败: " +:+ AlgoOrderData.SMsg d
                +:+ " (code: " +:+ AlgoOrderData.SCode d +:+ ")")))
      else mret None
  end.

Definition SetStopLoss (symbol positionSide : string) (quantity stopPrice : float)
  : M (option error) :=
  let posSide := strings.ToLower positionSide in
  '(quantityStr, err) ← FormatQuantity (okxSymbol symbol) quantity;
  match err with
  | Some err => mret (Some err)
  | None =>
      '(stopPriceStr, _) ← FormatPrice (okxSymbol symbol) stopPrice;
      placeAlgoOrder symbol posSide "stop" stopPriceStr quantityStr
  end.

Definition SetTakeProfit (symbol positionSide : string) (quantity takeProfitPrice : float)
  : M (option error) :=
  let posSide := strings.ToLower positionSide in
  '(quantityStr, err) ← FormatQuantity (okxSymbol symbol) quantity;
  match err with
  | Some err => mret (Some err)
  | None =>
      '(tpPriceStr, _) ← FormatPrice (okxSymbol symbol) takeProfitPrice;
      placeAlgoOrder symbol posSide "tp" tpPriceStr quantityStr
  end.

(** [strconv.ParseFloat] reports a syntax error on [s]. *)
Definition rejected (s : string) : bool :=
  match snd (ParseFloat s) with
  | Some strconv.ErrSyntax => true
  | _ => false
  end.

(** The requests [getLotSzPrecision] sends: none when the precision of
    [instID] is cached, the instrument query otherwise. *)
Definition lotSzQuery (w : World) (instID : string) : list Request :=
  match precisions w !! (instID +:+ "_lotSz") with
  | Some _ => []
  | None => [Public_GetInstruments
               {| GetInstrumentsRequest.InstType := "SWAP";
                  GetInstrumentsRequest.InstID := instID |}]
  end.

(** The requests [getTickSzPrecision] sends, in the same way. *)
Definition tickSzQuery (w : World) (instID : string) : list Request :=
  match precisions w !! (instID +:+ "_tickSz") with
  | Some _ => []
  | None => [Public_GetInstruments
               {| GetInstrumentsRequest.InstType := "SWAP";
                  GetInstrumentsRequest.InstID := instID |}]
  end.

(** An answer to a leverage request after which [SetLeverage] returns nil:
    the request went through, or the exchange says the leverage is already
    the one asked for. *)
Definition leverageAccepted (resp : result unit) : Prop :=
  match resp with
  | Ok _ => True
  | Err err => strings.Contains (Error err) "Leverage not change" = true
  end.

(** The exchange after it has answered the requests [rs] in turn. *)
Definition after (rs : list Request) (ex : Exchange) : Exchange :=
  fold_left (fun ex r => snd (api r ex)) rs ex.

(** The entries of a listing, none when the listing failed. *)
Definition entries {A : Type} (resp : result (list A)) : list A :=
  match resp with Ok data => data | Err _ => [] end.

(** The request of [SetLeverage]. *)
Definition leverageRequest (symbol : string) (leverage : Z) : Request :=
  Account_SetLeverage
    {| SetLeverageRequest.InstID := okxSymbol symbol;
       SetLeverageRequest.Lever := fmt.Sprintf_d leverage;
       SetLeverageRequest.MgnMode := "isolated" |}.

(** The requests [CancelAllOrders] sends when the exchange is in the state
    [ex]. *)
Definition cancelTrace (symbol : string) (ex : Exchange) : list Request :=
  let instID := okxSymbol symbol in
  let stops := entries (fst (api (listRequest instID "stop") ex)) in
  let first := listRequest instID "stop" :: (cancelRequest instID <$> stops) in
  let tps := entries (fst (api (listRequest instID "tp") (after first ex))) in
  first ++ listRequest instID "tp" :: (cancelRequest instID <$> tps).

(** A computation that leaves the precision cache as it is, and one that
    keeps every entry of it. *)
Definition keeps_cache {A : Type} (m : M A) : Prop :=
  forall w, precisions (snd (m w)) = precisions w.

Definition grows_cache {A : Type} (m : M A) : Prop :=
  forall w, precisions w ⊆ precisions (snd (m w)).

End Trader.

(** ** Sample instances

    A number scanner for plain decimal notation, the form in which the
    exchange sends numbers, and a small simulated exchange.  The statements
    below hold for every scanner and exchange; these instances are the ones
    they are run on. *)

Module Decimal.

(** The binary64 nearest to [mant / 10^frac], with the sign [neg]. *)
Definition nearest (neg : bool) (mant : Z) (frac : nat) : strconv.scanned :=
  match mant with
  | Zpos m =>
      match SFdiv prec emax
              (S754_finite neg m 0)
              (S754_finite false (Z.to_pos (10 ^ Z.of_nat frac)) 0) with
      | S754_infinity s => strconv.OutOfRange (SF2Prim (S754_infinity s))
      | f => strconv.Number (SF2Prim f)
      end
  | _ => strconv.Number (if neg then neg_zero else zero)
  end.

(** [sign digits [. digits]] with a digit on at least one side of the point;
    anything else is malformed. *)
Definition scan (s : string) : strconv.scanned :=
  let '(neg, s1) :=
    match s with
    | String "-" s' => (true, s')
    | String "+" s' => (false, s')
    | _ => (false, s)
    end in
  let '(int, ni, s2) := fmt.digits s1 0%Z 0%nat in
  match s2 with
  | EmptyString => if (ni =? 0)%nat then strconv.Malformed else nearest neg int 0
  | String "." s3 =>
      let '(mant, n, s4) := fmt.digits s3 int ni in
      match s4 with
      | EmptyString =>
          if (n =? 0)%nat then strconv.Malformed else nearest neg mant (n - ni)
      | _ => strconv.Malformed
      end
  | _ => strconv.Malformed
  end.

(** No format other than [%.<digits>f] comes up in the runs below. *)
Definition other (format : string) (f : float) : string := "%!(BADFORMAT)".

(** Modelled from the spec: [calculatePrecision] is defined in another file
    of the package; the spec gives it as the count of digits after the decimal
    point of the step, zero if the step is integral. *)
Fixpoint calculatePrecision (step : string) : Z :=
  match step with
  | EmptyString => 0%Z
  | String "." rest => Z.of_nat (String.length rest)
  | String _ rest => calculatePrecision rest
  end.

End Decimal.

Module Sim.

(** What goes wrong with a request: it is lost in transport, or it is
    answered with no entry. *)
Inductive fault : Type := Dropped | Blank.

(** A simulated exchange: account, positions, listed instruments, leverage
    per instrument, resting conditional orders [(instID, ordType, algoID)],
    and the requests that go wrong. *)
Record t : Type := {
  accounts : list Account.t;
  positions : list Position.t;
  instruments : list (string * Instrument.t);
  leverage : gmap string string;
  algos : list (string * string * string);
  faults : Request -> option fault }.

Definition listed (ex : t) (instID : string) : option Instrument.t :=
  snd <$> find (fun e => String.eqb (fst e) instID) (instruments ex).

(** The answer that carries no entry. *)
Definition blank (r : Request) : result (Data r) :=
  match r return result (Data r) with
  | Account_GetAccount _ => Ok []
  | Account_GetPositions _ => Ok []
  | Account_SetLeverage _ => Ok tt
  | Trade_PlaceOrder _ => Ok []
  | Trade_PlaceAlgoOrder _ => Ok []
  | Trade_GetAlgoOrderList _ => Ok []
  | Trade_CancelAlgoOrder _ => Ok tt
  | Market_GetTicker _ => Ok []
  | Public_GetInstruments _ => Ok []
  end.

Definition answer (r : Request) (ex : t) : result (Data r) * t :=
  match faults ex r with
  | Some Dropped => (Err (errorString "connection reset by peer"), ex)
  | Some Blank => (blank r, ex)
  | None =>
  match r return result (Data r) * t with
  | Account_GetAccount _ => (Ok (accounts ex), ex)
  | Account_GetPositions req =>
      (Ok (filter (fun p : Position.t =>
             GetPositionsRequest.InstID req = ""
             ∨ Position.InstID p = GetPositionsRequest.InstID req) (positions ex)), ex)
  | Account_SetLeverage req =>
      if decide (leverage ex !! SetLeverageRequest.InstID req
                 = Some (SetLeverageRequest.Lever req))
      then (Err (errorString "59108: Leverage not change"), ex)
      else (Ok tt,
            {| accounts := accounts ex; positions := positions ex;
               instruments := instruments ex;
               leverage := <[SetLeverageRequest.InstID req := SetLeverageRequest.Lever req]>
                             (leverage ex);
               algos := algos ex; faults := faults ex |})
  | Trade_PlaceOrder req =>
      match listed ex (PlaceOrderRequest.InstID req) with
      | Some _ => (Ok [ {| OrderData.OrdID := "1001"; OrderData.SCode := "0";
                           OrderData.SMsg := "" |} ], ex)
      | None => (Ok [ {| OrderData.OrdID := ""; OrderData.SCode := "51001";
                         OrderData.SMsg := "Instrument ID does not exist" |} ], ex)
      end
  | Trade_PlaceAlgoOrder req =>
      (Ok [ {| AlgoOrderData.SCode := "0"; AlgoOrderData.SMsg := "" |} ], ex)
  | Trade_GetAlgoOrderList req =>
      (Ok ((fun a => {| AlgoOrder.AlgoID := snd a |}) <$>
           filter (fun a : string * string * string =>
             fst a = (GetAlgoOrderListRequest.InstID req,
                      GetAlgoOrderListRequest.OrdType req)) (algos ex)), ex)
  | Trade_CancelAlgoOrder req =>
      (Ok tt,
       {| accounts := accounts ex; positions := positions ex;
          instruments := instruments ex; leverage := leverage ex;
          algos := filter (fun a : string * string * string =>
                     snd a ≠ CancelAlgoOrderRequest.AlgoID req) (algos ex);
          faults := faults ex |})
  | Market_GetTicker req => (Ok [], ex)
  | Public_GetInstruments req =>
      match listed ex (GetInstrumentsRequest.InstID req) with
      | Some inst => (Ok [inst], ex)
      | None => (Err (errorString "51001: Instrument ID does not exist"), ex)
      end
  end
  end.

(** An exchange that lists the BTC, ETH and SOL swaps, holds a flat BTC long,
    an ETH short of 2.5 and a SOL long of 2.0, and has one stop and two
    take-profit orders resting on BTC. *)
Definition demo : t := {|
  accounts := [ {| Account.TotalEq := "1000"; Account.Upl := "50";
                   Account.AvailEq := "800" |} ];
  positions :=
    [ {| Position.InstID := "BTC-USDT-SWAP"; Position.Pos := "0";
         Position.PosSide := "long"; Position.AvgPx := ""; Position.MarkPx := "";
         Position.Upl := ""; Position.Lever := "5"; Position.LiqPx := "" |};
      {| Position.InstID := "ETH-USDT-SWAP"; Position.Pos := "2.5";
         Position.PosSide := "short"; Position.AvgPx := "3000.5";
         Position.MarkPx := "2990"; Position.Upl := "26.25"; Position.Lever := "5";
         Position.LiqPx := "" |};
      {| Position.InstID := "SOL-USDT-SWAP"; Position.Pos := "2.0";
         Position.PosSide := "long"; Position.AvgPx := "150"; Position.MarkPx := "151";
         Position.Upl := "2"; Position.Lever := "3"; Position.LiqPx := "101.5" |} ];
  instruments :=
    [ ("BTC-USDT-SWAP", {| Instrument.LotSz := "0.01"; Instrument.TickSz := "0.1" |});
      ("ETH-USDT-SWAP", {| Instrument.LotSz := "0.1"; Instrument.TickSz := "0.01" |});
      ("SOL-USDT-SWAP", {| Instrument.LotSz := "1"; Instrument.TickSz := "0.001" |}) ];
  leverage := ∅;
  algos := [ ("BTC-USDT-SWAP", "stop", "sl-1"); ("BTC-USDT-SWAP", "tp", "tp-1");
             ("BTC-USDT-SWAP", "tp", "tp-2") ];
  faults := fun _ => None |}.

(** [ex] with the faults [f]. *)
Definition failing (f : Request -> option fault) (ex : t) : t := {|
  accounts := accounts ex; positions := positions ex;
  instruments := instruments ex; leverage := leverage ex;
  algos := algos ex; faults := f |}.

(** The demo exchange with the instrument query down. *)
Definition no_metadata : t :=
  failing (fun r => match r with Public_GetInstruments _ => Some Dropped | _ => None end)
    demo.

(** The demo exchange with the listing of stop orders down. *)
Definition no_stop_listing : t :=
  failing (fun r => match r with
                    | Trade_GetAlgoOrderList req =>
                        if String.eqb (GetAlgoOrderListRequest.OrdType req) "stop"
                        then Some Dropped else None
                    | _ => None
                    end) demo.

(** The demo exchange with order placement lost in transport, and with order
    placement answered by no entry. *)
Definition orders_dropped : t :=
  failing (fun r => match r with Trade_PlaceOrder _ => Some Dropped | _ => None end) demo.

Definition orders_blank : t :=
  failing (fun r => match r with Trade_PlaceOrder _ => Some Blank | _ => None end) demo.

(** The demo exchange with leverage requests lost in transport. *)
Definition leverage_dropped : t :=
  failing (fun r => match r with Account_SetLeverage _ => Some Dropped | _ => None end)
    demo.

(** An exchange whose account and first position carry fields that are not
    numbers. *)
Definition garbled : t := {|
  accounts := [ {| Account.TotalEq := ""; Account.Upl := "--";
                   Account.AvailEq := "n/a" |} ];
  positions :=
    [ {| Position.InstID := "BTC-USDT-SWAP"; Position.Pos := "n/a";
         Position.PosSide := "long"; Position.AvgPx := ""; Position.MarkPx := "";
         Position.Upl := ""; Position.Lever := ""; Position.LiqPx := "" |};
      {| Position.InstID := "ETH-USDT-SWAP"; Position.Pos := "2.5";
         Position.PosSide := "short"; Position.AvgPx := "3000.5";
         Position.MarkPx := "2990"; Position.Upl := "26.25"; Position.Lever := "5";
         Position.LiqPx := "" |} ];
  instruments := instruments demo;
  leverage := ∅;
  algos := [];
  faults := fun _ => None |}.

(** An exchange that reports the amount of its one position and the fields
    of its account as "NaN". *)
Definition not_a_number : t := {|
  accounts := [ {| Account.TotalEq := "NaN"; Account.Upl := "NaN";
                   Account.AvailEq := "NaN" |} ];
  positions :=
    [ {| Position.InstID := "BTC-USDT-SWAP"; Position.Pos := "NaN";
         Position.PosSide := "long"; Position.AvgPx := ""; Position.MarkPx := "";
         Position.Upl := ""; Position.Lever := ""; Position.LiqPx := "" |} ];
  instruments := instruments demo;
  leverage := ∅;
  algos := [];
  faults := fun _ => None |}.

(** The demo exchange with the listing of positions lost in transport. *)
Definition positions_dropped : t :=
  failing (fun r => match r with Account_GetPositions _ => Some Dropped | _ => None end)
    demo.

(** The demo exchange with ticker requests lost in transport, with
    conditional orders answered by no entry, and with the account request
    answered by no entry. *)
Definition ticker_dropped : t :=
  failing (fun r => match r with Market_GetTicker _ => Some Dropped | _ => None end) demo.

Definition algo_blank : t :=
  failing (fun r => match r with Trade_PlaceAlgoOrder _ => Some Blank | _ => None end) demo.

Definition account_blank : t :=
  failing (fun r => match r with Account_GetAccount _ => Some Blank | _ => None end) demo.

(** A client that answers a ticker request with [tickers], unless the
    request goes wrong, and every other request as [answer] does. *)
Definition quoting (tickers : list Ticker.t) (r : Request) (ex : t) : result (Data r) * t :=
  match r return result (Data r) * t with
  | Market_GetTicker req =>
      match faults ex (Market_GetTicker req) with
      | Some _ => answer (Market_GetTicker req) ex
      | None => (Ok tickers, ex)
      end
  | r' => answer r' ex
  end.

(** A trader that has just been created on the exchange [ex]. *)
Definition fresh (ex : t) : World := {| exchange := ex; precisions := ∅; sent := [] |}.

End Sim.

(** * Properties *)

(** ** Strings *)

Section StringFacts.

Example okxSymbol_btc : okxSymbol "BTCUSDT" = "BTC-USDT-SWAP".
Proof. reflexivity. Qed.

Example okxSymbol_twice : okxSymbol (okxSymbol "BTCUSDT") = "BTC-USDT-SWAP-USDT-SWAP".
Proof. reflexivity. Qed.

Lemma length_app (a b : string) :
  String.length (a +:+ b) = (String.length a + String.length b)%nat.
Proof. induction a as [|c a IH]; simpl; [reflexivity | now rewrite IH]. Qed.

Lemma take_app (a b : string) : strings.take (String.length a) (a +:+ b) = a.
Proof.
  induction a as [|c a IH]; simpl.
  - now destruct b.
  - now rewrite IH.
Qed.

Lemma drop_app (a b : string) : strings.drop (String.length a) (a +:+ b) = b.
Proof. induction a as [|c a IH]; simpl; [now destruct b | exact IH]. Qed.

Lemma drop_app_more (a b : string) (n : nat) :
  strings.drop (String.length a + n) (a +:+ b) = strings.drop n b.
Proof. induction a as [|c a IH]; simpl; [reflexivity | exact IH]. Qed.

Lemma app_cons (c : ascii) (a b : string) : String c a +:+ b = String c (a +:+ b).
Proof. reflexivity. Qed.

Lemma take_drop (n : nat) (s : string) : strings.take n s +:+ strings.drop n s = s.
Proof.
  revert s; induction n as [|n IH]; intros [|c s]; simpl; try reflexivity.
  now rewrite app_cons, IH.
Qed.

Lemma length_take (n : nat) (s : string) :
  (n <= String.length s)%nat -> String.length (strings.take n s) = n.
Proof.
  revert s; induction n as [|n IH]; intros [|c s]; simpl; intros H; try lia.
  rewrite IH; lia.
Qed.

Lemma length_drop (n : nat) (s : string) :
  String.length (strings.drop n s) = (String.length s - n)%nat.
Proof.
  revert s; induction n as [|n IH]; intros [|c s]; simpl; try reflexivity.
  apply IH.
Qed.

Lemma HasPrefix_cons (a b : ascii) (s p : string) :
  strings.HasPrefix (String a s) (String b p) = Ascii.eqb a b && strings.HasPrefix s p.
Proof.
  unfold strings.HasPrefix; simpl.
  destruct (Ascii.eqb a b), (String.length p <=? String.length s)%nat; reflexivity.
Qed.

Lemma HasPrefix_nil (s : string) : strings.HasPrefix s "" = true.
Proof. now destruct s. Qed.

Lemma HasPrefix_app (p b : string) : strings.HasPrefix (p +:+ b) p = true.
Proof.
  induction p as [|c p IH].
  - apply HasPrefix_nil.
  - rewrite app_cons, HasPrefix_cons, IH, Ascii.eqb_refl. reflexivity.
Qed.

Lemma HasSuffix_app (a suffix : string) : strings.HasSuffix (a +:+ suffix) suffix = true.
Proof.
  unfold strings.HasSuffix. rewrite length_app.
  replace (String.length a + String.length suffix - String.length suffix)%nat
    with (String.length a) by lia.
  rewrite drop_app, String.eqb_refl, andb_true_r.
  apply Nat.leb_le. lia.
Qed.

Lemma HasSuffix_split (s suffix : string) :
  strings.HasSuffix s suffix = true ->
  s = strings.take (String.length s - String.length suffix) s +:+ suffix.
Proof.
  unfold strings.HasSuffix. intros H.
  apply andb_true_iff in H as [_ H]. apply String.eqb_eq in H.
  etransitivity; [symmetry; apply (take_drop (String.length s - String.length suffix))|].
  now rewrite H.
Qed.

Lemma Index_bound (s old : string) (j : nat) :
  strings.Index s old = Some j -> (j + String.length old <= String.length s)%nat.
Proof.
  revert j; induction s as [|c s IH]; intros j; simpl.
  - destruct (strings.HasPrefix "" old) eqn:E; [|discriminate].
    intros [= <-]. unfold strings.HasPrefix in E.
    apply andb_true_iff in E as [E _]. apply Nat.leb_le in E. simpl in *. lia.
  - destruct (strings.HasPrefix (String c s) old) eqn:E.
    + intros [= <-]. unfold strings.HasPrefix in E.
      apply andb_true_iff in E as [E _]. apply Nat.leb_le in E. simpl in *. lia.
    + destruct (strings.Index s old) as [i|]; simpl; [|discriminate].
      intros [= <-]. specialize (IH i eq_refl). lia.
Qed.

Lemma length_Replace1 (s old new : string) (j : nat) :
  strings.Index s old = Some j ->
  (String.length (strings.Replace1 s old new) + String.length old
   = String.length s + String.length new)%nat.
Proof.
  intros H. unfold strings.Replace1. rewrite H.
  pose proof (Index_bound _ _ _ H) as Hb.
  rewrite !length_app, length_drop, length_take by lia. lia.
Qed.

(** The instrument ID is always longer than the symbol it is made from. *)
Lemma okxSymbol_longer (symbol : string) :
  (String.length symbol < String.length (okxSymbol symbol))%nat.
Proof.
  unfold okxSymbol. destruct (strings.HasSuffix symbol "USDT") eqn:E.
  - destruct (strings.Index symbol "USDT") as [j|] eqn:Ej.
    + pose proof (length_Replace1 symbol "USDT" "-USDT-SWAP" j Ej) as H.
      simpl in H. lia.
    + exfalso. rewrite (HasSuffix_split _ _ E) in Ej.
      revert Ej. generalize (strings.take (String.length symbol - String.length "USDT") symbol).
      intros a. induction a as [|c a IH]; simpl.
      * discriminate.
      * destruct (strings.HasPrefix _ _); [discriminate|].
        destruct (strings.Index (a +:+ "USDT") "USDT"); [discriminate|]. auto.
  - rewrite length_app. simpl. lia.
Qed.

(** Translating an instrument ID once more never gives it back. *)
Lemma okxSymbol_not_idempotent (symbol : string) :
  okxSymbol (okxSymbol symbol) <> okxSymbol symbol.
Proof.
  intros H. pose proof (okxSymbol_longer (okxSymbol symbol)) as L.
  rewrite H in L. lia.
Qed.

Lemma Index_cons_miss (c : ascii) (s old : string) :
  strings.HasPrefix (String c s) old = false ->
  strings.Index (String c s) old = S <$> strings.Index s old.
Proof. intros H. simpl. now rewrite H. Qed.

Lemma Index_hit (s old : string) :
  strings.HasPrefix s old = true -> strings.Index s old = Some 0%nat.
Proof. intros H. destruct s; simpl; now rewrite H. Qed.

(** When the quote asset occurs in a symbol only as its suffix, the swap
    suffix occurs in the instrument ID only as its suffix. *)
Lemma Index_swap_suffix (b : string) :
  strings.Index (b +:+ "USDT") "USDT" = Some (String.length b) ->
  strings.Index (b +:+ "-USDT-SWAP") "-USDT-SWAP" = Some (String.length b).
Proof.
  induction b as [|c b IH]; [reflexivity|].
  rewrite !app_cons. intros H.
  destruct (strings.HasPrefix (String c (b +:+ "USDT")) "USDT") eqn:E.
  { rewrite (Index_hit _ _ E) in H. discriminate. }
  rewrite (Index_cons_miss _ _ _ E) in H.
  destruct (strings.Index (b +:+ "USDT") "USDT") as [i|] eqn:Ei; [|discriminate].
  injection H as ->.
  destruct (strings.HasPrefix (String c (b +:+ "-USDT-SWAP")) "-USDT-SWAP") eqn:F.
  - exfalso. rewrite HasPrefix_cons in F. apply andb_true_iff in F as [_ F].
    destruct b as [|c1 [|c2 [|c3 [|c4 b]]]];
      rewrite ?app_cons, ?HasPrefix_cons in F; cbn in F;
      rewrite ?andb_false_r in F; try discriminate.
    assert (G : strings.HasPrefix
                  (String c1 (String c2 (String c3 (String c4 b))) +:+ "USDT") "USDT" = true).
    { rewrite !app_cons, !HasPrefix_cons, HasPrefix_nil.
      repeat (apply andb_true_iff in F as [-> F]). reflexivity. }
    rewrite (Index_hit _ _ G) in Ei. discriminate.
  - rewrite (Index_cons_miss _ _ _ F), (IH eq_refl). reflexivity.
Qed.

(** The round trip is the identity on a symbol whose only occurrence of the
    quote asset is its suffix. *)
Lemma roundtrip_single_quote (s : string) :
  strings.HasSuffix s "USDT" = true ->
  strings.Index s "USDT" = Some (String.length s - 4)%nat ->
  standardSymbol (okxSymbol s) = s.
Proof.
  intros Hs Hi. pose proof (HasSuffix_split _ _ Hs) as E.
  assert (L : (4 <= String.length s)%nat).
  { unfold strings.HasSuffix in Hs. apply andb_true_iff in Hs as [Hs _].
    now apply Nat.leb_le in Hs. }
  change (String.length "USDT") with 4%nat in E.
  set (b := strings.take (String.length s - 4) s) in *.
  assert (Lb : String.length b = (String.length s - 4)%nat)
    by (apply length_take; lia).
  rewrite <- Lb in Hi. rewrite E in Hi |- *. clear E.
  assert (O : okxSymbol (b +:+ "USDT") = b +:+ "-USDT-SWAP").
  { unfold okxSymbol, strings.Replace1.
    rewrite HasSuffix_app, Hi, take_app, drop_app_more. reflexivity. }
  rewrite O. unfold standardSymbol, strings.Replace1.
  rewrite HasSuffix_app, (Index_swap_suffix _ Hi), take_app, drop_app_more.
  reflexivity.
Qed.

End StringFacts.

(** ** Fixed-point rendering *)

Section Rendering.

Lemma digits_only_app (a b : string) :
  digits_only (a +:+ b) = digits_only a && digits_only b.
Proof.
  induction a as [|c a IH]; [reflexivity|].
  rewrite app_cons. cbn [digits_only]. now rewrite IH, andb_assoc.
Qed.

Lemma length_fraction (width : nat) (v : Z) :
  String.length (fmt.fraction width v) = width.
Proof.
  revert v; induction width as [|width IH]; intros v; [reflexivity|].
  cbn [fmt.fraction]. rewrite length_app, IH. simpl. lia.
Qed.

Lemma is_digit_of_nat (k : nat) :
  (k < 10)%nat -> is_digit (Ascii.ascii_of_nat (48 + k)) = true.
Proof.
  intros H. do 10 (destruct k as [|k]; [reflexivity|]). lia.
Qed.

Lemma digits_only_fraction (width : nat) (v : Z) :
  digits_only (fmt.fraction width v) = true.
Proof.
  revert v; induction width as [|width IH]; intros v; [reflexivity|].
  cbn [fmt.fraction]. rewrite digits_only_app, IH. cbn [digits_only andb].
  rewrite is_digit_of_nat; [reflexivity|].
  pose proof (Z.mod_pos_bound v 10 ltac:(lia)). lia.
Qed.

Lemma digits_only_uint (u : Decimal.uint) :
  digits_only (NilEmpty.string_of_uint u) = true.
Proof. induction u; cbn; auto. Qed.

(** An integer is written with one digit at least, and digits only. *)
Lemma string_of_uint_digits (u : Decimal.uint) :
  exists c rest,
    NilZero.string_of_uint u = String c rest
    /\ is_digit c = true /\ digits_only rest = true.
Proof.
  destruct u; cbn; eexists _, _; (split; [reflexivity|]); split;
    try reflexivity; apply digits_only_uint.
Qed.

Lemma skip_digits_point (int frac : string) :
  digits_only int = true ->
  skip_digits (int +:+ String "." frac) = String "." frac.
Proof.
  induction int as [|c int IH]; [reflexivity|].
  rewrite app_cons. cbn [digits_only skip_digits].
  intros H. apply andb_true_iff in H as [-> H]. now apply IH.
Qed.

(** A number written by [fmt.fixed] with a precision above 0, signed or not,
    is in fixed-point notation with that many decimals. *)
Lemma fixed_is_fixed_point (negative : bool) (k : Z) (precision : nat) :
  (0 < precision)%nat ->
  is_fixed_point precision
    ((if negative then "-" else "") +:+ fmt.fixed k precision) = true.
Proof.
  intros Hp. unfold fmt.fixed.
  destruct (precision =? 0)%nat eqn:E; [apply Nat.eqb_eq in E; lia|].
  destruct (string_of_uint_digits
              (N.to_uint (Z.to_N (k / 10 ^ Z.of_nat precision))))
    as (c & rest & -> & Hc & Hr).
  set (frac := fmt.fraction precision (k mod 10 ^ Z.of_nat precision)).
  rewrite app_cons. change ("." +:+ frac) with (String "." frac).
  assert (B : is_digit c
              && match skip_digits (String c (rest +:+ String "." frac)) with
                 | String "." frac =>
                     digits_only frac && (String.length frac =? precision)%nat
                 | _ => false
                 end = true).
  { cbn [skip_digits]. rewrite Hc, (skip_digits_point _ _ Hr). cbn [andb].
    subst frac. now rewrite digits_only_fraction, length_fraction, Nat.eqb_refl. }
  destruct negative.
  - exact B.
  - unfold is_fixed_point. cbn [String.append].
    destruct c as [[] [] [] [] [] [] [] []]; try exact B; discriminate.
Qed.

(** Under [%.<precision>f] a float that is neither NaN nor an infinity is
    written in fixed-point notation with [precision] decimals. *)
Lemma fmtFloat_is_fixed_point (precision : nat) (f : float) :
  (0 < precision)%nat ->
  is_finite f = true ->
  is_fixed_point precision (fmt.fmtFloat precision f) = true.
Proof.
  intros Hp Hf. unfold is_finite in Hf.
  apply negb_true_iff, orb_false_iff in Hf as [Hn Hi].
  unfold fmt.fmtFloat. destruct (Prim2SF f) as [s|s| |s m e] eqn:E.
  - now apply fixed_is_fixed_point.
  - exfalso. unfold Prim2SF in E. rewrite Hn, Hi in E.
    destruct (is_zero f); [discriminate|].
    destruct (Z.frexp f) as [r ex].
    destruct (shr_fexp _ _ _ _ _) as [shr e'].
    destruct (shr_m shr); discriminate.
  - exfalso. unfold Prim2SF in E. rewrite Hn, Hi in E.
    destruct (is_zero f); [discriminate|].
    destruct (Z.frexp f) as [r ex].
    destruct (shr_fexp _ _ _ _ _) as [shr e'].
    destruct (shr_m shr); discriminate.
  - now apply fixed_is_fixed_point.
Qed.

End Rendering.

(** ** The trader *)

Section TraderFacts.

Context {Exchange : Type}.
Variable api : forall r : Request, Exchange -> result (Data r) * Exchange.
Variable scan : string -> strconv.scanned.
Variable Sprintf_other : string -> float -> string.
Variable calculatePrecision : string -> Z.

Lemma call_run (r : Request) (w : World) :
  call api r w
  = (fst (api r (exchange w)),
     {| exchange := snd (api r (exchange w));
        precisions := precisions w;
        sent := sent w ++ [r] |}).
Proof. unfold call. now destruct (api r (exchange w)). Qed.

Lemma bind_run {A B : Type} (m : M A) (k : A -> M B) (w : World (Exchange:=Exchange)) :
  (m ≫= k) w = k (fst (m w)) (snd (m w)).
Proof. unfold mbind, M_bind. now destruct (m w). Qed.

Lemma ret_run {A : Type} (a : A) (w : World (Exchange:=Exchange)) :
  mret (M:=M) a w = (a, w).
Proof. reflexivity. Qed.

Lemma after_cons (r : Request) (rs : list Request) (ex : Exchange) :
  after api (r :: rs) ex = after api rs (snd (api r ex)).
Proof. reflexivity. Qed.

Lemma after_app (rs rs' : list Request) (ex : Exchange) :
  after api (rs ++ rs') ex = after api rs' (after api rs ex).
Proof. apply fold_left_app. Qed.

(** The cancellation loop sends one request per entry, whatever the answers. *)
Lemma range_cancel (instID : string) (data : list AlgoOrder.t) (w : World) :
  range data (fun algo => _ ← call api (cancelRequest instID algo); mret tt) w
  = (tt, {| exchange := after api (cancelRequest instID <$> data) (exchange w);
            precisions := precisions w;
            sent := sent w ++ (cancelRequest instID <$> data) |}).
Proof.
  revert w; induction data as [|algo data IH]; intros w.
  - simpl. rewrite app_nil_r. now destruct w.
  - cbn [range]. rewrite !bind_run, call_run, ret_run. cbn [fst snd].
    rewrite IH. cbn. now rewrite <- app_assoc.
Qed.

(** C6: [CancelAllOrders] returns nil whatever the exchange answers.  It
    sends the stop listing, one cancellation per stop order listed, the
    take-profit listing, and one cancellation per take-profit order listed: a
    failed listing counts as an empty one and the pass for the other kind
    still runs, and no answer to a cancellation stops the loop. *)
Theorem CancelAllOrders_best_effort (symbol : string) (w : World) :
  let instID := okxSymbol symbol in
  let stops := entries (fst (api (listRequest instID "stop") (exchange w))) in
  let ex1 :=
    after api (listRequest instID "stop" :: (cancelRequest instID <$> stops)) (exchange w) in
  let tps := entries (fst (api (listRequest instID "tp") ex1)) in
  let out := CancelAllOrders api symbol w in
  fst out = None
  /\ sent (snd out)
     = sent w ++ listRequest instID "stop" :: (cancelRequest instID <$> stops)
              ++ listRequest instID "tp" :: (cancelRequest instID <$> tps)
  /\ In (listRequest instID "tp") (sent (snd out))
  /\ (forall algo, In algo tps -> In (cancelRequest instID algo) (sent (snd out))).
Proof.
  intros instID stops ex1 tps out.
  assert (E : out = (None,
            {| exchange := after api (listRequest instID "stop" :: (cancelRequest instID <$> stops)
                             ++ listRequest instID "tp" :: (cancelRequest instID <$> tps))
                             (exchange w);
               precisions := precisions w;
               sent := sent w ++ listRequest instID "stop" :: (cancelRequest instID <$> stops)
                        ++ listRequest instID "tp" :: (cancelRequest instID <$> tps) |})).
  { subst out. unfold CancelAllOrders. fold instID.
    rewrite bind_run, call_run. cbn [fst snd].
    assert (P : forall (resp : result (list AlgoOrder.t)) (v : World),
              match resp with
              | Ok data =>
                  range data (fun algo => _ ← call api (cancelRequest instID algo); mret tt)
              | Err _ => mret tt
              end v
              = (tt, {| exchange := after api (cancelRequest instID <$> entries resp) (exchange v);
                        precisions := precisions v;
                        sent := sent v ++ (cancelRequest instID <$> entries resp) |})).
    { intros [data|err] v; cbn [entries].
      - apply range_cancel.
      - rewrite ret_run. cbn. rewrite app_nil_r. now destruct v. }
    rewrite bind_run, P. cbn [fst snd exchange precisions sent].
    rewrite bind_run, call_run. cbn [fst snd exchange precisions sent].
    rewrite bind_run, P. cbn [fst snd exchange precisions sent].
    rewrite ret_run. subst tps ex1. fold stops.
    rewrite after_cons, (after_cons (listRequest instID "stop")), !after_app, !after_cons.
    cbn [after fold_left]. rewrite <- !app_assoc. reflexivity. }
  rewrite E. cbn [fst snd sent]. split; [reflexivity|]. split; [reflexivity|].
  split.
  - apply in_or_app. right. right. apply in_or_app. right. now left.
  - intros algo H. apply in_or_app. right. right. apply in_or_app. right. right.
    apply in_map_iff. exists algo. split; [reflexivity | exact H].
Qed.

(** Runs the binds, calls and returns at the head of a computation. *)
Ltac step :=
  repeat first
    [ rewrite bind_run
    | rewrite call_run
    | rewrite ret_run
    | progress cbn [fst snd exchange precisions sent] ].

(** C7: [SetLeverage] returns nil when the exchange accepts the request and
    when it refuses it with an error whose message contains "Leverage not
    change"; it hands any other error back, wrapped.  Two calls in a row, each
    answered in one of the first two ways, both return nil. *)
Theorem SetLeverage_unchanged_is_success (symbol : string) (leverage : Z) (w : World) :
  let req :=
    Account_SetLeverage
      {| SetLeverageRequest.InstID := okxSymbol symbol;
         SetLeverageRequest.Lever := fmt.Sprintf_d leverage;
         SetLeverageRequest.MgnMode := "isolated" |} in
  let first := SetLeverage api symbol leverage w in
  let second := SetLeverage api symbol leverage (snd first) in
  (forall u ex', api req (exchange w) = (Ok u, ex') -> fst first = None)
  /\ (forall err ex', api req (exchange w) = (Err err, ex') ->
        strings.Contains (Error err) "Leverage not change" = true -> fst first = None)
  /\ (forall err ex', api req (exchange w) = (Err err, ex') ->
        strings.Contains (Error err) "Leverage not change" = false ->
        fst first = Some (wrapError "OKX SetLeverage 失败: " err))
  /\ (leverageAccepted (fst (api req (exchange w))) ->
      leverageAccepted (fst (api req (exchange (snd first)))) ->
      fst first = None /\ fst second = None).
Proof.
  intros req first second.
  assert (R : forall v, fst (SetLeverage api symbol leverage v)
    = match fst (api req (exchange v)) with
      | Ok _ => None
      | Err err =>
          if strings.Contains (Error err) "Leverage not change" then None
          else Some (wrapError "OKX SetLeverage 失败: " err)
      end).
  { intros v. unfold SetLeverage. fold req. step.
    destruct (fst (api req (exchange v))) as [u|err]; [reflexivity|].
    now destruct (strings.Contains _ _). }
  subst first second. rewrite !R.
  repeat split.
  - intros u ex' H. now rewrite H.
  - intros err ex' H C. rewrite H. cbn. now rewrite C.
  - intros err ex' H C. rewrite H. cbn. now rewrite C.
  - destruct (fst (api req (exchange w))) as [u|err]; cbn in *; [reflexivity|].
    now rewrite H.
  - destruct (fst (api req (exchange (snd _)))) as [u|err]; cbn in *; [reflexivity|].
    now rewrite H0.
Qed.

(** C4 (amended): [FormatQuantity] and [FormatPrice] return a nil error in
    every world.  When the precision is not cached and the instrument query
    fails or comes back empty, the quantity is rendered under [%.3f] and the
    price under [%.2f]: a value that is neither NaN nor an infinity comes out
    in fixed-point notation with exactly 3, respectively 2, decimal digits. *)
Theorem Format_fallback (symbol : string) (value : float) (w : World) :
  let instID := okxSymbol symbol in
  let lookup :=
    fst (api (Public_GetInstruments
                {| GetInstrumentsRequest.InstType := "SWAP";
                   GetInstrumentsRequest.InstID := instID |}) (exchange w)) in
  let unavailable := match lookup with Ok (_ :: _) => False | _ => True end in
  let quantityStr :=
    fst (FormatQuantity api Sprintf_other calculatePrecision symbol value w) in
  let priceStr :=
    fst (FormatPrice api Sprintf_other calculatePrecision symbol value w) in
  snd quantityStr = None
  /\ snd priceStr = None
  /\ (precisions w !! (instID +:+ "_lotSz") = None -> unavailable ->
      fst quantityStr = fmt.fmtFloat 3 value
      /\ (is_finite value = true -> is_fixed_point 3 (fst quantityStr) = true))
  /\ (precisions w !! (instID +:+ "_tickSz") = None -> unavailable ->
      fst priceStr = fmt.fmtFloat 2 value
      /\ (is_finite value = true -> is_fixed_point 2 (fst priceStr) = true)).
Proof.
  intros instID lookup unavailable quantityStr priceStr.
  subst quantityStr priceStr.
  unfold FormatQuantity, FormatPrice. fold instID. step.
  split; [reflexivity|]. split; [reflexivity|]. split.
  - intros Hc Hu. unfold getLotSzPrecision, getInstrument, Load. step.
    rewrite Hc. step. fold lookup.
    assert (E : Sprintf Sprintf_other (Sprintf_format 3) value = fmt.fmtFloat 3 value)
      by reflexivity.
    destruct lookup as [[|inst rest]|err]; cbn in Hu |- *; try contradiction;
      rewrite E; (split; [reflexivity|]); intros Hf;
      apply fmtFloat_is_fixed_point; [lia | exact Hf | lia | exact Hf].
  - intros Hc Hu. unfold getTickSzPrecision, getInstrument, Load. step.
    rewrite Hc. step. fold lookup.
    assert (E : Sprintf Sprintf_other (Sprintf_format 2) value = fmt.fmtFloat 2 value)
      by reflexivity.
    destruct lookup as [[|inst rest]|err]; cbn in Hu |- *; try contradiction;
      rewrite E; (split; [reflexivity|]); intros Hf;
      apply fmtFloat_is_fixed_point; [lia | exact Hf | lia | exact Hf].
Qed.

Lemma FormatQuantity_nil_error (symbol : string) (value : float) (w : World) :
  snd (fst (FormatQuantity api Sprintf_other calculatePrecision symbol value w)) = None.
Proof. unfold FormatQuantity. step. reflexivity. Qed.

Lemma FormatPrice_nil_error (symbol : string) (value : float) (w : World) :
  snd (fst (FormatPrice api Sprintf_other calculatePrecision symbol value w)) = None.
Proof. unfold FormatPrice. step. reflexivity. Qed.

Lemma FormatQuantity_rendered (symbol : string) (value : float) (w : World) :
  exists precision,
    fst (fst (FormatQuantity api Sprintf_other calculatePrecision symbol value w))
    = Sprintf Sprintf_other (Sprintf_format precision) value.
Proof. unfold FormatQuantity. step. eexists. reflexivity. Qed.

Lemma FormatPrice_rendered (symbol : string) (value : float) (w : World) :
  exists precision,
    fst (fst (FormatPrice api Sprintf_other calculatePrecision symbol value w))
    = Sprintf Sprintf_other (Sprintf_format precision) value.
Proof. unfold FormatPrice. step. eexists. reflexivity. Qed.

(** On a cache miss the quantity precision is asked from the exchange, under
    the instrument ID [FormatQuantity] derives from its argument. *)
Lemma FormatQuantity_miss (symbol : string) (value : float) (w : World) :
  precisions w !! (okxSymbol symbol +:+ "_lotSz") = None ->
  sent (snd (FormatQuantity api Sprintf_other calculatePrecision symbol value w))
  = sent w ++ [Public_GetInstruments
                 {| GetInstrumentsRequest.InstType := "SWAP";
                    GetInstrumentsRequest.InstID := okxSymbol symbol |}].
Proof.
  intros H. unfold FormatQuantity, getLotSzPrecision, getInstrument, Load. step.
  rewrite H. step.
  destruct (fst (api _ (exchange w))) as [[|inst rest]|err]; step; reflexivity.
Qed.

(** [placeOrder] formats the quantity, sends one order request, and reads its
    result off the answer. *)
Lemma placeOrder_run (symbol side ordType posSide : string) (quantity : float) (w : World) :
  let instID := okxSymbol symbol in
  let f := FormatQuantity api Sprintf_other calculatePrecision instID quantity w in
  let req := Trade_PlaceOrder (orderRequest instID side ordType posSide (fst (fst f))) in
  placeOrder api Sprintf_other calculatePrecision symbol side ordType posSide quantity w
  = (match fst (api req (exchange (snd f))) with
     | Err err =>
         Err (wrapError
           ("OKX PlaceOrder 失败 (" +:+ instID +:+ " " +:+ side +:+ " "
              +:+ fst (fst f) +:+ "): ") err)
     | Ok [] => Err (errorString "OKX PlaceOrder 未返回订单数据")
     | Ok (orderData :: _) =>
         if negb (String.eqb (OrderData.SCode orderData) "0")
         then Err (errorString
                ("OKX 下单失败: " +:+ OrderData.SMsg orderData
                   +:+ " (code: " +:+ OrderData.SCode orderData +:+ ")"))
         else Ok (<["status" := I_string "FILLED"]>
                  (<["symbol" := I_string symbol]>
                  (<["orderId" := I_string (OrderData.OrdID orderData)]> ∅)))
     end,
     {| exchange := snd (api req (exchange (snd f)));
        precisions := precisions (snd f);
        sent := sent (snd f) ++ [req] |}).
Proof.
  intros instID f req. unfold placeOrder. fold instID. rewrite bind_run. fold f.
  pose proof (FormatQuantity_nil_error instID quantity w) as N. fold f in N.
  destruct f as [[quantityStr err] w1]. cbn [fst snd] in *. subst err.
  step. subst req. cbn [fst snd].
  destruct (fst (api _ (exchange w1))) as [[|d rest]|err]; step; try reflexivity.
  now destruct (negb _).
Qed.

(** C5: [placeOrder] fails when the answer to the order request has no entry
    and when the status code of its first entry is not "0"; the second error
    is a plain message, while a failure of the call itself comes back as an
    error wrapping the client's.  A result, when there is one, holds the
    status "FILLED", the caller's symbol and the order ID of the first
    entry. *)
Theorem placeOrder_outcomes (symbol side ordType posSide : string) (quantity : float)
    (w : World) :
  let instID := okxSymbol symbol in
  let f := FormatQuantity api Sprintf_other calculatePrecision instID quantity w in
  let req := Trade_PlaceOrder (orderRequest instID side ordType posSide (fst (fst f))) in
  let answer := fst (api req (exchange (snd f))) in
  let out :=
    fst (placeOrder api Sprintf_other calculatePrecision symbol side ordType posSide quantity w) in
  (answer = Ok [] -> out = Err (errorString "OKX PlaceOrder 未返回订单数据"))
  /\ (forall d rest, answer = Ok (d :: rest) -> OrderData.SCode d <> "0" ->
        out = Err (errorString
                ("OKX 下单失败: " +:+ OrderData.SMsg d
                   +:+ " (code: " +:+ OrderData.SCode d +:+ ")")))
  /\ (forall err, answer = Err err -> exists msg, out = Err (wrapError msg err))
  /\ (forall res, out = Ok res ->
        exists d rest,
          answer = Ok (d :: rest) /\ OrderData.SCode d = "0"
          /\ res !! "orderId" = Some (I_string (OrderData.OrdID d))
          /\ res !! "symbol" = Some (I_string symbol)
          /\ res !! "status" = Some (I_string "FILLED")
          /\ dom res = ({["orderId"; "symbol"; "status"]} : gset string)).
Proof.
  intros instID f req answer out. subst out. rewrite placeOrder_run.
  fold instID f req answer. cbn [fst].
  repeat split.
  - intros ->. reflexivity.
  - intros d rest -> H. apply String.eqb_neq in H. now rewrite H.
  - intros err ->. eexists. reflexivity.
  - intros res. destruct answer as [[|d rest]|err]; try discriminate.
    destruct (String.eqb (OrderData.SCode d) "0") eqn:E; cbn; [|discriminate].
    intros [= <-]. exists d, rest. apply String.eqb_eq in E.
    repeat split; try assumption; reflexivity.
Qed.

Lemma getSpecificPosition_run (symbol posSide : string) (w : World) :
  let listing :=
    Account_GetPositions
      {| GetPositionsRequest.InstType := "";
         GetPositionsRequest.InstID := okxSymbol symbol |} in
  getSpecificPosition api symbol posSide w
  = (match fst (api listing (exchange w)) with
     | Err err => Err err
     | Ok data => Ok (find (fun pos => String.eqb (Position.PosSide pos) posSide) data)
     end,
     {| exchange := snd (api listing (exchange w));
        precisions := precisions w;
        sent := sent w ++ [listing] |}).
Proof.
  intros listing. unfold getSpecificPosition. fold listing. step.
  now destruct (fst (api listing (exchange w))).
Qed.

Lemma find_none_side (posSide : string) (data : list Position.t) :
  (forall pos, In pos data -> Position.PosSide pos <> posSide) ->
  find (fun pos => String.eqb (Position.PosSide pos) posSide) data = None.
Proof.
  intros H. destruct (find _ data) as [pos|] eqn:E; [|reflexivity].
  apply find_some in E as [Hin Hs]. apply String.eqb_eq in Hs.
  now destruct (H pos Hin).
Qed.

(** Formatting a quantity sends the instrument query on a cache miss and
    nothing else. *)
Lemma FormatQuantity_sent (symbol : string) (value : float) (w : World) :
  sent (snd (FormatQuantity api Sprintf_other calculatePrecision symbol value w))
  = sent w ++ lotSzQuery w (okxSymbol symbol).
Proof.
  unfold lotSzQuery.
  destruct (precisions w !! (okxSymbol symbol +:+ "_lotSz")) as [v|] eqn:E.
  - unfold FormatQuantity, getLotSzPrecision, Load. step. rewrite E. step.
    now rewrite app_nil_r.
  - now apply FormatQuantity_miss.
Qed.

(** [placeOrder] sends the precision lookup of its quantity, if any, and then
    one order, sized by the rendering of the quantity at some precision. *)
Lemma placeOrder_sent (symbol side ordType posSide : string) (quantity : float) (w : World) :
  exists precision,
    sent (snd (placeOrder api Sprintf_other calculatePrecision
                 symbol side ordType posSide quantity w))
    = sent w ++ lotSzQuery w (okxSymbol (okxSymbol symbol))
        ++ [Trade_PlaceOrder
              (orderRequest (okxSymbol symbol) side ordType posSide
                 (Sprintf Sprintf_other (Sprintf_format precision) quantity))].
Proof.
  rewrite placeOrder_run. cbn [snd sent]. rewrite FormatQuantity_sent.
  destruct (FormatQuantity_rendered (okxSymbol symbol) quantity w) as [p ->].
  exists p. now rewrite <- app_assoc.
Qed.

(** [CloseLong(symbol, 0)] first asks the exchange for the positions of
    the instrument.  When none of them is on the long side it returns the
    not-found error and has sent nothing but that listing; when [pos] is the
    first one on the long side, it goes on to place one market sell order on
    the long side, sized by the rendering of the amount parsed from [pos],
    with nothing in between but the precision lookup.  [CloseShort(symbol, 0)]
    does the same with the short side and a buy order. *)
Theorem Close_zero_resolves_position (symbol : string) (w : World) :
  let instID := okxSymbol symbol in
  let listing :=
    Account_GetPositions
      {| GetPositionsRequest.InstType := "";
         GetPositionsRequest.InstID := instID |} in
  let answer := fst (api listing (exchange w)) in
  let order side posSide sz :=
    Trade_PlaceOrder
      {| PlaceOrderRequest.InstID := instID;
         PlaceOrderRequest.TdMode := "isolated";
         PlaceOrderRequest.Side := side;
         PlaceOrderRequest.OrdType := "market";
         PlaceOrderRequest.Sz := sz;
         PlaceOrderRequest.PosSide := posSide |} in
  let long := CloseLong api scan Sprintf_other calculatePrecision symbol 0 w in
  let short := CloseShort api scan Sprintf_other calculatePrecision symbol 0 w in
  (forall data, answer = Ok data ->
     (forall pos, In pos data -> Position.PosSide pos <> "long") ->
     fst long = Err (errorString ("没有找到 " +:+ symbol +:+ " 的多仓"))
     /\ sent (snd long) = sent w ++ [listing])
  /\ (forall data pos, answer = Ok data ->
        find (fun pos => String.eqb (Position.PosSide pos) "long") data = Some pos ->
        exists precision,
          sent (snd long)
          = sent w ++ listing :: lotSzQuery w (okxSymbol instID)
              ++ [order "sell" "long"
                    (Sprintf Sprintf_other (Sprintf_format precision)
                       (parseFloat scan (Position.Pos pos)))])
  /\ (forall data, answer = Ok data ->
        (forall pos, In pos data -> Position.PosSide pos <> "short") ->
        fst short = Err (errorString ("没有找到 " +:+ symbol +:+ " 的空仓"))
        /\ sent (snd short) = sent w ++ [listing])
  /\ (forall data pos, answer = Ok data ->
        find (fun pos => String.eqb (Position.PosSide pos) "short") data = Some pos ->
        exists precision,
          sent (snd short)
          = sent w ++ listing :: lotSzQuery w (okxSymbol instID)
              ++ [order "buy" "short"
                    (Sprintf Sprintf_other (Sprintf_format precision)
                       (parseFloat scan (Position.Pos pos)))]).
Proof.
  intros instID listing answer order long short.
  subst long short. unfold CloseLong, CloseShort.
  change (0 =? 0)%float with true. cbv iota.
  rewrite !bind_run, !getSpecificPosition_run. fold instID listing answer.
  cbn [fst snd].
  assert (P : forall side posSide quantity,
            exists precision,
              sent (snd (placeOrder api Sprintf_other calculatePrecision
                           symbol side "market" posSide quantity
                           {| exchange := snd (api listing (exchange w));
                              precisions := precisions w;
                              sent := sent w ++ [listing] |}))
              = sent w ++ listing :: lotSzQuery w (okxSymbol instID)
                  ++ [Trade_PlaceOrder
                        (orderRequest instID side "market" posSide
                           (Sprintf Sprintf_other (Sprintf_format precision) quantity))]).
  { intros side posSide quantity.
    destruct (placeOrder_sent symbol side "market" posSide quantity
                {| exchange := snd (api listing (exchange w));
                   precisions := precisions w;
                   sent := sent w ++ [listing] |}) as [p E].
    exists p. rewrite E. cbn [sent]. now rewrite <- app_assoc. }
  split; [|split; [|split]].
  - intros data -> H. rewrite (find_none_side _ _ H). now step.
  - intros data pos -> H. rewrite H. apply P.
  - intros data -> H. rewrite (find_none_side _ _ H). now step.
  - intros data pos -> H. rewrite H. apply P.
Qed.

(** C3: [CloseLong(symbol, 0)] takes the first entry of the listing on the
    long side for the position to close, whatever its amount.  When that
    amount parses to zero, the entry is no open position, and [GetPositions]
    skips it as empty; [CloseLong] all the same does not return the
    not-found error: it goes on to send a market sell order on the long
    side, sized by the rendering of that zero amount, and returns what the
    order call gives.  [CloseShort(symbol, 0)] does the same with the first
    entry on the short side and a buy order. *)
Theorem Close_zero_orders_flat_position (symbol : string) (w : World)
    (data : list Position.t) :
  let instID := okxSymbol symbol in
  let listing :=
    Account_GetPositions
      {| GetPositionsRequest.InstType := "";
         GetPositionsRequest.InstID := instID |} in
  let order side posSide sz :=
    Trade_PlaceOrder
      {| PlaceOrderRequest.InstID := instID;
         PlaceOrderRequest.TdMode := "isolated";
         PlaceOrderRequest.Side := side;
         PlaceOrderRequest.OrdType := "market";
         PlaceOrderRequest.Sz := sz;
         PlaceOrderRequest.PosSide := posSide |} in
  let flat posSide pos :=
    find (fun pos => String.eqb (Position.PosSide pos) posSide) data = Some pos
    /\ (parseFloat scan (Position.Pos pos) =? 0)%float = true in
  let long := CloseLong api scan Sprintf_other calculatePrecision symbol 0 w in
  let short := CloseShort api scan Sprintf_other calculatePrecision symbol 0 w in
  fst (api listing (exchange w)) = Ok data ->
  (forall pos, flat "long" pos ->
     (forall acc, GetPositions_step scan acc pos = acc)
     /\ fst long <> Err (errorString ("没有找到 " +:+ symbol +:+ " 的多仓"))
     /\ exists precision,
          sent (snd long)
          = sent w ++ listing :: lotSzQuery w (okxSymbol instID)
              ++ [order "sell" "long"
                    (Sprintf Sprintf_other (Sprintf_format precision)
                       (parseFloat scan (Position.Pos pos)))])
  /\ (forall pos, flat "short" pos ->
        (forall acc, GetPositions_step scan acc pos = acc)
        /\ fst short <> Err (errorString ("没有找到 " +:+ symbol +:+ " 的空仓"))
        /\ exists precision,
             sent (snd short)
             = sent w ++ listing :: lotSzQuery w (okxSymbol instID)
                 ++ [order "buy" "short"
                       (Sprintf Sprintf_other (Sprintf_format precision)
                          (parseFloat scan (Position.Pos pos)))]).
Proof.
  intros instID listing order flat long short.
  assert (S : forall acc pos,
            (parseFloat scan (Position.Pos pos) =? 0)%float = true ->
            GetPositions_step scan acc pos = acc).
  { intros acc pos Hz. unfold GetPositions_step. now rewrite Hz. }
  assert (N : forall side posSide quantity w1 msg,
            fst (placeOrder api Sprintf_other calculatePrecision
                   symbol side "market" posSide quantity w1)
            <> Err (errorString ("没有找到 " +:+ msg))).
  { intros side posSide quantity w1 msg. rewrite placeOrder_run. cbn [fst].
    cbn [String.append].
    destruct (fst (api _ _)) as [[|d rest]|err]; try discriminate.
    destruct (negb _); discriminate. }
  assert (P : forall side posSide quantity,
            exists precision,
              sent (snd (placeOrder api Sprintf_other calculatePrecision
                           symbol side "market" posSide quantity
                           {| exchange := snd (api listing (exchange w));
                              precisions := precisions w;
                              sent := sent w ++ [listing] |}))
              = sent w ++ listing :: lotSzQuery w (okxSymbol instID)
                  ++ [Trade_PlaceOrder
                        (orderRequest instID side "market" posSide
                           (Sprintf Sprintf_other (Sprintf_format precision) quantity))]).
  { intros side posSide quantity.
    destruct (placeOrder_sent symbol side "market" posSide quantity
                {| exchange := snd (api listing (exchange w));
                   precisions := precisions w;
                   sent := sent w ++ [listing] |}) as [p E].
    exists p. rewrite E. cbn [sent]. now rewrite <- app_assoc. }
  intros Hdata. subst long short. unfold CloseLong, CloseShort.
  change (0 =? 0)%float with true. cbv iota.
  rewrite !bind_run, !getSpecificPosition_run. fold instID listing.
  rewrite Hdata. cbn [fst snd].
  split; intros pos [Hfind Hzero]; rewrite Hfind;
    (split; [intros acc; now apply S|]); (split; [apply N | apply P]).
Qed.

(** The loop of [GetPositions] appends, in the order received, the map of
    every position whose parsed amount is not zero. *)
Lemma GetPositions_loop (data : list Position.t) (acc : list (gmap string iface)) :
  fold_left (GetPositions_step scan) data acc
  = acc ++ List.map (fun pos => posMap scan pos (parseFloat scan (Position.Pos pos)))
             (List.filter
                (fun pos => negb (parseFloat scan (Position.Pos pos) =? 0)%float) data).
Proof.
  revert acc; induction data as [|pos data IH]; intros acc; cbn [fold_left List.filter].
  - cbn. now rewrite app_nil_r.
  - rewrite IH. unfold GetPositions_step.
    destruct (parseFloat scan (Position.Pos pos) =? 0)%float; cbn [negb List.map].
    + reflexivity.
    + now rewrite <- app_assoc.
Qed.

Lemma GetPositions_run (w : World) :
  let listing :=
    Account_GetPositions
      {| GetPositionsRequest.InstType := "SWAP"; GetPositionsRequest.InstID := "" |} in
  fst (GetPositions api scan w)
  = match fst (api listing (exchange w)) with
    | Err err => Err (wrapError "OKX GetPositions 失败: " err)
    | Ok data => Ok (fold_left (GetPositions_step scan) data [])
    end.
Proof.
  intros listing. unfold GetPositions. fold listing. step.
  now destruct (fst (api listing (exchange w))).
Qed.

(** C8: when the exchange answers the swap listing with [data],
    [GetPositions] returns one map for each entry of [data] whose parsed
    amount is not zero, in the order of [data]; the map holds the parsed
    amount, the side, and the instrument ID translated by [standardSymbol]. *)
Theorem GetPositions_nonzero_in_order (w : World) (data : list Position.t) :
  fst (api (Account_GetPositions
              {| GetPositionsRequest.InstType := "SWAP";
                 GetPositionsRequest.InstID := "" |}) (exchange w)) = Ok data ->
  fst (GetPositions api scan w)
  = Ok (List.map (fun pos => posMap scan pos (parseFloat scan (Position.Pos pos)))
          (List.filter
             (fun pos => negb (parseFloat scan (Position.Pos pos) =? 0)%float) data))
  /\ (forall pos amt,
        posMap scan pos amt !! "symbol"
        = Some (I_string (standardSymbol (Position.InstID pos)))
        /\ posMap scan pos amt !! "positionAmt" = Some (I_float64 amt)
        /\ posMap scan pos amt !! "side" = Some (I_string (Position.PosSide pos))).
Proof.
  intros H. split.
  - rewrite GetPositions_run, H, GetPositions_loop. reflexivity.
  - intros pos amt. unfold posMap. repeat split; reflexivity.
Qed.

(** C10 (amended): [parseFloat] is the first component of
    [strconv.ParseFloat], so a string on which that reports a syntax error
    reads as 0.  A position whose amount is such a string leaves the result
    of [GetPositions] as it would be without it, and no error is raised.  In
    [GetBalance] such an unrealised-PnL field gives an unrealised profit of 0
    and enters the wallet balance as 0, such an available-equity field gives
    an available balance of 0, such a total-equity field enters the wallet
    balance as 0, and when all three are rejected the three values are 0. *)
Theorem syntax_errors_read_as_zero :
  (forall s, parseFloat scan s = fst (ParseFloat scan s))
  /\ (forall s, rejected scan s = true -> parseFloat scan s = 0%float)
  /\ (forall w data,
        fst (api (Account_GetPositions
                    {| GetPositionsRequest.InstType := "SWAP";
                       GetPositionsRequest.InstID := "" |}) (exchange w)) = Ok data ->
        fst (GetPositions api scan w)
        = Ok (fold_left (GetPositions_step scan)
                (List.filter (fun pos => negb (rejected scan (Position.Pos pos))) data)
                []))
  /\ (forall w acc rest,
        fst (api (Account_GetAccount {| GetAccountRequest.Ccy := "USDT" |}) (exchange w))
        = Ok (acc :: rest) ->
        exists res,
          fst (GetBalance api scan w) = Ok res
          /\ (rejected scan (Account.Upl acc) = true ->
              res !! "totalUnrealizedProfit" = Some (I_float64 0)
              /\ res !! "totalWalletBalance"
                 = Some (I_float64 (parseFloat scan (Account.TotalEq acc) - 0)))
          /\ (rejected scan (Account.AvailEq acc) = true ->
              res !! "availableBalance" = Some (I_float64 0))
          /\ (rejected scan (Account.TotalEq acc) = true ->
              res !! "totalWalletBalance"
              = Some (I_float64 (0 - parseFloat scan (Account.Upl acc))))
          /\ (rejected scan (Account.TotalEq acc) = true ->
              rejected scan (Account.Upl acc) = true ->
              rejected scan (Account.AvailEq acc) = true ->
              res = <["totalWalletBalance" := I_float64 0]>
                    (<["availableBalance" := I_float64 0]>
                    (<["totalUnrealizedProfit" := I_float64 0]> ∅)))).
Proof.
  assert (Z0 : forall s, rejected scan s = true -> parseFloat scan s = 0%float).
  { intros s. unfold rejected, parseFloat, ParseFloat.
    destruct (strconv.special s) as [[val n]|].
    - destruct (n =? String.length s)%nat; [discriminate | reflexivity].
    - destruct (scan s); cbn; try discriminate. reflexivity. }
  split; [reflexivity|]. split; [exact Z0|]. split.
  - intros w data H. rewrite GetPositions_run, H. f_equal. clear H.
    generalize (@nil (gmap string iface)).
    induction data as [|pos data IH]; intros acc; [reflexivity|].
    cbn [fold_left List.filter].
    destruct (rejected scan (Position.Pos pos)) eqn:E; cbn [negb fold_left].
    + rewrite <- IH. f_equal. unfold GetPositions_step.
      rewrite (Z0 _ E). reflexivity.
    + apply IH.
  - intros w acc rest H. unfold GetBalance. step. rewrite H. step.
    eexists. split; [reflexivity|].
    split; [|split; [|split]].
    + intros E. rewrite (Z0 _ E). split; reflexivity.
    + intros E. rewrite (Z0 _ E). reflexivity.
    + intros E. rewrite (Z0 _ E). reflexivity.
    + intros E1 E2 E3. rewrite (Z0 _ E1), (Z0 _ E2), (Z0 _ E3). reflexivity.
Qed.

Lemma placeAlgoOrder_sent (symbol posSide ordType triggerPrice sz : string) (w : World) :
  sent (snd (placeAlgoOrder api symbol posSide ordType triggerPrice sz w))
  = sent w ++ [Trade_PlaceAlgoOrder (algoRequest symbol posSide ordType triggerPrice sz)].
Proof.
  unfold placeAlgoOrder. step.
  destruct (fst (api _ (exchange w))) as [[|d rest]|err]; step; try reflexivity.
  now destruct (negb _).
Qed.

(** [SetStopLoss] and [SetTakeProfit] end by sending the conditional order
    built from the lowered position side and the two rendered numbers. *)
Lemma SetStopLoss_last (symbol positionSide : string) (quantity stopPrice : float) (w : World) :
  exists triggerPrice sz,
    last (sent (snd (SetStopLoss api Sprintf_other calculatePrecision
                       symbol positionSide quantity stopPrice w)))
    = Some (Trade_PlaceAlgoOrder
              (algoRequest symbol (strings.ToLower positionSide) "stop" triggerPrice sz)).
Proof.
  unfold SetStopLoss. rewrite bind_run.
  pose proof (FormatQuantity_nil_error (okxSymbol symbol) quantity w) as N.
  destruct (FormatQuantity _ _ _ _ _ w) as [[quantityStr err] w1].
  cbn [fst snd] in *. subst err. rewrite bind_run.
  destruct (FormatPrice _ _ _ _ _ w1) as [[stopPriceStr err] w2]. cbn [fst snd].
  exists stopPriceStr, quantityStr. rewrite placeAlgoOrder_sent. apply last_snoc.
Qed.

Lemma SetTakeProfit_last (symbol positionSide : string) (quantity price : float) (w : World) :
  exists triggerPrice sz,
    last (sent (snd (SetTakeProfit api Sprintf_other calculatePrecision
                       symbol positionSide quantity price w)))
    = Some (Trade_PlaceAlgoOrder
              (algoRequest symbol (strings.ToLower positionSide) "tp" triggerPrice sz)).
Proof.
  unfold SetTakeProfit. rewrite bind_run.
  pose proof (FormatQuantity_nil_error (okxSymbol symbol) quantity w) as N.
  destruct (FormatQuantity _ _ _ _ _ w) as [[quantityStr err] w1].
  cbn [fst snd] in *. subst err. rewrite bind_run.
  destruct (FormatPrice _ _ _ _ _ w1) as [[tpPriceStr err] w2]. cbn [fst snd].
  exists tpPriceStr, quantityStr. rewrite placeAlgoOrder_sent. apply last_snoc.
Qed.

(** C9: the last request of [SetStopLoss] and of [SetTakeProfit] is a
    conditional order on the instrument of the symbol; its trade side is
    "sell" when the position side given is long and "buy" when it is short. *)
Theorem conditional_order_closes_position
    (symbol positionSide : string) (quantity triggerPrice : float) (w : World) :
  let stop :=
    sent (snd (SetStopLoss api Sprintf_other calculatePrecision
                 symbol positionSide quantity triggerPrice w)) in
  let tp :=
    sent (snd (SetTakeProfit api Sprintf_other calculatePrecision
                 symbol positionSide quantity triggerPrice w)) in
  let closes (requests : list Request) (ordType posSide side : string) :=
    exists req,
      last requests = Some (Trade_PlaceAlgoOrder req)
      /\ PlaceAlgoOrderRequest.InstID req = okxSymbol symbol
      /\ PlaceAlgoOrderRequest.OrdType req = ordType
      /\ PlaceAlgoOrderRequest.PosSide req = posSide
      /\ PlaceAlgoOrderRequest.Side req = side in
  (strings.ToLower positionSide = "long" ->
     closes stop "stop" "long" "sell" /\ closes tp "tp" "long" "sell")
  /\ (strings.ToLower positionSide = "short" ->
        closes stop "stop" "short" "buy" /\ closes tp "tp" "short" "buy").
Proof.
  intros stop tp closes. subst stop tp closes. cbv beta.
  destruct (SetStopLoss_last symbol positionSide quantity triggerPrice w) as (p1 & s1 & ->).
  destruct (SetTakeProfit_last symbol positionSide quantity triggerPrice w) as (p2 & s2 & ->).
  split; intros ->; split; eexists; (split; [reflexivity|]); repeat split.
Qed.

(** The precision lookup of [placeOrder] runs under the instrument ID
    translated a second time: when nothing is cached under that key, the
    instrument asked from the exchange is [okxSymbol (okxSymbol symbol)],
    while the order goes to [okxSymbol symbol]. *)
Lemma placeOrder_lookup (symbol side ordType posSide : string) (quantity : float) (w : World) :
  precisions w !! (okxSymbol (okxSymbol symbol) +:+ "_lotSz") = None ->
  exists precision,
    sent (snd (placeOrder api Sprintf_other calculatePrecision
                 symbol side ordType posSide quantity w))
    = sent w
      ++ [Public_GetInstruments
            {| GetInstrumentsRequest.InstType := "SWAP";
               GetInstrumentsRequest.InstID := okxSymbol (okxSymbol symbol) |};
          Trade_PlaceOrder
            (orderRequest (okxSymbol symbol) side ordType posSide
               (Sprintf Sprintf_other (Sprintf_format precision) quantity))].
Proof.
  intros H. rewrite placeOrder_run. cbn [snd sent].
  rewrite (FormatQuantity_miss _ quantity _ H).
  destruct (FormatQuantity_rendered (okxSymbol symbol) quantity w) as [p ->].
  exists p. now rewrite <- app_assoc.
Qed.

(** C1: an order for BTCUSDT goes to BTC-USDT-SWAP, but its quantity is not
    rendered at the precision cached for BTC-USDT-SWAP: with that precision
    in the cache, [placeOrder] still misses the cache and asks the exchange
    for the instrument BTC-USDT-SWAP-USDT-SWAP.  The two instrument IDs
    differ for every symbol. *)
Theorem placeOrder_precision_of_other_instrument (ex : Exchange) (quantity : float) :
  let w := {| exchange := ex;
              precisions := {["BTC-USDT-SWAP_lotSz" := 2%Z]};
              sent := [] |} in
  (exists sz,
     sent (snd (placeOrder api Sprintf_other calculatePrecision
                  "BTCUSDT" "buy" "market" "long" quantity w))
     = [Public_GetInstruments
          {| GetInstrumentsRequest.InstType := "SWAP";
             GetInstrumentsRequest.InstID := "BTC-USDT-SWAP-USDT-SWAP" |};
        Trade_PlaceOrder
          {| PlaceOrderRequest.InstID := "BTC-USDT-SWAP";
             PlaceOrderRequest.TdMode := "isolated";
             PlaceOrderRequest.Side := "buy";
             PlaceOrderRequest.OrdType := "market";
             PlaceOrderRequest.Sz := sz;
             PlaceOrderRequest.PosSide := "long" |}])
  /\ (forall symbol, okxSymbol (okxSymbol symbol) <> okxSymbol symbol).
Proof.
  intros w. split; [|apply okxSymbol_not_idempotent].
  destruct (placeOrder_lookup "BTCUSDT" "buy" "market" "long" quantity w eq_refl) as [p E].
  exists (Sprintf Sprintf_other (Sprintf_format p) quantity). exact E.
Qed.

End TraderFacts.

(** ** The round trip of symbols *)

(** C2: the round trip is not the identity on every symbol that ends in
    USDT.  In "USDTUSDT" the first occurrence of USDT is not the suffix:
    [okxSymbol] replaces that one, the result does not end in the swap suffix,
    and [standardSymbol] gives it back unchanged. *)
Theorem roundtrip_breaks_on_repeated_quote :
  strings.HasSuffix "USDTUSDT" "USDT" = true
  /\ okxSymbol "USDTUSDT" = "-USDT-SWAPUSDT"
  /\ standardSymbol (okxSymbol "USDTUSDT") = "-USDT-SWAPUSDT"
  /\ standardSymbol (okxSymbol "USDTUSDT") <> "USDTUSDT".
Proof. repeat split. discriminate. Qed.

Example roundtrip_btc : standardSymbol (okxSymbol "BTCUSDT") = "BTCUSDT".
Proof. apply roundtrip_single_quote; reflexivity. Qed.

(** ** Runs on the simulated exchange *)

(** The spec's examples: zero-amount filtering, balance arithmetic, and the
    precision fallback. *)
Example GetPositions_demo :
  match fst (GetPositions Sim.answer Decimal.scan (Sim.fresh Sim.demo)) with
  | Ok l => List.map (fun m : gmap string iface => (m !! "symbol", m !! "positionAmt")) l
  | Err _ => []
  end
  = [ (Some (I_string "ETHUSDT"), Some (I_float64 2.5));
      (Some (I_string "SOLUSDT"), Some (I_float64 2)) ].
Proof. vm_compute. reflexivity. Qed.

Example GetBalance_demo :
  fst (GetBalance Sim.answer Decimal.scan (Sim.fresh Sim.demo))
  = Ok (<["totalWalletBalance" := I_float64 950]>
       (<["availableBalance" := I_float64 800]>
       (<["totalUnrealizedProfit" := I_float64 50]> ∅))).
Proof. vm_compute. reflexivity. Qed.

(** A precision cached by [FormatQuantity] for BTC-USDT-SWAP is of no use to
    [placeOrder]: the lot size 0.01 gives two decimals, the order is sized
    with the three of the fallback. *)
Example placeOrder_demo :
  let formatted :=
    FormatQuantity Sim.answer Decimal.other Decimal.calculatePrecision
      "BTCUSDT" 0.5 (Sim.fresh Sim.demo) in
  let placed :=
    placeOrder Sim.answer Decimal.other Decimal.calculatePrecision
      "BTCUSDT" "buy" "market" "long" 0.5 (snd formatted) in
  fst formatted = ("0.50", None)
  /\ precisions (snd formatted) !! "BTC-USDT-SWAP_lotSz" = Some 2%Z
  /\ last (sent (snd placed))
     = Some (Trade_PlaceOrder
               {| PlaceOrderRequest.InstID := "BTC-USDT-SWAP";
                  PlaceOrderRequest.TdMode := "isolated";
                  PlaceOrderRequest.Side := "buy";
                  PlaceOrderRequest.OrdType := "market";
                  PlaceOrderRequest.Sz := "0.500";
                  PlaceOrderRequest.PosSide := "long" |}).
Proof. vm_compute. repeat split. Qed.

(** With the listing of stop orders down, both take-profit orders are still
    cancelled and the call returns nil. *)
Example CancelAllOrders_demo :
  let out := CancelAllOrders Sim.answer "BTCUSDT" (Sim.fresh Sim.no_stop_listing) in
  fst out = None
  /\ sent (snd out)
     = [ listRequest "BTC-USDT-SWAP" "stop"; listRequest "BTC-USDT-SWAP" "tp";
         cancelRequest "BTC-USDT-SWAP" {| AlgoOrder.AlgoID := "tp-1" |};
         cancelRequest "BTC-USDT-SWAP" {| AlgoOrder.AlgoID := "tp-2" |} ]
  /\ Sim.algos (exchange (snd out)) = [ ("BTC-USDT-SWAP", "stop", "sl-1") ].
Proof. vm_compute. repeat split. Qed.

(** The demo exchange holds a flat long on BTC and no other position on it:
    [GetPositions] leaves that entry out, while closing the long with
    quantity zero sends a sell order of size "0.000", which the simulated
    exchange fills. *)
Example CloseLong_flat_demo :
  let long :=
    CloseLong Sim.answer Decimal.scan Decimal.other Decimal.calculatePrecision
      "BTCUSDT" 0 (Sim.fresh Sim.demo) in
  fst long
  = Ok (<["status" := I_string "FILLED"]>
        (<["symbol" := I_string "BTCUSDT"]>
        (<["orderId" := I_string "1001"]> ∅)))
  /\ last (sent (snd long))
     = Some (Trade_PlaceOrder
               {| PlaceOrderRequest.InstID := "BTC-USDT-SWAP";
                  PlaceOrderRequest.TdMode := "isolated";
                  PlaceOrderRequest.Side := "sell";
                  PlaceOrderRequest.OrdType := "market";
                  PlaceOrderRequest.Sz := "0.000";
                  PlaceOrderRequest.PosSide := "long" |})
  /\ (forall m, In m (entries (fst (GetPositions Sim.answer Decimal.scan
                                      (Sim.fresh Sim.demo)))) ->
                m !! "symbol" <> Some (I_string "BTCUSDT")).
Proof.
  vm_compute. split; [reflexivity|]. split; [reflexivity|].
  intros m [<-|[<-|[]]]; discriminate.
Qed.

(** ** The statements above, at the simulated exchange *)

Lemma Close_zero_resolves_position_witness :
  fst (CloseLong Sim.answer Decimal.scan Decimal.other Decimal.calculatePrecision
         "ETHUSDT" 0 (Sim.fresh Sim.demo))
  = Err (errorString "没有找到 ETHUSDT 的多仓")
  /\ (exists precision,
        sent (snd (CloseLong Sim.answer Decimal.scan Decimal.other
                     Decimal.calculatePrecision "SOLUSDT" 0 (Sim.fresh Sim.demo)))
        = [ Account_GetPositions
              {| GetPositionsRequest.InstType := "";
                 GetPositionsRequest.InstID := "SOL-USDT-SWAP" |};
            Public_GetInstruments
              {| GetInstrumentsRequest.InstType := "SWAP";
                 GetInstrumentsRequest.InstID := "SOL-USDT-SWAP-USDT-SWAP" |};
            Trade_PlaceOrder
              {| PlaceOrderRequest.InstID := "SOL-USDT-SWAP";
                 PlaceOrderRequest.TdMode := "isolated";
                 PlaceOrderRequest.Side := "sell";
                 PlaceOrderRequest.OrdType := "market";
                 PlaceOrderRequest.Sz := Sprintf Decimal.other (Sprintf_format precision) 2;
                 PlaceOrderRequest.PosSide := "long" |} ])
  /\ (exists precision,
        sent (snd (CloseShort Sim.answer Decimal.scan Decimal.other
                     Decimal.calculatePrecision "ETHUSDT" 0 (Sim.fresh Sim.demo)))
        = [ Account_GetPositions
              {| GetPositionsRequest.InstType := "";
                 GetPositionsRequest.InstID := "ETH-USDT-SWAP" |};
            Public_GetInstruments
              {| GetInstrumentsRequest.InstType := "SWAP";
                 GetInstrumentsRequest.InstID := "ETH-USDT-SWAP-USDT-SWAP" |};
            Trade_PlaceOrder
              {| PlaceOrderRequest.InstID := "ETH-USDT-SWAP";
                 PlaceOrderRequest.TdMode := "isolated";
                 PlaceOrderRequest.Side := "buy";
                 PlaceOrderRequest.OrdType := "market";
                 PlaceOrderRequest.Sz := Sprintf Decimal.other (Sprintf_format precision) 2.5;
                 PlaceOrderRequest.PosSide := "short" |} ])
  /\ fst (CloseShort Sim.answer Decimal.scan Decimal.other Decimal.calculatePrecision
            "SOLUSDT" 0 (Sim.fresh Sim.demo))
     = Err (errorString "没有找到 SOLUSDT 的空仓").
Proof.
  split; [|split; [|split]].
  - refine (proj1 (proj1 (Close_zero_resolves_position Sim.answer Decimal.scan
              Decimal.other Decimal.calculatePrecision "ETHUSDT" (Sim.fresh Sim.demo))
              _ eq_refl _)).
    intros pos [<-|[]]. discriminate.
  - exact (proj1 (proj2 (Close_zero_resolves_position Sim.answer Decimal.scan
              Decimal.other Decimal.calculatePrecision "SOLUSDT" (Sim.fresh Sim.demo)))
              _ _ eq_refl eq_refl).
  - exact (proj2 (proj2 (proj2 (Close_zero_resolves_position Sim.answer Decimal.scan
              Decimal.other Decimal.calculatePrecision "ETHUSDT" (Sim.fresh Sim.demo))))
              _ _ eq_refl eq_refl).
  - refine (proj1 (proj1 (proj2 (proj2 (Close_zero_resolves_position Sim.answer
              Decimal.scan Decimal.other Decimal.calculatePrecision "SOLUSDT"
              (Sim.fresh Sim.demo)))) _ eq_refl _)).
    intros pos [<-|[]]. discriminate.
Defined.

Lemma Close_zero_orders_flat_position_witness :
  let long :=
    CloseLong Sim.answer Decimal.scan Decimal.other Decimal.calculatePrecision
      "BTCUSDT" 0 (Sim.fresh Sim.demo) in
  fst long <> Err (errorString "没有找到 BTCUSDT 的多仓")
  /\ exists precision,
       sent (snd long)
       = [ Account_GetPositions
             {| GetPositionsRequest.InstType := "";
                GetPositionsRequest.InstID := "BTC-USDT-SWAP" |};
           Public_GetInstruments
             {| GetInstrumentsRequest.InstType := "SWAP";
                GetInstrumentsRequest.InstID := "BTC-USDT-SWAP-USDT-SWAP" |};
           Trade_PlaceOrder
             {| PlaceOrderRequest.InstID := "BTC-USDT-SWAP";
                PlaceOrderRequest.TdMode := "isolated";
                PlaceOrderRequest.Side := "sell";
                PlaceOrderRequest.OrdType := "market";
                PlaceOrderRequest.Sz := Sprintf Decimal.other (Sprintf_format precision) 0;
                PlaceOrderRequest.PosSide := "long" |} ].
Proof.
  intros long.
  destruct (proj1 (Close_zero_orders_flat_position Sim.answer Decimal.scan Decimal.other
                     Decimal.calculatePrecision "BTCUSDT" (Sim.fresh Sim.demo) _ eq_refl)
              _ (conj eq_refl eq_refl)) as (_ & N & p & E).
  split; [exact N | exists p; exact E].
Defined.

Lemma Format_fallback_witness :
  fst (FormatQuantity Sim.answer Decimal.other Decimal.calculatePrecision
         "BTCUSDT" (parseFloat Decimal.scan "1.23456") (Sim.fresh Sim.no_metadata))
  = ("1.235", None)
  /\ fst (FormatPrice Sim.answer Decimal.other Decimal.calculatePrecision
            "BTCUSDT" (parseFloat Decimal.scan "1.23456") (Sim.fresh Sim.no_metadata))
     = ("1.23", None)
  /\ is_fixed_point 3 "1.235" = true
  /\ is_fixed_point 2 "1.23" = true.
Proof.
  destruct (Format_fallback Sim.answer Decimal.other Decimal.calculatePrecision
              "BTCUSDT" (parseFloat Decimal.scan "1.23456") (Sim.fresh Sim.no_metadata))
    as (Eq & Ep & Hq & Hp).
  destruct (Hq eq_refl I) as [Rq Fq]. destruct (Hp eq_refl I) as [Rp Fp].
  assert (Q : fst (fst (FormatQuantity Sim.answer Decimal.other Decimal.calculatePrecision
                     "BTCUSDT" (parseFloat Decimal.scan "1.23456")
                     (Sim.fresh Sim.no_metadata))) = "1.235")
    by (rewrite Rq; vm_compute; reflexivity).
  assert (P : fst (fst (FormatPrice Sim.answer Decimal.other Decimal.calculatePrecision
                     "BTCUSDT" (parseFloat Decimal.scan "1.23456")
                     (Sim.fresh Sim.no_metadata))) = "1.23")
    by (rewrite Rp; vm_compute; reflexivity).
  split; [|split; [|split]].
  - rewrite (surjective_pairing (fst (FormatQuantity _ _ _ _ _ _))), Eq, Q. reflexivity.
  - rewrite (surjective_pairing (fst (FormatPrice _ _ _ _ _ _))), Ep, P. reflexivity.
  - rewrite <- Q. apply Fq. vm_compute. reflexivity.
  - rewrite <- P. apply Fp. vm_compute. reflexivity.
Defined.

(** With the instrument query down, a NaN quantity is rendered as "NaN" and
    an infinite price as "+Inf": neither has a decimal digit. *)
Lemma Format_fallback_not_a_number :
  (exists err,
     fst (getLotSzPrecision Sim.answer Decimal.calculatePrecision
            "BTC-USDT-SWAP" (Sim.fresh Sim.no_metadata)) = Err err)
  /\ fst (FormatQuantity Sim.answer Decimal.other Decimal.calculatePrecision
            "BTCUSDT" nan (Sim.fresh Sim.no_metadata))
     = ("NaN", None)
  /\ is_fixed_point 3 "NaN" = false
  /\ fst (FormatPrice Sim.answer Decimal.other Decimal.calculatePrecision
            "BTCUSDT" infinity (Sim.fresh Sim.no_metadata))
     = ("+Inf", None)
  /\ is_fixed_point 2 "+Inf" = false.
Proof. vm_compute. repeat split. eexists. reflexivity. Qed.

Lemma placeOrder_outcomes_witness :
  fst (placeOrder Sim.answer Decimal.other Decimal.calculatePrecision
         "BTCUSDT" "buy" "market" "long" 0.5 (Sim.fresh Sim.orders_blank))
  = Err (errorString "OKX PlaceOrder 未返回订单数据")
  /\ fst (placeOrder Sim.answer Decimal.other Decimal.calculatePrecision
            "DOGEUSDT" "buy" "market" "long" 0.5 (Sim.fresh Sim.demo))
     = Err (errorString "OKX 下单失败: Instrument ID does not exist (code: 51001)")
  /\ (exists msg,
        fst (placeOrder Sim.answer Decimal.other Decimal.calculatePrecision
               "BTCUSDT" "buy" "market" "long" 0.5 (Sim.fresh Sim.orders_dropped))
        = Err (wrapError msg (errorString "connection reset by peer")))
  /\ (exists res,
        fst (placeOrder Sim.answer Decimal.other Decimal.calculatePrecision
               "BTCUSDT" "buy" "market" "long" 0.5 (Sim.fresh Sim.demo)) = Ok res
        /\ res !! "orderId" = Some (I_string "1001")
        /\ res !! "symbol" = Some (I_string "BTCUSDT")
        /\ res !! "status" = Some (I_string "FILLED")).
Proof.
  split; [|split; [|split]].
  - exact (proj1 (placeOrder_outcomes Sim.answer Decimal.other
             Decimal.calculatePrecision "BTCUSDT" "buy" "market" "long" 0.5
             (Sim.fresh Sim.orders_blank)) eq_refl).
  - refine (proj1 (proj2 (placeOrder_outcomes Sim.answer Decimal.other
              Decimal.calculatePrecision "DOGEUSDT" "buy" "market" "long" 0.5
              (Sim.fresh Sim.demo))) _ _ eq_refl _).
    discriminate.
  - exact (proj1 (proj2 (proj2 (placeOrder_outcomes Sim.answer Decimal.other
             Decimal.calculatePrecision "BTCUSDT" "buy" "market" "long" 0.5
             (Sim.fresh Sim.orders_dropped)))) _ eq_refl).
  - destruct (fst (placeOrder Sim.answer Decimal.other Decimal.calculatePrecision
                     "BTCUSDT" "buy" "market" "long" 0.5 (Sim.fresh Sim.demo)))
      as [res|err] eqn:E; [|vm_compute in E; discriminate].
    exists res. split; [reflexivity|].
    destruct (proj2 (proj2 (proj2 (placeOrder_outcomes Sim.answer Decimal.other
                Decimal.calculatePrecision "BTCUSDT" "buy" "market" "long" 0.5
                (Sim.fresh Sim.demo)))) res E)
      as (d & rest & A & _ & Ho & Hs & Hf & _).
    vm_compute in A. injection A as <- <-. auto.
Defined.

Lemma SetLeverage_unchanged_is_success_witness :
  fst (SetLeverage Sim.answer "BTCUSDT" 5 (Sim.fresh Sim.demo)) = None
  /\ fst (SetLeverage Sim.answer "BTCUSDT" 5
            (snd (SetLeverage Sim.answer "BTCUSDT" 5 (Sim.fresh Sim.demo)))) = None
  /\ fst (SetLeverage Sim.answer "BTCUSDT" 5 (Sim.fresh Sim.leverage_dropped))
     = Some (wrapError "OKX SetLeverage 失败: " (errorString "connection reset by peer")).
Proof.
  pose proof (SetLeverage_unchanged_is_success Sim.answer "BTCUSDT" 5 (Sim.fresh Sim.demo))
    as (_ & _ & _ & H).
  destruct H as [H1 H2]; [exact I | vm_compute; reflexivity |].
  split; [exact H1 | split; [exact H2 |]].
  exact (proj1 (proj2 (proj2 (SetLeverage_unchanged_is_success Sim.answer "BTCUSDT" 5
           (Sim.fresh Sim.leverage_dropped)))) _ _ eq_refl eq_refl).
Defined.

Lemma GetPositions_nonzero_in_order_witness :
  exists l,
    fst (GetPositions Sim.answer Decimal.scan (Sim.fresh Sim.demo)) = Ok l
    /\ List.map (fun m : gmap string iface => (m !! "symbol", m !! "positionAmt")) l
       = [ (Some (I_string "ETHUSDT"), Some (I_float64 2.5));
           (Some (I_string "SOLUSDT"), Some (I_float64 2)) ].
Proof.
  eexists. split.
  - exact (proj1 (GetPositions_nonzero_in_order Sim.answer Decimal.scan
             (Sim.fresh Sim.demo) (Sim.positions Sim.demo) eq_refl)).
  - vm_compute. reflexivity.
Defined.

Lemma conditional_order_closes_position_witness :
  (exists req,
     last (sent (snd (SetStopLoss Sim.answer Decimal.other Decimal.calculatePrecision
                        "SOLUSDT" "long" 2 140 (Sim.fresh Sim.demo))))
     = Some (Trade_PlaceAlgoOrder req)
     /\ PlaceAlgoOrderRequest.Side req = "sell")
  /\ (exists req,
        last (sent (snd (SetTakeProfit Sim.answer Decimal.other
                           Decimal.calculatePrecision
                           "ETHUSDT" "SHORT" 2.5 2800 (Sim.fresh Sim.demo))))
        = Some (Trade_PlaceAlgoOrder req)
        /\ PlaceAlgoOrderRequest.Side req = "buy").
Proof.
  split.
  - destruct (proj1 (conditional_order_closes_position Sim.answer Decimal.other
                Decimal.calculatePrecision "SOLUSDT" "long" 2 140 (Sim.fresh Sim.demo))
                eq_refl) as [(req & L & _ & _ & _ & S) _].
    exists req. split; assumption.
  - destruct (proj2 (conditional_order_closes_position Sim.answer Decimal.other
                Decimal.calculatePrecision "ETHUSDT" "SHORT" 2.5 2800 (Sim.fresh Sim.demo))
                eq_refl) as [_ (req & L & _ & _ & _ & S)].
    exists req. split; assumption.
Defined.

Lemma syntax_errors_read_as_zero_witness :
  parseFloat Decimal.scan "n/a" = 0%float
  /\ parseFloat Decimal.scan "nano" = 0%float
  /\ (exists l,
        fst (GetPositions Sim.answer Decimal.scan (Sim.fresh Sim.garbled)) = Ok l
        /\ List.map (fun m : gmap string iface => m !! "symbol") l
           = [ Some (I_string "ETHUSDT") ])
  /\ fst (GetBalance Sim.answer Decimal.scan (Sim.fresh Sim.garbled))
     = Ok (<["totalWalletBalance" := I_float64 0]>
          (<["availableBalance" := I_float64 0]>
          (<["totalUnrealizedProfit" := I_float64 0]> ∅))).
Proof.
  destruct (syntax_errors_read_as_zero Sim.answer Decimal.scan) as (_ & P & G & B).
  split; [exact (P "n/a" eq_refl) | split; [exact (P "nano" eq_refl) | split]].
  - eexists. split.
    + exact (G (Sim.fresh Sim.garbled) _ eq_refl).
    + vm_compute. reflexivity.
  - destruct (B (Sim.fresh Sim.garbled) _ _ eq_refl) as (res & E & _ & _ & _ & Z).
    rewrite E. f_equal. apply Z; reflexivity.
Defined.

(** "NaN" is not a decimal number, yet [strconv.ParseFloat] accepts it: it
    reads as NaN, which is not equal to 0, so the position is listed, with a
    NaN amount, and the balance values are NaN. *)
Lemma NaN_string_is_not_read_as_zero :
  Decimal.scan "NaN" = strconv.Malformed
  /\ ParseFloat Decimal.scan "NaN" = (nan, None)
  /\ (parseFloat Decimal.scan "NaN" =? 0)%float = false
  /\ (exists m,
        fst (GetPositions Sim.answer Decimal.scan (Sim.fresh Sim.not_a_number)) = Ok [m]
        /\ m !! "symbol" = Some (I_string "BTCUSDT")
        /\ m !! "positionAmt" = Some (I_float64 nan))
  /\ fst (GetBalance Sim.answer Decimal.scan (Sim.fresh Sim.not_a_number))
     = Ok (<["totalWalletBalance" := I_float64 nan]>
          (<["availableBalance" := I_float64 nan]>
          (<["totalUnrealizedProfit" := I_float64 nan]> ∅))).
Proof.
  split; [reflexivity|]. split; [reflexivity|]. split; [reflexivity|]. split.
  - eexists. split; [vm_compute; reflexivity|]. split; reflexivity.
  - vm_compute. reflexivity.
Qed.

(** * Further properties *)

(** ** Decimal notation of integers *)

Section DecimalFacts.

(** The value of the digits [u] read after the number [acc]. *)
Lemma digits_of_uint_acc (u : Decimal.uint) (rest : string) (acc : positive) (count : nat) :
  fmt.digits (NilEmpty.string_of_uint u +:+ rest) (Zpos acc) count
  = fmt.digits rest (Zpos (Pos.of_uint_acc u acc)) (count + Decimal.nb_digits u).
Proof.
  revert acc count; induction u; intros acc count;
    cbn [NilEmpty.string_of_uint Pos.of_uint_acc Decimal.nb_digits];
    rewrite ?app_cons; cbn [fmt.digits];
    try (change (fmt.digit _) with (Some 0%Z) || change (fmt.digit _) with (Some 1%Z)
         || change (fmt.digit _) with (Some 2%Z) || change (fmt.digit _) with (Some 3%Z)
         || change (fmt.digit _) with (Some 4%Z) || change (fmt.digit _) with (Some 5%Z)
         || change (fmt.digit _) with (Some 6%Z) || change (fmt.digit _) with (Some 7%Z)
         || change (fmt.digit _) with (Some 8%Z) || change (fmt.digit _) with (Some 9%Z));
    cbv iota.
  - now rewrite Nat.add_0_r.
  - rewrite <- Nat.add_succ_comm.
    replace (10 * Z.pos acc + 0)%Z with (Z.pos (10 * acc)) by lia. apply IHu.
  - rewrite <- Nat.add_succ_comm.
    replace (10 * Z.pos acc + 1)%Z with (Z.pos (1 + 10 * acc)) by lia. apply IHu.
  - rewrite <- Nat.add_succ_comm.
    replace (10 * Z.pos acc + 2)%Z with (Z.pos (2 + 10 * acc)) by lia. apply IHu.
  - rewrite <- Nat.add_succ_comm.
    replace (10 * Z.pos acc + 3)%Z with (Z.pos (3 + 10 * acc)) by lia. apply IHu.
  - rewrite <- Nat.add_succ_comm.
    replace (10 * Z.pos acc + 4)%Z with (Z.pos (4 + 10 * acc)) by lia. apply IHu.
  - rewrite <- Nat.add_succ_comm.
    replace (10 * Z.pos acc + 5)%Z with (Z.pos (5 + 10 * acc)) by lia. apply IHu.
  - rewrite <- Nat.add_succ_comm.
    replace (10 * Z.pos acc + 6)%Z with (Z.pos (6 + 10 * acc)) by lia. apply IHu.
  - rewrite <- Nat.add_succ_comm.
    replace (10 * Z.pos acc + 7)%Z with (Z.pos (7 + 10 * acc)) by lia. apply IHu.
  - rewrite <- Nat.add_succ_comm.
    replace (10 * Z.pos acc + 8)%Z with (Z.pos (8 + 10 * acc)) by lia. apply IHu.
  - rewrite <- Nat.add_succ_comm.
    replace (10 * Z.pos acc + 9)%Z with (Z.pos (9 + 10 * acc)) by lia. apply IHu.
Qed.

Lemma digits_of_uint (u : Decimal.uint) (rest : string) (count : nat) :
  fmt.digits (NilEmpty.string_of_uint u +:+ rest) 0%Z count
  = fmt.digits rest (Z.of_N (Pos.of_uint u)) (count + Decimal.nb_digits u).
Proof.
  revert count; induction u; intros count;
    cbn [NilEmpty.string_of_uint Pos.of_uint Decimal.nb_digits];
    rewrite ?app_cons; cbn [fmt.digits];
    try (change (fmt.digit _) with (Some 0%Z) || change (fmt.digit _) with (Some 1%Z)
         || change (fmt.digit _) with (Some 2%Z) || change (fmt.digit _) with (Some 3%Z)
         || change (fmt.digit _) with (Some 4%Z) || change (fmt.digit _) with (Some 5%Z)
         || change (fmt.digit _) with (Some 6%Z) || change (fmt.digit _) with (Some 7%Z)
         || change (fmt.digit _) with (Some 8%Z) || change (fmt.digit _) with (Some 9%Z));
    cbv iota; rewrite <- ?Nat.add_succ_comm.
  - now rewrite Nat.add_0_r.
  - apply IHu.
  - apply (digits_of_uint_acc u rest 1).
  - apply (digits_of_uint_acc u rest 2).
  - apply (digits_of_uint_acc u rest 3).
  - apply (digits_of_uint_acc u rest 4).
  - apply (digits_of_uint_acc u rest 5).
  - apply (digits_of_uint_acc u rest 6).
  - apply (digits_of_uint_acc u rest 7).
  - apply (digits_of_uint_acc u rest 8).
  - apply (digits_of_uint_acc u rest 9).
Qed.

Lemma string_of_uint_nonnil (u : Decimal.uint) :
  u <> Decimal.Nil -> NilZero.string_of_uint u = NilEmpty.string_of_uint u.
Proof. now destruct u. Qed.

Lemma nb_digits_nonnil (u : Decimal.uint) :
  u <> Decimal.Nil -> (0 < Decimal.nb_digits u)%nat.
Proof. destruct u; cbn; intros H; try lia. now destruct H. Qed.

(** Reading back the decimal notation of a number that is not negative gives
    the number, with at least one digit read, and stops where the notation
    ends. *)
Lemma digits_Sprintf_d (n : Z) (rest : string) :
  (0 <= n)%Z ->
  exists count,
    (0 < count)%nat
    /\ fmt.digits (fmt.Sprintf_d n +:+ rest) 0%Z 0%nat = fmt.digits rest n count.
Proof.
  intros Hn. unfold fmt.Sprintf_d. destruct n as [|p|p]; [| |lia].
  - exists 1%nat. split; [lia | reflexivity].
  - cbn [Z.to_int NilZero.string_of_int].
    pose proof (DecimalPos.Unsigned.to_uint_nonnil p) as Hnil.
    rewrite (string_of_uint_nonnil _ Hnil), digits_of_uint, DecimalPos.Unsigned.of_to.
    eexists. split; [|reflexivity]. cbn. now apply nb_digits_nonnil.
Qed.

(** The format built from a precision between 0 and a million is read back
    by [fmt] as that precision. *)
Lemma precision_of_Sprintf_format (precision : Z) :
  (0 <= precision <= 1000000)%Z ->
  fmt.precision_of (Sprintf_format precision) = Some (Z.to_nat precision).
Proof.
  intros [H0 H1]. unfold Sprintf_format.
  change ("%." +:+ fmt.Sprintf_d precision +:+ "f")
    with (String "%" (String "." (fmt.Sprintf_d precision +:+ "f"))).
  cbn [fmt.precision_of].
  destruct (digits_Sprintf_d precision "f" H0) as (count & Hc & ->).
  cbn [fmt.digits]. change (fmt.digit "f") with (@None Z). cbv iota.
  apply Nat.ltb_lt in Hc. rewrite Hc. apply Z.leb_le in H1. rewrite H1. reflexivity.
Qed.

End DecimalFacts.

(** ** [parseInt] *)

Section ParseIntFacts.

Lemma of_uint_acc_ge (u : Decimal.uint) (acc : positive) :
  (acc <= Pos.of_uint_acc u acc)%positive.
Proof.
  revert acc; induction u; intros acc; cbn [Pos.of_uint_acc]; try lia;
    (etransitivity; [|apply IHu]); lia.
Qed.

Lemma ParseUint_from_uint_acc (u : Decimal.uint) (acc : positive) :
  (Zpos (Pos.of_uint_acc u acc) <= atoi.maxUint64)%Z ->
  atoi.ParseUint_from (NilEmpty.string_of_uint u) (Zpos acc)
  = (Zpos (Pos.of_uint_acc u acc), None).
Proof.
  unfold atoi.maxUint64.
  revert acc; induction u; intros acc H;
    cbn [NilEmpty.string_of_uint Pos.of_uint_acc atoi.ParseUint_from] in *;
    try reflexivity;
    try (change (fmt.digit _) with (Some 0%Z) || change (fmt.digit _) with (Some 1%Z)
         || change (fmt.digit _) with (Some 2%Z) || change (fmt.digit _) with (Some 3%Z)
         || change (fmt.digit _) with (Some 4%Z) || change (fmt.digit _) with (Some 5%Z)
         || change (fmt.digit _) with (Some 6%Z) || change (fmt.digit _) with (Some 7%Z)
         || change (fmt.digit _) with (Some 8%Z) || change (fmt.digit _) with (Some 9%Z));
    cbv iota;
    match goal with
    | H : (Z.pos (Pos.of_uint_acc u ?a) <= _)%Z |- _ =>
        pose proof (of_uint_acc_ge u a) as G;
        destruct (atoi.maxUint64 / 10 + 1 <=? Z.pos acc)%Z eqn:E1;
          [apply Z.leb_le in E1; unfold atoi.maxUint64 in E1;
           change ((2 ^ 64 - 1) / 10 + 1)%Z with 1844674407370955162%Z in E1; lia|];
        match goal with
        | |- context [(atoi.maxUint64 <? ?n1)%Z] =>
            destruct (atoi.maxUint64 <? n1)%Z eqn:E2;
              [apply Z.ltb_lt in E2; unfold atoi.maxUint64 in E2; lia|];
            replace n1 with (Z.pos a) by lia; apply IHu; exact H
        end
    end.
Qed.

Lemma ParseUint_from_uint (u : Decimal.uint) :
  (Z.of_N (Pos.of_uint u) <= atoi.maxUint64)%Z ->
  atoi.ParseUint_from (NilEmpty.string_of_uint u) 0%Z = (Z.of_N (Pos.of_uint u), None).
Proof.
  induction u; intros H;
    cbn [NilEmpty.string_of_uint Pos.of_uint atoi.ParseUint_from] in *;
    try reflexivity;
    try (change (fmt.digit _) with (Some 0%Z) || change (fmt.digit _) with (Some 1%Z)
         || change (fmt.digit _) with (Some 2%Z) || change (fmt.digit _) with (Some 3%Z)
         || change (fmt.digit _) with (Some 4%Z) || change (fmt.digit _) with (Some 5%Z)
         || change (fmt.digit _) with (Some 6%Z) || change (fmt.digit _) with (Some 7%Z)
         || change (fmt.digit _) with (Some 8%Z) || change (fmt.digit _) with (Some 9%Z));
    cbv iota;
    change (atoi.maxUint64 / 10 + 1 <=? 0)%Z with false;
    change (atoi.maxUint64 <? 0 * 10 + 0)%Z with false;
    change (atoi.maxUint64 <? 0 * 10 + 1)%Z with false;
    change (atoi.maxUint64 <? 0 * 10 + 2)%Z with false;
    change (atoi.maxUint64 <? 0 * 10 + 3)%Z with false;
    change (atoi.maxUint64 <? 0 * 10 + 4)%Z with false;
    change (atoi.maxUint64 <? 0 * 10 + 5)%Z with false;
    change (atoi.maxUint64 <? 0 * 10 + 6)%Z with false;
    change (atoi.maxUint64 <? 0 * 10 + 7)%Z with false;
    change (atoi.maxUint64 <? 0 * 10 + 8)%Z with false;
    change (atoi.maxUint64 <? 0 * 10 + 9)%Z with false;
    cbv iota; cbn [Z.mul Z.add Z.of_N];
    first [ apply IHu; exact H | apply ParseUint_from_uint_acc; exact H ].
Qed.

Lemma digit_range (c : ascii) (d : Z) : fmt.digit c = Some d -> (0 <= d <= 9)%Z.
Proof.
  unfold fmt.digit.
  destruct ((48 <=? nat_of_ascii c)%nat && (nat_of_ascii c <=? 57)%nat) eqn:E;
    [|discriminate].
  apply andb_true_iff in E as [E1 E2]. apply Nat.leb_le in E1, E2.
  intros [= <-]. lia.
Qed.

Lemma is_digit_not_sign (c : ascii) :
  is_digit c = true -> Ascii.eqb c "+" = false /\ Ascii.eqb c "-" = false.
Proof.
  intros H. split.
  - destruct (Ascii.eqb_spec c "+") as [->|]; [discriminate | reflexivity].
  - destruct (Ascii.eqb_spec c "-") as [->|]; [discriminate | reflexivity].
Qed.

Lemma ParseUint_from_nonneg (s : string) (n : Z) :
  (0 <= n)%Z -> (0 <= fst (atoi.ParseUint_from s n))%Z.
Proof.
  revert n; induction s as [|c s IH]; intros n Hn; cbn [atoi.ParseUint_from]; [exact Hn|].
  destruct (fmt.digit c) as [d|] eqn:E; [|cbn; lia].
  apply digit_range in E.
  destruct (_ <=? n)%Z; [cbn; unfold atoi.maxUint64; lia|].
  destruct (_ <? _)%Z; [cbn; unfold atoi.maxUint64; lia|].
  apply IH. lia.
Qed.

(** A run that holds a byte other than a digit ends in an error: a syntax
    error with 0, or a range error with the largest value when the digits
    before that byte already leave 64 bits. *)
Lemma ParseUint_from_malformed (s : string) (n : Z) :
  digits_only s = false ->
  atoi.ParseUint_from s n = (0%Z, Some strconv.ErrSyntax)
  \/ atoi.ParseUint_from s n = (atoi.maxUint64, Some strconv.ErrRange).
Proof.
  revert n; induction s as [|c s IH]; intros n H; [discriminate|].
  cbn [digits_only atoi.ParseUint_from] in *. unfold is_digit in H.
  destruct (fmt.digit c) as [d|]; [|now left].
  cbn [andb] in H.
  destruct (_ <=? n)%Z; [now right|].
  destruct (_ <? _)%Z; [now right|].
  now apply IH.
Qed.

(** X1: [parseInt] reads back the decimal notation of every 64-bit integer:
    for [n] between -2^63 and 2^63 - 1, parsing what [%d] prints gives [n],
    without error. *)
Theorem parseInt_Sprintf_d (n : Z) :
  (- 2 ^ 63 <= n < 2 ^ 63)%Z ->
  atoi.ParseInt (fmt.Sprintf_d n) = (n, None) /\ parseInt (fmt.Sprintf_d n) = n.
Proof.
  intros Hn.
  assert (E : atoi.ParseInt (fmt.Sprintf_d n) = (n, None));
    [|split; [exact E | unfold parseInt; now rewrite E]].
  unfold fmt.Sprintf_d. destruct n as [|p|p]; [reflexivity| |].
  - cbn [Z.to_int NilZero.string_of_int].
    pose proof (DecimalPos.Unsigned.to_uint_nonnil p) as Hnil.
    destruct (string_of_uint_digits (Pos.to_uint p)) as (c & rest & Es & Hc & _).
    destruct (is_digit_not_sign c Hc) as [Hplus Hminus].
    unfold atoi.ParseInt. rewrite Es, Hplus, Hminus. cbn [orb negb andb].
    unfold atoi.ParseUint. rewrite <- Es, (string_of_uint_nonnil _ Hnil).
    rewrite ParseUint_from_uint
      by (rewrite DecimalPos.Unsigned.of_to; unfold atoi.maxUint64; cbn [Z.of_N]; lia).
    rewrite DecimalPos.Unsigned.of_to. cbn [Z.of_N].
    destruct (2 ^ 63 <=? Z.pos p)%Z eqn:E; [apply Z.leb_le in E; lia | reflexivity].
  - cbn [Z.to_int NilZero.string_of_int].
    pose proof (DecimalPos.Unsigned.to_uint_nonnil p) as Hnil.
    destruct (string_of_uint_digits (Pos.to_uint p)) as (c & rest & Es & Hc & _).
    unfold atoi.ParseInt.
    change (Ascii.eqb "-" "+") with false. change (Ascii.eqb "-" "-") with true.
    cbn [orb negb andb].
    unfold atoi.ParseUint. rewrite Es, <- Es, (string_of_uint_nonnil _ Hnil).
    rewrite ParseUint_from_uint
      by (rewrite DecimalPos.Unsigned.of_to; unfold atoi.maxUint64; cbn [Z.of_N]; lia).
    rewrite DecimalPos.Unsigned.of_to. cbn [Z.of_N].
    destruct (2 ^ 63 <? Z.pos p)%Z eqn:E; [apply Z.ltb_lt in E; lia | reflexivity].
Qed.

(** X2: whatever the string, [parseInt] returns a 64-bit integer.  It returns
    0 for the empty string and for a bare sign, and when a byte after the
    optional sign is not a digit it returns 0 or one of the two bounds, never
    the number the digits before that byte spell. *)
Theorem parseInt_total_and_bounded (s : string) :
  let body :=
    match s with
    | String c rest => if Ascii.eqb c "+" || Ascii.eqb c "-" then rest else s
    | EmptyString => EmptyString
    end in
  (- 2 ^ 63 <= parseInt s <= 2 ^ 63 - 1)%Z
  /\ (body = "" -> parseInt s = 0%Z)
  /\ (digits_only body = false ->
      parseInt s = 0%Z \/ parseInt s = (2 ^ 63 - 1)%Z \/ parseInt s = (- 2 ^ 63)%Z).
Proof.
  intros body. unfold parseInt, atoi.ParseInt.
  destruct s as [|c rest]; [cbn; repeat split; auto; lia|].
  cbv zeta.
  assert (Eb : (if Ascii.eqb c "+" || Ascii.eqb c "-" then rest else String c rest) = body)
    by reflexivity.
  rewrite Eb.
  pose proof (ParseUint_from_nonneg body 0 ltac:(lia)) as Hpos.
  assert (Hu : (0 <= fst (atoi.ParseUint body))%Z).
  { unfold atoi.ParseUint. destruct body; [cbn; lia | exact Hpos]. }
  split; [|split].
  - destruct (atoi.ParseUint body) as [un [[]|]]; cbn [fst] in *; try lia;
      destruct (Ascii.eqb c "-"); cbn [negb andb];
      repeat match goal with
             | |- context [(?a <=? ?b)%Z] => destruct (Z.leb_spec a b)
             | |- context [(?a <? ?b)%Z] => destruct (Z.ltb_spec a b)
             end; cbn [fst]; lia.
  - intros ->. reflexivity.
  - intros H. unfold atoi.ParseUint.
    destruct body as [|b body']; [discriminate|].
    destruct (ParseUint_from_malformed _ 0 H) as [-> | ->]; [now left|].
    destruct (Ascii.eqb c "-"); cbn; auto.
Qed.

End ParseIntFacts.

(** ** The precision cache across the methods *)

Section CacheFacts.

Context {Exchange : Type}.
Variable api : forall r : Request, Exchange -> result (Data r) * Exchange.
Variable scan : string -> strconv.scanned.
Variable Sprintf_other : string -> float -> string.
Variable calculatePrecision : string -> Z.

Lemma keeps_ret {A : Type} (a : A) : keeps_cache (Exchange:=Exchange) (mret a).
Proof. intros w. reflexivity. Qed.

Lemma keeps_call (r : Request) : keeps_cache (call api r).
Proof. intros w. now rewrite call_run. Qed.

Lemma keeps_bind {A B : Type} (m : M A) (k : A -> M B) :
  keeps_cache (Exchange:=Exchange) m -> (forall a, keeps_cache (k a)) ->
  keeps_cache (m ≫= k).
Proof. intros Hm Hk w. rewrite bind_run, Hk. apply Hm. Qed.

Lemma keeps_range {A : Type} (xs : list A) (body : A -> M unit) :
  (forall x, keeps_cache (Exchange:=Exchange) (body x)) -> keeps_cache (range xs body).
Proof.
  intros H. induction xs as [|x xs IH]; cbn [range].
  - apply keeps_ret.
  - apply keeps_bind; [apply H | intros _; exact IH].
Qed.

Lemma grows_of_keeps {A : Type} (m : M A) :
  keeps_cache (Exchange:=Exchange) m -> grows_cache m.
Proof. intros H w. now rewrite H. Qed.

Lemma grows_bind {A B : Type} (m : M A) (k : A -> M B) :
  grows_cache (Exchange:=Exchange) m -> (forall a, grows_cache (k a)) ->
  grows_cache (m ≫= k).
Proof.
  intros Hm Hk w. rewrite bind_run.
  etransitivity; [apply Hm | apply Hk].
Qed.

(** Solves [keeps_cache] goals built from binds, calls, returns and case
    splits on what a call gave. *)
Ltac keeps :=
  repeat first
    [ apply keeps_ret
    | match goal with |- keeps_cache (call _ ?r) => exact (keeps_call r) end
    | apply keeps_range; intros ?
    | apply keeps_bind; [|intros ?]
    | match goal with
      | |- keeps_cache (match ?x with _ => _ end) => destruct x
      | |- keeps_cache (if ?b then _ else _) => destruct b
      | |- keeps_cache (let '(_, _) := ?x in _) => destruct x
      end ].

Lemma keeps_CancelAllOrders (symbol : string) : keeps_cache (CancelAllOrders api symbol).
Proof. unfold CancelAllOrders. keeps. Qed.

Lemma keeps_SetLeverage (symbol : string) (leverage : Z) :
  keeps_cache (SetLeverage api symbol leverage).
Proof. unfold SetLeverage. keeps. Qed.

Lemma keeps_GetBalance : keeps_cache (GetBalance api scan).
Proof. unfold GetBalance. keeps. Qed.

Lemma keeps_GetPositions : keeps_cache (GetPositions api scan).
Proof. unfold GetPositions. keeps. Qed.

Lemma keeps_GetMarketPrice (symbol : string) : keeps_cache (GetMarketPrice api scan symbol).
Proof. unfold GetMarketPrice. keeps. Qed.

Lemma keeps_getSpecificPosition (symbol posSide : string) :
  keeps_cache (getSpecificPosition api symbol posSide).
Proof. unfold getSpecificPosition. keeps. Qed.

Lemma keeps_getInstrument (instID : string) : keeps_cache (getInstrument api instID).
Proof. unfold getInstrument. keeps. Qed.

Lemma keeps_placeAlgoOrder (symbol posSide ordType triggerPrice sz : string) :
  keeps_cache (placeAlgoOrder api symbol posSide ordType triggerPrice sz).
Proof. unfold placeAlgoOrder. keeps. Qed.

(** What [getLotSzPrecision] does in each case: a hit returns the cached
    value and leaves the world as it is; a miss sends the instrument query,
    and stores a precision only when the query brings an instrument. *)
Lemma getLotSzPrecision_cases (instID : string) (w : World) :
  let key := instID +:+ "_lotSz" in
  let query :=
    Public_GetInstruments
      {| GetInstrumentsRequest.InstType := "SWAP";
         GetInstrumentsRequest.InstID := instID |} in
  let asked cache :=
    {| exchange := snd (api query (exchange w)); precisions := cache;
       sent := sent w ++ [query] |} in
  getLotSzPrecision api calculatePrecision instID w
  = match precisions w !! key with
    | Some v => (Ok v, w)
    | None =>
        match fst (api query (exchange w)) with
        | Ok (inst :: _) =>
            (Ok (calculatePrecision (Instrument.LotSz inst)),
             asked (<[key := calculatePrecision (Instrument.LotSz inst)]> (precisions w)))
        | Ok [] => (Err (errorString ("未找到合约信息: " +:+ instID)), asked (precisions w))
        | Err err => (Err err, asked (precisions w))
        end
    end.
Proof.
  intros key query asked. unfold getLotSzPrecision, getInstrument, Load, Store.
  fold key query. rewrite bind_run. cbn [fst snd].
  destruct (precisions w !! key) as [v|]; [reflexivity|].
  rewrite !bind_run, call_run. cbn [fst snd].
  destruct (fst (api query (exchange w))) as [[|inst rest]|err]; reflexivity.
Qed.

Lemma getTickSzPrecision_cases (instID : string) (w : World) :
  let key := instID +:+ "_tickSz" in
  let query :=
    Public_GetInstruments
      {| GetInstrumentsRequest.InstType := "SWAP";
         GetInstrumentsRequest.InstID := instID |} in
  let asked cache :=
    {| exchange := snd (api query (exchange w)); precisions := cache;
       sent := sent w ++ [query] |} in
  getTickSzPrecision api calculatePrecision instID w
  = match precisions w !! key with
    | Some v => (Ok v, w)
    | None =>
        match fst (api query (exchange w)) with
        | Ok (inst :: _) =>
            (Ok (calculatePrecision (Instrument.TickSz inst)),
             asked (<[key := calculatePrecision (Instrument.TickSz inst)]> (precisions w)))
        | Ok [] => (Err (errorString ("未找到合约信息: " +:+ instID)), asked (precisions w))
        | Err err => (Err err, asked (precisions w))
        end
    end.
Proof.
  intros key query asked. unfold getTickSzPrecision, getInstrument, Load, Store.
  fold key query. rewrite bind_run. cbn [fst snd].
  destruct (precisions w !! key) as [v|]; [reflexivity|].
  rewrite !bind_run, call_run. cbn [fst snd].
  destruct (fst (api query (exchange w))) as [[|inst rest]|err]; reflexivity.
Qed.

Lemma grows_getLotSzPrecision (instID : string) :
  grows_cache (getLotSzPrecision api calculatePrecision instID).
Proof.
  intros w. rewrite getLotSzPrecision_cases.
  destruct (precisions w !! (instID +:+ "_lotSz")) as [v|] eqn:E; [reflexivity|].
  destruct (fst (api _ (exchange w))) as [[|inst rest]|err]; cbn [snd precisions];
    try reflexivity.
  now apply insert_subseteq.
Qed.

Lemma grows_getTickSzPrecision (instID : string) :
  grows_cache (getTickSzPrecision api calculatePrecision instID).
Proof.
  intros w. rewrite getTickSzPrecision_cases.
  destruct (precisions w !! (instID +:+ "_tickSz")) as [v|] eqn:E; [reflexivity|].
  destruct (fst (api _ (exchange w))) as [[|inst rest]|err]; cbn [snd precisions];
    try reflexivity.
  now apply insert_subseteq.
Qed.

(** Solves [grows_cache] goals: a method that leaves the cache as it is also
    keeps its entries. *)
Ltac grows :=
  repeat first
    [ apply grows_getLotSzPrecision
    | apply grows_getTickSzPrecision
    | apply grows_of_keeps;
      first [ apply keeps_CancelAllOrders | apply keeps_SetLeverage
            | apply keeps_getSpecificPosition | apply keeps_placeAlgoOrder
            | apply keeps_ret
            | match goal with |- keeps_cache (call _ ?r) => exact (keeps_call r) end ]
    | apply grows_bind; [|intros ?]
    | match goal with
      | |- grows_cache (match ?x with _ => _ end) => destruct x
      | |- grows_cache (if ?b then _ else _) => destruct b
      | |- grows_cache (let '(_, _) := ?x in _) => destruct x
      end ].

Lemma grows_FormatQuantity (symbol : string) (value : float) :
  grows_cache (FormatQuantity api Sprintf_other calculatePrecision symbol value).
Proof. unfold FormatQuantity. grows. Qed.

Lemma grows_FormatPrice (symbol : string) (value : float) :
  grows_cache (FormatPrice api Sprintf_other calculatePrecision symbol value).
Proof. unfold FormatPrice. grows. Qed.

Lemma grows_placeOrder (symbol side ordType posSide : string) (quantity : float) :
  grows_cache (placeOrder api Sprintf_other calculatePrecision
                 symbol side ordType posSide quantity).
Proof.
  unfold placeOrder. apply grows_bind; [apply grows_FormatQuantity|].
  intros [quantityStr err]. grows.
Qed.

(** X3: the methods that read the account, set the leverage or cancel orders
    leave the precision cache exactly as they found it, whatever the exchange
    answers. *)
Theorem cache_untouched (symbol : string) (leverage : Z) :
  keeps_cache (GetBalance api scan)
  /\ keeps_cache (GetPositions api scan)
  /\ keeps_cache (GetMarketPrice api scan symbol)
  /\ keeps_cache (SetLeverage api symbol leverage)
  /\ keeps_cache (CancelAllOrders api symbol).
Proof.
  repeat split;
    [ apply keeps_GetBalance | apply keeps_GetPositions | apply keeps_GetMarketPrice
    | apply keeps_SetLeverage | apply keeps_CancelAllOrders ].
Qed.

(** X4: no method drops or overwrites a cached precision: every entry of the
    cache before a call to format, open, close or protect a position is still
    there, with the same value, after it. *)
Theorem cache_only_grows (symbol positionSide : string) (quantity price : float)
    (leverage : Z) :
  grows_cache (FormatQuantity api Sprintf_other calculatePrecision symbol quantity)
  /\ grows_cache (FormatPrice api Sprintf_other calculatePrecision symbol price)
  /\ grows_cache (OpenLong api Sprintf_other calculatePrecision symbol quantity leverage)
  /\ grows_cache (OpenShort api Sprintf_other calculatePrecision symbol quantity leverage)
  /\ grows_cache (CloseLong api scan Sprintf_other calculatePrecision symbol quantity)
  /\ grows_cache (CloseShort api scan Sprintf_other calculatePrecision symbol quantity)
  /\ grows_cache (SetStopLoss api Sprintf_other calculatePrecision
                    symbol positionSide quantity price)
  /\ grows_cache (SetTakeProfit api Sprintf_other calculatePrecision
                    symbol positionSide quantity price).
Proof.
  repeat split.
  - apply grows_FormatQuantity.
  - apply grows_FormatPrice.
  - unfold OpenLong. grows.
  - unfold OpenShort. grows.
  - unfold CloseLong. grows.
  - unfold CloseShort. grows.
  - unfold SetStopLoss. apply grows_bind; [apply grows_FormatQuantity|].
    intros [quantityStr [err|]]; [grows|].
    apply grows_bind; [apply grows_FormatPrice|]. intros [stopPriceStr e]. grows.
  - unfold SetTakeProfit. apply grows_bind; [apply grows_FormatQuantity|].
    intros [quantityStr [err|]]; [grows|].
    apply grows_bind; [apply grows_FormatPrice|]. intros [tpPriceStr e]. grows.
Qed.

Lemma FormatQuantity_hit (symbol : string) (value : float) (w : World) (p : Z) :
  precisions w !! (okxSymbol symbol +:+ "_lotSz") = Some p ->
  FormatQuantity api Sprintf_other calculatePrecision symbol value w
  = ((Sprintf Sprintf_other (Sprintf_format p) value, None), w).
Proof.
  intros H. unfold FormatQuantity. rewrite bind_run, getLotSzPrecision_cases, H.
  reflexivity.
Qed.

Lemma FormatPrice_hit (symbol : string) (value : float) (w : World) (p : Z) :
  precisions w !! (okxSymbol symbol +:+ "_tickSz") = Some p ->
  FormatPrice api Sprintf_other calculatePrecision symbol value w
  = ((Sprintf Sprintf_other (Sprintf_format p) value, None), w).
Proof.
  intros H. unfold FormatPrice. rewrite bind_run, getTickSzPrecision_cases, H.
  reflexivity.
Qed.

(** X5: the precision of an instrument is looked up once.  When the lot size
    is not cached and the exchange delivers the instrument, [FormatQuantity]
    renders at the precision computed from the lot size of the first
    instrument delivered and stores it; the next call for the same symbol,
    for any value, renders at that precision without sending a request or
    changing the trader. *)
Theorem FormatQuantity_memoizes (symbol : string) (value value' : float) (w : World)
    (inst : Instrument.t) (more : list Instrument.t) :
  let instID := okxSymbol symbol in
  let query :=
    Public_GetInstruments
      {| GetInstrumentsRequest.InstType := "SWAP";
         GetInstrumentsRequest.InstID := instID |} in
  let precision := calculatePrecision (Instrument.LotSz inst) in
  let first := FormatQuantity api Sprintf_other calculatePrecision symbol value w in
  let second :=
    FormatQuantity api Sprintf_other calculatePrecision symbol value' (snd first) in
  precisions w !! (instID +:+ "_lotSz") = None ->
  fst (api query (exchange w)) = Ok (inst :: more) ->
  fst first = (Sprintf Sprintf_other (Sprintf_format precision) value, None)
  /\ sent (snd first) = sent w ++ [query]
  /\ precisions (snd first) = <[instID +:+ "_lotSz" := precision]> (precisions w)
  /\ second = ((Sprintf Sprintf_other (Sprintf_format precision) value', None), snd first).
Proof.
  intros instID query precision first second Hmiss Hanswer.
  assert (E : first
    = ((Sprintf Sprintf_other (Sprintf_format precision) value, None),
       {| exchange := snd (api query (exchange w));
          precisions := <[instID +:+ "_lotSz" := precision]> (precisions w);
          sent := sent w ++ [query] |})).
  { subst first. unfold FormatQuantity. fold instID.
    rewrite bind_run, getLotSzPrecision_cases. fold query. rewrite Hmiss, Hanswer.
    reflexivity. }
  subst second. rewrite E. cbn [fst snd sent precisions].
  repeat split. apply FormatQuantity_hit. cbn [precisions]. apply lookup_insert_eq.
Qed.

(** X6: the fallback precision is not remembered.  When the lot size is not
    cached and the instrument query fails or comes back empty,
    [FormatQuantity] leaves the cache as it is, so the next call for the same
    symbol sends the query again. *)
Theorem FormatQuantity_fallback_not_cached (symbol : string) (value value' : float)
    (w : World) :
  let instID := okxSymbol symbol in
  let query :=
    Public_GetInstruments
      {| GetInstrumentsRequest.InstType := "SWAP";
         GetInstrumentsRequest.InstID := instID |} in
  let first := FormatQuantity api Sprintf_other calculatePrecision symbol value w in
  let second :=
    FormatQuantity api Sprintf_other calculatePrecision symbol value' (snd first) in
  precisions w !! (instID +:+ "_lotSz") = None ->
  match fst (api query (exchange w)) with Ok (_ :: _) => False | _ => True end ->
  precisions (snd first) = precisions w
  /\ sent (snd first) = sent w ++ [query]
  /\ sent (snd second) = sent w ++ [query; query].
Proof.
  intros instID query first second Hmiss Hfail.
  assert (E : snd first
    = {| exchange := snd (api query (exchange w)); precisions := precisions w;
         sent := sent w ++ [query] |}).
  { subst first. unfold FormatQuantity. fold instID.
    rewrite bind_run, getLotSzPrecision_cases. fold query. rewrite Hmiss.
    destruct (fst (api query (exchange w))) as [[|inst rest]|err];
      try contradiction; reflexivity. }
  split; [now rewrite E|]. split; [now rewrite E|].
  subst second. rewrite (FormatQuantity_miss api Sprintf_other calculatePrecision).
  - rewrite E. cbn [sent]. fold instID query. now rewrite <- app_assoc.
  - rewrite E. exact Hmiss.
Qed.

(** X7: with a precision between 0 and a million in the cache,
    [FormatQuantity] and [FormatPrice] send nothing and render at that
    precision: a value that is neither NaN nor an infinity comes out in
    fixed-point notation with exactly that many decimal digits when the
    precision is above 0. *)
Theorem Format_at_cached_precision (symbol : string) (value : float) (w : World) (p : Z) :
  let instID := okxSymbol symbol in
  let quantity := FormatQuantity api Sprintf_other calculatePrecision symbol value w in
  let price := FormatPrice api Sprintf_other calculatePrecision symbol value w in
  (0 <= p <= 1000000)%Z ->
  (precisions w !! (instID +:+ "_lotSz") = Some p ->
   quantity = ((fmt.fmtFloat (Z.to_nat p) value, None), w)
   /\ ((0 < p)%Z -> is_finite value = true ->
       is_fixed_point (Z.to_nat p) (fst (fst quantity)) = true))
  /\ (precisions w !! (instID +:+ "_tickSz") = Some p ->
      price = ((fmt.fmtFloat (Z.to_nat p) value, None), w)
      /\ ((0 < p)%Z -> is_finite value = true ->
          is_fixed_point (Z.to_nat p) (fst (fst price)) = true)).
Proof.
  intros instID quantity price Hp.
  assert (R : Sprintf Sprintf_other (Sprintf_format p) value
              = fmt.fmtFloat (Z.to_nat p) value).
  { unfold Sprintf. now rewrite (precision_of_Sprintf_format p Hp). }
  split; intros Hc.
  - subst quantity. rewrite (FormatQuantity_hit _ _ _ _ Hc), R.
    split; [reflexivity|]. intros H0 Hf. cbn [fst].
    apply fmtFloat_is_fixed_point; [lia | exact Hf].
  - subst price. rewrite (FormatPrice_hit _ _ _ _ Hc), R.
    split; [reflexivity|]. intros H0 Hf. cbn [fst].
    apply fmtFloat_is_fixed_point; [lia | exact Hf].
Qed.

Lemma app_inv_tail (a b s : string) : a +:+ s = b +:+ s -> a = b.
Proof.
  intros H.
  assert (L : String.length a = String.length b).
  { apply (f_equal String.length) in H. rewrite !length_app in H. lia. }
  rewrite <- (take_app a s), H, L. apply take_app.
Qed.

(** A quantity key is never a price key. *)
Lemma lot_tick_keys_differ (a b : string) : a +:+ "_lotSz" <> b +:+ "_tickSz".
Proof.
  intros H.
  assert (L : (String.length a = String.length b + 1)%nat).
  { apply (f_equal String.length) in H. rewrite !length_app in H. cbn in H. lia. }
  apply (f_equal (strings.drop (String.length a + 2))) in H.
  rewrite drop_app_more in H.
  replace (String.length a + 2)%nat with (String.length b + 3)%nat in H by lia.
  rewrite drop_app_more in H. discriminate.
Qed.

Lemma FormatQuantity_other_keys (symbol : string) (value : float) (w : World) (key : string) :
  key <> okxSymbol symbol +:+ "_lotSz" ->
  precisions (snd (FormatQuantity api Sprintf_other calculatePrecision symbol value w))
    !! key = precisions w !! key.
Proof.
  intros Hk. unfold FormatQuantity. rewrite bind_run, getLotSzPrecision_cases.
  destruct (precisions w !! (okxSymbol symbol +:+ "_lotSz")); [reflexivity|].
  destruct (fst (api _ (exchange w))) as [[|inst rest]|err]; cbn; try reflexivity.
  now apply lookup_insert_ne.
Qed.

Lemma FormatPrice_other_keys (symbol : string) (value : float) (w : World) (key : string) :
  key <> okxSymbol symbol +:+ "_tickSz" ->
  precisions (snd (FormatPrice api Sprintf_other calculatePrecision symbol value w))
    !! key = precisions w !! key.
Proof.
  intros Hk. unfold FormatPrice. rewrite bind_run, getTickSzPrecision_cases.
  destruct (precisions w !! (okxSymbol symbol +:+ "_tickSz")); [reflexivity|].
  destruct (fst (api _ (exchange w))) as [[|inst rest]|err]; cbn; try reflexivity.
  now apply lookup_insert_ne.
Qed.

(** X8: quantity and price precisions never mix, nor do instruments.
    [FormatQuantity] changes no price precision and no quantity precision of
    another instrument; [FormatPrice] changes no quantity precision and no
    price precision of another instrument. *)
Theorem precisions_are_kept_apart (symbol : string) (value : float) (w : World)
    (instID : string) :
  let quantity := FormatQuantity api Sprintf_other calculatePrecision symbol value w in
  let price := FormatPrice api Sprintf_other calculatePrecision symbol value w in
  precisions (snd quantity) !! (instID +:+ "_tickSz") = precisions w !! (instID +:+ "_tickSz")
  /\ precisions (snd price) !! (instID +:+ "_lotSz") = precisions w !! (instID +:+ "_lotSz")
  /\ (instID <> okxSymbol symbol ->
      precisions (snd quantity) !! (instID +:+ "_lotSz")
      = precisions w !! (instID +:+ "_lotSz")
      /\ precisions (snd price) !! (instID +:+ "_tickSz")
         = precisions w !! (instID +:+ "_tickSz")).
Proof.
  intros quantity price. split; [|split].
  - apply FormatQuantity_other_keys. intros H. symmetry in H.
    exact (lot_tick_keys_differ _ _ H).
  - apply FormatPrice_other_keys. apply lot_tick_keys_differ.
  - intros Hne. split.
    + apply FormatQuantity_other_keys. intros H. apply app_inv_tail in H. contradiction.
    + apply FormatPrice_other_keys. intros H. apply app_inv_tail in H. contradiction.
Qed.

End CacheFacts.

(** ** Opening, closing and protecting a position *)

Section OrderFacts.

Context {Exchange : Type}.
Variable api : forall r : Request, Exchange -> result (Data r) * Exchange.
Variable scan : string -> strconv.scanned.
Variable Sprintf_other : string -> float -> string.
Variable calculatePrecision : string -> Z.

Ltac run :=
  repeat first
    [ rewrite bind_run
    | rewrite call_run
    | rewrite ret_run
    | progress cbn [fst snd exchange precisions sent] ].

Lemma CancelAllOrders_run (symbol : string) (w : World) :
  CancelAllOrders api symbol w
  = (None,
     {| exchange := after api (cancelTrace api symbol (exchange w)) (exchange w);
        precisions := precisions w;
        sent := sent w ++ cancelTrace api symbol (exchange w) |}).
Proof.
  unfold CancelAllOrders, cancelTrace.
  set (instID := okxSymbol symbol).
  assert (P : forall (resp : result (list AlgoOrder.t)) (v : World),
            match resp with
            | Ok data =>
                range data (fun algo => _ ← call api (cancelRequest instID algo); mret tt)
            | Err _ => mret tt
            end v
            = (tt, {| exchange := after api (cancelRequest instID <$> entries resp) (exchange v);
                      precisions := precisions v;
                      sent := sent v ++ (cancelRequest instID <$> entries resp) |})).
  { intros [data|err] v; cbn [entries].
    - apply range_cancel.
    - rewrite ret_run. cbn. rewrite app_nil_r. now destruct v. }
  rewrite bind_run, call_run. cbn [fst snd].
  rewrite bind_run, P. cbn [fst snd exchange precisions sent].
  rewrite bind_run, call_run. cbn [fst snd exchange precisions sent].
  rewrite bind_run, P. cbn [fst snd exchange precisions sent].
  rewrite ret_run. cbv zeta.
  rewrite !after_app, !after_cons. cbn [after fold_left].
  rewrite <- !app_assoc. reflexivity.
Qed.

Lemma SetLeverage_run (symbol : string) (leverage : Z) (w : World) :
  let req := leverageRequest symbol leverage in
  SetLeverage api symbol leverage w
  = (match fst (api req (exchange w)) with
     | Ok _ => None
     | Err err =>
         if strings.Contains (Error err) "Leverage not change" then None
         else Some (wrapError "OKX SetLeverage 失败: " err)
     end,
     {| exchange := snd (api req (exchange w));
        precisions := precisions w;
        sent := sent w ++ [req] |}).
Proof.
  intros req. unfold SetLeverage. fold (leverageRequest symbol leverage). fold req. run.
  destruct (fst (api req (exchange w))) as [u|err]; [reflexivity|].
  now destruct (strings.Contains _ _).
Qed.

(** X9: [OpenLong] and [OpenShort] first run the cancellation pass, then set
    the leverage, then place the order, in that order.  When the exchange
    accepts the leverage or reports it unchanged, the only requests after the
    leverage request are the precision lookup, if any, and one market order:
    buy on the long side, sell on the short side.  When the leverage request
    fails in any other way, that error is returned and no order is sent. *)
Theorem Open_sequence (symbol : string) (quantity : float) (leverage : Z) (w : World) :
  let instID := okxSymbol symbol in
  let cancels := cancelTrace api symbol (exchange w) in
  let lev := leverageRequest symbol leverage in
  let answer := fst (api lev (after api cancels (exchange w))) in
  let order side posSide sz :=
    Trade_PlaceOrder
      {| PlaceOrderRequest.InstID := instID;
         PlaceOrderRequest.TdMode := "isolated";
         PlaceOrderRequest.Side := side;
         PlaceOrderRequest.OrdType := "market";
         PlaceOrderRequest.Sz := sz;
         PlaceOrderRequest.PosSide := posSide |} in
  let long := OpenLong api Sprintf_other calculatePrecision symbol quantity leverage w in
  let short := OpenShort api Sprintf_other calculatePrecision symbol quantity leverage w in
  (leverageAccepted answer ->
   exists precision,
     sent (snd long)
     = sent w ++ cancels ++ lev :: lotSzQuery w (okxSymbol instID)
         ++ [order "buy" "long" (Sprintf Sprintf_other (Sprintf_format precision) quantity)]
     /\ sent (snd short)
        = sent w ++ cancels ++ lev :: lotSzQuery w (okxSymbol instID)
            ++ [order "sell" "short"
                  (Sprintf Sprintf_other (Sprintf_format precision) quantity)])
  /\ (forall err, answer = Err err ->
        strings.Contains (Error err) "Leverage not change" = false ->
        fst long = Err (wrapError "OKX SetLeverage 失败: " err)
        /\ sent (snd long) = sent w ++ cancels ++ [lev]
        /\ fst short = Err (wrapError "OKX SetLeverage 失败: " err)
        /\ sent (snd short) = sent w ++ cancels ++ [lev]).
Proof.
  intros instID cancels lev answer order long short.
  subst long short. unfold OpenLong, OpenShort.
  rewrite ?bind_run, !CancelAllOrders_run. cbn [fst snd].
  rewrite ?bind_run, !SetLeverage_run. cbn [fst snd exchange precisions sent].
  fold cancels lev answer.
  split.
  - intros Hacc.
    assert (N : match answer with
                | Ok _ => None
                | Err err =>
                    if strings.Contains (Error err) "Leverage not change" then None
                    else Some (wrapError "OKX SetLeverage 失败: " err)
                end = None).
    { destruct answer as [u|err]; [reflexivity|]. cbn in Hacc. now rewrite Hacc. }
    rewrite N.
    set (w1 := {| exchange := snd (api lev (after api cancels (exchange w)));
                  precisions := precisions w;
                  sent := (sent w ++ cancels) ++ [lev] |}).
    destruct (FormatQuantity_rendered api Sprintf_other calculatePrecision
                (okxSymbol symbol) quantity w1) as [p Ep].
    exists p.
    pose proof (placeOrder_run api Sprintf_other calculatePrecision
                  symbol "buy" "market" "long" quantity w1) as R.
    pose proof (placeOrder_run api Sprintf_other calculatePrecision
                  symbol "sell" "market" "short" quantity w1) as R'.
    cbv zeta in R, R'. rewrite R, R'. cbn [snd sent].
    rewrite FormatQuantity_sent, Ep. subst w1. cbn [sent]. unfold lotSzQuery.
    cbn [precisions]. fold instID. rewrite <- !app_assoc. split; reflexivity.
  - intros err Ha Hc. rewrite Ha, Hc. run. rewrite <- !app_assoc. repeat split.
Qed.


(** X10: with a quantity other than zero, [CloseLong] and [CloseShort] do not
    ask the exchange for the position: after the precision lookup, if any,
    they place one market order for the quantity given, sell on the long side
    and buy on the short side. *)
Theorem Close_given_quantity (symbol : string) (quantity : float) (w : World) :
  (quantity =? 0)%float = false ->
  let instID := okxSymbol symbol in
  let order side posSide sz :=
    Trade_PlaceOrder
      {| PlaceOrderRequest.InstID := instID;
         PlaceOrderRequest.TdMode := "isolated";
         PlaceOrderRequest.Side := side;
         PlaceOrderRequest.OrdType := "market";
         PlaceOrderRequest.Sz := sz;
         PlaceOrderRequest.PosSide := posSide |} in
  exists precision,
    sent (snd (CloseLong api scan Sprintf_other calculatePrecision symbol quantity w))
    = sent w ++ lotSzQuery w (okxSymbol instID)
        ++ [order "sell" "long" (Sprintf Sprintf_other (Sprintf_format precision) quantity)]
    /\ sent (snd (CloseShort api scan Sprintf_other calculatePrecision symbol quantity w))
       = sent w ++ lotSzQuery w (okxSymbol instID)
           ++ [order "buy" "short"
                 (Sprintf Sprintf_other (Sprintf_format precision) quantity)].
Proof.
  intros Hq instID order. unfold CloseLong, CloseShort. rewrite Hq.
  destruct (FormatQuantity_rendered api Sprintf_other calculatePrecision
              (okxSymbol symbol) quantity w) as [p Ep].
  exists p.
  pose proof (placeOrder_run api Sprintf_other calculatePrecision
                symbol "sell" "market" "long" quantity w) as R.
  pose proof (placeOrder_run api Sprintf_other calculatePrecision
                symbol "buy" "market" "short" quantity w) as R'.
  cbv zeta in R, R'. rewrite R, R'. cbn [snd sent].
  rewrite FormatQuantity_sent, Ep. fold instID. rewrite <- !app_assoc.
  split; reflexivity.
Qed.

(** X11: when the listing of positions fails, [CloseLong] and [CloseShort]
    with quantity zero return the error of the client as it is, not wrapped,
    and send no order. *)
Theorem Close_zero_listing_error (symbol : string) (w : World) (err : error) :
  let listing :=
    Account_GetPositions
      {| GetPositionsRequest.InstType := "";
         GetPositionsRequest.InstID := okxSymbol symbol |} in
  fst (api listing (exchange w)) = Err err ->
  let long := CloseLong api scan Sprintf_other calculatePrecision symbol 0 w in
  let short := CloseShort api scan Sprintf_other calculatePrecision symbol 0 w in
  fst long = Err err /\ sent (snd long) = sent w ++ [listing]
  /\ fst short = Err err /\ sent (snd short) = sent w ++ [listing].
Proof.
  intros listing H long short. subst long short. unfold CloseLong, CloseShort.
  change (0 =? 0)%float with true. cbv iota.
  rewrite !bind_run, !getSpecificPosition_run. fold listing. rewrite H.
  cbn [fst snd]. rewrite !ret_run. cbn [fst snd sent]. repeat split.
Qed.

(** X12: [GetMarketPrice] sends one ticker request, for the instrument of the
    symbol.  A failure of the call comes back wrapped, an answer with no
    entry as an error that names the instrument; otherwise the price is what
    [strconv.ParseFloat] reads from the last price of the first entry, with
    its error dropped: the price 0 for a text on which it reports a syntax
    error, and NaN or an infinity, not 0, for the texts "NaN" and "Inf",
    each time with no error. *)
Theorem GetMarketPrice_outcomes (symbol : string) (w : World) :
  let instID := okxSymbol symbol in
  let req := Market_GetTicker {| GetTickerRequest.InstID := instID |} in
  let answer := fst (api req (exchange w)) in
  let out := GetMarketPrice api scan symbol w in
  sent (snd out) = sent w ++ [req]
  /\ (forall err, answer = Err err -> fst out = Err (wrapError "OKX GetTicker 失败: " err))
  /\ (answer = Ok [] ->
      fst out = Err (errorString ("OKX GetTicker: 未返回 " +:+ instID +:+ " 的数据")))
  /\ (forall ticker rest, answer = Ok (ticker :: rest) ->
        fst out = Ok (fst (ParseFloat scan (Ticker.Last ticker)))
        /\ (rejected scan (Ticker.Last ticker) = true -> fst out = Ok 0%float)
        /\ (Ticker.Last ticker = "NaN" -> fst out = Ok nan)
        /\ (Ticker.Last ticker = "Inf" -> fst out = Ok infinity)).
Proof.
  intros instID req answer out. subst out. unfold GetMarketPrice.
  fold instID req. rewrite bind_run, call_run. cbn [fst snd]. fold answer.
  split; [|split; [|split]].
  - destruct answer as [[|ticker rest]|err]; reflexivity.
  - intros err ->. reflexivity.
  - intros ->. reflexivity.
  - intros ticker rest ->. rewrite ret_run. cbn [fst]. split; [reflexivity|].
    split; [|split].
    + intros R. f_equal. revert R. unfold rejected, parseFloat, ParseFloat.
      destruct (strconv.special (Ticker.Last ticker)) as [[val n]|].
      * destruct (n =? String.length _)%nat; [discriminate | reflexivity].
      * destruct (scan _); cbn; try discriminate. reflexivity.
    + intros ->. reflexivity.
    + intros ->. reflexivity.
Qed.

Lemma FormatPrice_sent (symbol : string) (value : float) (w : World) :
  sent (snd (FormatPrice api Sprintf_other calculatePrecision symbol value w))
  = sent w ++ tickSzQuery w (okxSymbol symbol).
Proof.
  unfold FormatPrice, tickSzQuery. rewrite bind_run, getTickSzPrecision_cases.
  destruct (precisions w !! (okxSymbol symbol +:+ "_tickSz")) as [v|].
  - rewrite ret_run. cbn. now rewrite app_nil_r.
  - destruct (fst (api _ (exchange w))) as [[|inst rest]|err]; reflexivity.
Qed.

Lemma tickSzQuery_after_quantity (symbol : string) (value : float) (w : World)
    (instID : string) :
  tickSzQuery (snd (FormatQuantity api Sprintf_other calculatePrecision symbol value w))
    instID
  = tickSzQuery w instID.
Proof.
  unfold tickSzQuery. rewrite FormatQuantity_other_keys; [reflexivity|].
  intros H. symmetry in H. now apply lot_tick_keys_differ in H.
Qed.

(** What [SetStopLoss] and [SetTakeProfit] do, in terms of their parts. *)
Lemma conditional_order_run (symbol positionSide ordType : string)
    (quantity price : float) (w : World) :
  let body :=
    '(quantityStr, err) ← FormatQuantity api Sprintf_other calculatePrecision
                            (okxSymbol symbol) quantity;
    match err with
    | Some err => mret (Some err)
    | None =>
        '(priceStr, _) ← FormatPrice api Sprintf_other calculatePrecision
                           (okxSymbol symbol) price;
        placeAlgoOrder api symbol (strings.ToLower positionSide) ordType priceStr
          quantityStr
    end in
  let q := FormatQuantity api Sprintf_other calculatePrecision
             (okxSymbol symbol) quantity w in
  let p := FormatPrice api Sprintf_other calculatePrecision
             (okxSymbol symbol) price (snd q) in
  body w
  = placeAlgoOrder api symbol (strings.ToLower positionSide) ordType
      (fst (fst p)) (fst (fst q)) (snd p).
Proof.
  intros body q p. subst body. rewrite bind_run. fold q.
  pose proof (FormatQuantity_nil_error api Sprintf_other calculatePrecision
                (okxSymbol symbol) quantity w) as N. fold q in N.
  destruct q as [[quantityStr err] w1] eqn:Eq. cbn [fst snd] in *. subst err.
  rewrite bind_run. fold p.
  destruct p as [[priceStr err] w2]. reflexivity.
Qed.

(** X13: for a position side written in ASCII, [SetStopLoss] and
    [SetTakeProfit] send the lookup of the quantity precision and of the
    price precision, each only on a cache miss, and then one conditional
    order: isolated margin, the position side with its letters lowered, the
    trade side "buy" for the side "short" and "sell" for any other, the
    rendered quantity as size, and the rendered price as trigger of a market
    order ("-1"), in the stop-loss fields for a stop and in the take-profit
    fields for a take profit, the other two fields left empty. *)
Theorem conditional_order_trace (symbol positionSide : string)
    (quantity price : float) (w : World) :
  let instID := okxSymbol symbol in
  let posSide := strings.ToLower positionSide in
  let side := if String.eqb posSide "short" then "buy" else "sell" in
  let lookups := lotSzQuery w (okxSymbol instID) ++ tickSzQuery w (okxSymbol instID) in
  strings.isASCII positionSide = true ->
  exists lot tick,
    sent (snd (SetStopLoss api Sprintf_other calculatePrecision
                 symbol positionSide quantity price w))
    = sent w ++ lookups
        ++ [Trade_PlaceAlgoOrder
              {| PlaceAlgoOrderRequest.InstID := instID;
                 PlaceAlgoOrderRequest.TdMode := "isolated";
                 PlaceAlgoOrderRequest.Side := side;
                 PlaceAlgoOrderRequest.PosSide := posSide;
                 PlaceAlgoOrderRequest.OrdType := "stop";
                 PlaceAlgoOrderRequest.Sz :=
                   Sprintf Sprintf_other (Sprintf_format lot) quantity;
                 PlaceAlgoOrderRequest.SlTriggerPx :=
                   Sprintf Sprintf_other (Sprintf_format tick) price;
                 PlaceAlgoOrderRequest.SlOrdPx := "-1";
                 PlaceAlgoOrderRequest.TpTriggerPx := "";
                 PlaceAlgoOrderRequest.TpOrdPx := "" |}]
    /\ sent (snd (SetTakeProfit api Sprintf_other calculatePrecision
                    symbol positionSide quantity price w))
       = sent w ++ lookups
           ++ [Trade_PlaceAlgoOrder
                 {| PlaceAlgoOrderRequest.InstID := instID;
                    PlaceAlgoOrderRequest.TdMode := "isolated";
                    PlaceAlgoOrderRequest.Side := side;
                    PlaceAlgoOrderRequest.PosSide := posSide;
                    PlaceAlgoOrderRequest.OrdType := "tp";
                    PlaceAlgoOrderRequest.Sz :=
                      Sprintf Sprintf_other (Sprintf_format lot) quantity;
                    PlaceAlgoOrderRequest.SlTriggerPx := "";
                    PlaceAlgoOrderRequest.SlOrdPx := "";
                    PlaceAlgoOrderRequest.TpTriggerPx :=
                      Sprintf Sprintf_other (Sprintf_format tick) price;
                    PlaceAlgoOrderRequest.TpOrdPx := "-1" |}].
Proof.
  intros instID posSide side lookups _.
  set (q := FormatQuantity api Sprintf_other calculatePrecision instID quantity w).
  destruct (FormatQuantity_rendered api Sprintf_other calculatePrecision
              instID quantity w) as [lot El].
  destruct (FormatPrice_rendered api Sprintf_other calculatePrecision
              instID price (snd q)) as [tick Et].
  exists lot, tick.
  pose proof (conditional_order_run symbol positionSide "stop" quantity price w) as Rs.
  pose proof (conditional_order_run symbol positionSide "tp" quantity price w) as Rt.
  cbv zeta in Rs, Rt. unfold SetStopLoss, SetTakeProfit.
  rewrite Rs, Rt, !placeAlgoOrder_sent, FormatPrice_sent, tickSzQuery_after_quantity,
    FormatQuantity_sent.
  fold instID. subst q. rewrite El, Et. subst lookups. rewrite <- !app_assoc.
  split; reflexivity.
Qed.

(** X14: [SetStopLoss] and [SetTakeProfit] return nil exactly when the answer
    to the conditional order has a first entry with the status code "0"; a
    failed precision lookup never makes them fail.  A failure of the call is
    returned wrapped, an answer with no entry and a first entry with another
    code as plain messages. *)
Theorem conditional_order_result (symbol positionSide : string)
    (quantity price : float) (w : World) :
  let instID := okxSymbol symbol in
  let q := FormatQuantity api Sprintf_other calculatePrecision instID quantity w in
  let p := FormatPrice api Sprintf_other calculatePrecision instID price (snd q) in
  let answer ordType :=
    fst (api (Trade_PlaceAlgoOrder
                (algoRequest symbol (strings.ToLower positionSide) ordType
                   (fst (fst p)) (fst (fst q))))
           (exchange (snd p))) in
  let reads (out : option error) (answer : result (list AlgoOrderData.t)) :=
    (out = None
     <-> exists d rest, answer = Ok (d :: rest) /\ AlgoOrderData.SCode d = "0")
    /\ (forall err, answer = Err err ->
          out = Some (wrapError "OKX PlaceAlgoOrder 失败: " err))
    /\ (answer = Ok [] -> out = Some (errorString "OKX PlaceAlgoOrder 未返回数据"))
    /\ (forall d rest, answer = Ok (d :: rest) -> AlgoOrderData.SCode d <> "0" ->
          out = Some (errorString
                        ("OKX PlaceAlgoOrder 失败: " +:+ AlgoOrderData.SMsg d
                           +:+ " (code: " +:+ AlgoOrderData.SCode d +:+ ")"))) in
  reads (fst (SetStopLoss api Sprintf_other calculatePrecision
                symbol positionSide quantity price w)) (answer "stop")
  /\ reads (fst (SetTakeProfit api Sprintf_other calculatePrecision
                   symbol positionSide quantity price w)) (answer "tp").
Proof.
  intros instID q p answer reads.
  assert (P : forall ordType,
            reads (fst (placeAlgoOrder api symbol (strings.ToLower positionSide) ordType
                          (fst (fst p)) (fst (fst q)) (snd p))) (answer ordType)).
  { intros ordType. subst reads. cbv beta.
    unfold placeAlgoOrder. rewrite bind_run, call_run. cbn [fst snd].
    fold (answer ordType).
    destruct (answer ordType) as [[|d rest]|err].
    - rewrite ret_run. cbn [fst]. repeat split; try discriminate.
      intros (d & rest & Hd & _). discriminate.
    - destruct (String.eqb (AlgoOrderData.SCode d) "0") eqn:Ec; cbn [negb];
        rewrite ret_run; cbn [fst]; repeat split; try discriminate.
      + exists d, rest. split; [reflexivity | now apply String.eqb_eq].
      + intros d' rest' [= <- <-] Hne. apply String.eqb_eq in Ec. contradiction.
      + intros (d' & rest' & [= <- <-] & Hc). apply String.eqb_eq in Hc. congruence.
      + intros d' rest' [= <- <-] _. reflexivity.
    - rewrite ret_run. cbn [fst]. repeat split; try discriminate.
      + intros (d & rest & Hd & _). discriminate.
      + intros err' [= <-]. reflexivity. }
  pose proof (conditional_order_run symbol positionSide "stop" quantity price w) as Rs.
  pose proof (conditional_order_run symbol positionSide "tp" quantity price w) as Rt.
  cbv zeta in Rs, Rt. fold instID q p in Rs, Rt.
  unfold SetStopLoss, SetTakeProfit. fold instID. rewrite Rs, Rt.
  split; apply P.
Qed.

(** X15: the price precision is looked up in the same way, from the tick
    size.  On a cache miss [FormatPrice] sends the instrument query; when the
    exchange delivers the instrument it renders at the precision computed
    from the tick size of the first one delivered and stores it, and the next
    call for the symbol renders at that precision without a request;
    otherwise it renders with two decimals, stores nothing, and the next call
    sends the query again. *)
Theorem FormatPrice_memoizes (symbol : string) (value value' : float) (w : World) :
  let instID := okxSymbol symbol in
  let query :=
    Public_GetInstruments
      {| GetInstrumentsRequest.InstType := "SWAP";
         GetInstrumentsRequest.InstID := instID |} in
  let first := FormatPrice api Sprintf_other calculatePrecision symbol value w in
  let second :=
    FormatPrice api Sprintf_other calculatePrecision symbol value' (snd first) in
  precisions w !! (instID +:+ "_tickSz") = None ->
  sent (snd first) = sent w ++ [query]
  /\ match fst (api query (exchange w)) with
     | Ok (inst :: _) =>
         let precision := calculatePrecision (Instrument.TickSz inst) in
         fst first = (Sprintf Sprintf_other (Sprintf_format precision) value, None)
         /\ precisions (snd first) = <[instID +:+ "_tickSz" := precision]> (precisions w)
         /\ second
            = ((Sprintf Sprintf_other (Sprintf_format precision) value', None), snd first)
     | _ =>
         fst first = (Sprintf Sprintf_other (Sprintf_format 2) value, None)
         /\ precisions (snd first) = precisions w
         /\ sent (snd second) = sent w ++ [query; query]
     end.
Proof.
  intros instID query first second Hmiss.
  assert (Q : tickSzQuery w instID = [query]).
  { unfold tickSzQuery. now rewrite Hmiss. }
  split.
  { subst first. rewrite FormatPrice_sent. fold instID. now rewrite Q. }
  assert (E : first
    = match fst (api query (exchange w)) with
      | Ok (inst :: _) =>
          ((Sprintf Sprintf_other
              (Sprintf_format (calculatePrecision (Instrument.TickSz inst))) value, None),
           {| exchange := snd (api query (exchange w));
              precisions := <[instID +:+ "_tickSz"
                              := calculatePrecision (Instrument.TickSz inst)]> (precisions w);
              sent := sent w ++ [query] |})
      | _ =>
          ((Sprintf Sprintf_other (Sprintf_format 2) value, None),
           {| exchange := snd (api query (exchange w)); precisions := precisions w;
              sent := sent w ++ [query] |})
      end).
  { subst first. unfold FormatPrice. fold instID.
    rewrite bind_run, getTickSzPrecision_cases. fold query. rewrite Hmiss.
    destruct (fst (api query (exchange w))) as [[|inst rest]|err]; reflexivity. }
  subst second.
  destruct (fst (api query (exchange w))) as [[|inst rest]|err]; rewrite E;
    cbn [fst snd precisions sent]; (split; [reflexivity|]); (split; [reflexivity|]).
  - rewrite FormatPrice_sent. cbn [sent]. fold instID. unfold tickSzQuery.
    cbn [precisions]. rewrite Hmiss. fold query. now rewrite <- app_assoc.
  - apply FormatPrice_hit. cbn [precisions]. apply lookup_insert_eq.
  - rewrite FormatPrice_sent. cbn [sent]. fold instID. unfold tickSzQuery.
    cbn [precisions]. rewrite Hmiss. fold query. now rewrite <- app_assoc.
Qed.


End OrderFacts.

(** ** Symbols, positions and the balance *)

Section SymbolFacts.

Context {Exchange : Type}.
Variable api : forall r : Request, Exchange -> result (Data r) * Exchange.
Variable scan : string -> strconv.scanned.

Lemma Index_app_le (a old b : string) :
  exists j, strings.Index (a +:+ (old +:+ b)) old = Some j /\ (j <= String.length a)%nat.
Proof.
  induction a as [|c a (j & Ej & Lj)].
  - exists 0%nat. split; [|cbn; lia]. apply Index_hit.
    change ("" +:+ (old +:+ b)) with (old +:+ b). apply HasPrefix_app.
  - rewrite app_cons.
    destruct (strings.HasPrefix (String c (a +:+ (old +:+ b))) old) eqn:E.
    + exists 0%nat. split; [now apply Index_hit | lia].
    + exists (S j). rewrite (Index_cons_miss _ _ _ E), Ej. split; [reflexivity|cbn; lia].
Qed.

Lemma app_assoc_string (a b c : string) : (a +:+ b) +:+ c = a +:+ (b +:+ c).
Proof. induction a as [|x a IH]; [reflexivity|]. rewrite !app_cons. now rewrite IH. Qed.

(** A base that is followed by the quote asset nowhere but at the end of the
    symbol does not itself end in the quote asset. *)
Lemma single_quote_base (base : string) :
  strings.Index (base +:+ "USDT") "USDT" = Some (String.length base) ->
  strings.HasSuffix base "USDT" = false.
Proof.
  intros H. destruct (strings.HasSuffix base "USDT") eqn:E; [|reflexivity].
  exfalso. pose proof (HasSuffix_split _ _ E) as S.
  set (t := strings.take (String.length base - String.length "USDT") base) in S.
  destruct (Index_app_le t "USDT" "USDT") as (j & Ej & Lj).
  rewrite <- app_assoc_string, <- S, H in Ej. injection Ej as <-.
  rewrite S, length_app in Lj. cbn in Lj. lia.
Qed.

Lemma okxSymbol_single_quote (base : string) :
  strings.Index (base +:+ "USDT") "USDT" = Some (String.length base) ->
  okxSymbol (base +:+ "USDT") = base +:+ "-USDT-SWAP".
Proof.
  intros H. unfold okxSymbol, strings.Replace1.
  rewrite HasSuffix_app, H, take_app, drop_app_more.
  reflexivity.
Qed.

Lemma standardSymbol_single_quote (base : string) :
  strings.Index (base +:+ "USDT") "USDT" = Some (String.length base) ->
  standardSymbol (base +:+ "-USDT-SWAP") = base +:+ "USDT".
Proof.
  intros H. unfold standardSymbol, strings.Replace1.
  rewrite HasSuffix_app, (Index_swap_suffix _ H), take_app, drop_app_more.
  reflexivity.
Qed.

(** X16: for an instrument ID made of a base and the suffix "-USDT-SWAP",
    where the base is followed by "USDT" nowhere but at that point, the
    symbol that [GetPositions] reports for a position is the base followed by
    "USDT", and [okxSymbol] takes that symbol back to the instrument ID: a
    close on the reported symbol asks the exchange for the positions of the
    very instrument the position was listed under. *)
Theorem reported_symbol_finds_instrument (base : string) (pos : Position.t)
    (amt : float) (posSide : string) (w : World) :
  strings.Index (base +:+ "USDT") "USDT" = Some (String.length base) ->
  Position.InstID pos = base +:+ "-USDT-SWAP" ->
  posMap scan pos amt !! "symbol" = Some (I_string (base +:+ "USDT"))
  /\ okxSymbol (standardSymbol (Position.InstID pos)) = Position.InstID pos
  /\ sent (snd (getSpecificPosition api (base +:+ "USDT") posSide w))
     = sent w ++ [Account_GetPositions
                    {| GetPositionsRequest.InstType := "";
                       GetPositionsRequest.InstID := Position.InstID pos |}].
Proof.
  intros H E. split; [|split].
  - unfold posMap. rewrite E, (standardSymbol_single_quote _ H). reflexivity.
  - rewrite E, (standardSymbol_single_quote _ H). now apply okxSymbol_single_quote.
  - rewrite getSpecificPosition_run. cbn [snd sent].
    rewrite (okxSymbol_single_quote _ H), E. reflexivity.
Qed.

(** X17: [okxSymbol] is not injective.  A base followed by "USDT" nowhere but
    at the end of the symbol, and that base with "USDT" appended, are two
    symbols with one instrument ID; [standardSymbol] takes the instrument ID
    of the bare base to the longer of the two. *)
Theorem okxSymbol_aliases (base : string) :
  strings.Index (base +:+ "USDT") "USDT" = Some (String.length base) ->
  okxSymbol base = okxSymbol (base +:+ "USDT")
  /\ base <> base +:+ "USDT"
  /\ standardSymbol (okxSymbol base) = base +:+ "USDT".
Proof.
  intros H. pose proof (single_quote_base _ H) as N.
  assert (B : okxSymbol base = base +:+ "-USDT-SWAP").
  { unfold okxSymbol. now rewrite N. }
  split; [|split].
  - rewrite B. symmetry. now apply okxSymbol_single_quote.
  - intros E. apply (f_equal String.length) in E. rewrite length_app in E.
    cbn in E. lia.
  - rewrite B. now apply standardSymbol_single_quote.
Qed.

(** The keys of the map built for a position. *)
Lemma dom_posMap (pos : Position.t) (amt : float) :
  dom (posMap scan pos amt)
  = ({[ "symbol"; "side"; "positionAmt"; "entryPrice"; "markPrice";
        "unRealizedProfit"; "leverage"; "liquidationPrice" ]} : gset string).
Proof. unfold posMap. rewrite !dom_insert_L, dom_empty_L. set_solver. Qed.

(** X18: every map in the result of [GetPositions] has the same eight keys
    and a position amount that is a float other than zero, and the result
    never has more maps than the listing has entries.  [GetPositions] sends
    the one listing request, and fails only when that call fails, with the
    error of the client wrapped. *)
Theorem GetPositions_schema (w : World) :
  let listing :=
    Account_GetPositions
      {| GetPositionsRequest.InstType := "SWAP"; GetPositionsRequest.InstID := "" |} in
  let answer := fst (api listing (exchange w)) in
  let out := GetPositions api scan w in
  sent (snd out) = sent w ++ [listing]
  /\ match fst out with
     | Ok res =>
         exists data,
           answer = Ok data
           /\ (length res <= length data)%nat
           /\ Forall (fun m : gmap string iface =>
                        dom m = ({[ "symbol"; "side"; "positionAmt"; "entryPrice";
                                    "markPrice"; "unRealizedProfit"; "leverage";
                                    "liquidationPrice" ]} : gset string)
                        /\ exists amt,
                             m !! "positionAmt" = Some (I_float64 amt)
                             /\ (amt =? 0)%float = false) res
     | Err e => exists err, answer = Err err /\ e = wrapError "OKX GetPositions 失败: " err
     end.
Proof.
  intros listing answer out. subst out. split.
  - unfold GetPositions. fold listing. rewrite bind_run, call_run. cbn [fst snd].
    now destruct (fst (api listing (exchange w))).
  - rewrite GetPositions_run. fold listing answer.
    destruct answer as [data|err]; [|now exists err].
    exists data. split; [reflexivity|]. rewrite GetPositions_loop. cbn [app].
    split.
    + rewrite length_map. apply List.filter_length_le.
    + apply List.Forall_forall. intros m Hm. apply in_map_iff in Hm as (pos & <- & Hp).
      apply filter_In in Hp as [_ Hp]. split; [apply dom_posMap|].
      exists (parseFloat scan (Position.Pos pos)). split; [reflexivity|].
      now destruct (parseFloat scan (Position.Pos pos) =? 0)%float.
Qed.

(** X19: [GetBalance] sends one account request, for USDT.  A failure of the
    call comes back wrapped and an answer with no entry as an error;
    otherwise the result is read from the first entry alone: it has exactly
    three keys, the available balance and the unrealised profit as parsed,
    and the wallet balance as the parsed equity less the parsed unrealised
    profit. *)
Theorem GetBalance_outcomes (w : World) :
  let req := Account_GetAccount {| GetAccountRequest.Ccy := "USDT" |} in
  let answer := fst (api req (exchange w)) in
  let out := GetBalance api scan w in
  sent (snd out) = sent w ++ [req]
  /\ (forall err, answer = Err err -> fst out = Err (wrapError "OKX GetBalance 失败: " err))
  /\ (answer = Ok [] -> fst out = Err (errorString "OKX GetBalance: 未返回账户数据"))
  /\ (forall acc rest, answer = Ok (acc :: rest) ->
        exists res,
          fst out = Ok res
          /\ dom res
             = ({[ "totalWalletBalance"; "availableBalance"; "totalUnrealizedProfit" ]}
                : gset string)
          /\ res !! "totalWalletBalance"
             = Some (I_float64 (parseFloat scan (Account.TotalEq acc)
                                - parseFloat scan (Account.Upl acc)))
          /\ res !! "availableBalance"
             = Some (I_float64 (parseFloat scan (Account.AvailEq acc)))
          /\ res !! "totalUnrealizedProfit"
             = Some (I_float64 (parseFloat scan (Account.Upl acc)))).
Proof.
  intros req answer out. subst out. unfold GetBalance. fold req.
  rewrite bind_run, call_run. cbn [fst snd]. fold answer.
  split; [|split; [|split]].
  - destruct answer as [[|acc rest]|err]; reflexivity.
  - intros err ->. reflexivity.
  - intros ->. reflexivity.
  - intros acc rest ->. rewrite ret_run. cbn [fst]. eexists. split; [reflexivity|].
    split; [|repeat split].
    rewrite !dom_insert_L, dom_empty_L. set_solver.
Qed.

End SymbolFacts.

(** ** Runs of the further properties *)

Lemma parseInt_Sprintf_d_witness :
  atoi.ParseInt (fmt.Sprintf_d (-9223372036854775808)) = ((-9223372036854775808)%Z, None)
  /\ parseInt (fmt.Sprintf_d 125) = 125%Z.
Proof.
  split.
  - apply (parseInt_Sprintf_d (-9223372036854775808)). lia.
  - apply (parseInt_Sprintf_d 125). lia.
Defined.

Lemma parseInt_total_and_bounded_witness :
  parseInt "-" = 0%Z
  /\ (parseInt "12a" = 0%Z \/ parseInt "12a" = (2 ^ 63 - 1)%Z
      \/ parseInt "12a" = (- 2 ^ 63)%Z).
Proof.
  split.
  - exact (proj1 (proj2 (parseInt_total_and_bounded "-")) eq_refl).
  - exact (proj2 (proj2 (parseInt_total_and_bounded "12a")) eq_refl).
Defined.

Lemma FormatQuantity_memoizes_witness :
  let first :=
    FormatQuantity Sim.answer Decimal.other Decimal.calculatePrecision
      "BTC" 0.5 (Sim.fresh Sim.demo) in
  fst first = ("0.50", None)
  /\ sent (snd first)
     = [Public_GetInstruments
          {| GetInstrumentsRequest.InstType := "SWAP";
             GetInstrumentsRequest.InstID := "BTC-USDT-SWAP" |}]
  /\ precisions (snd first) = <["BTC-USDT-SWAP_lotSz" := 2%Z]> ∅
  /\ FormatQuantity Sim.answer Decimal.other Decimal.calculatePrecision
       "BTC" 0.125 (snd first)
     = (("0.12", None), snd first).
Proof.
  exact (FormatQuantity_memoizes Sim.answer Decimal.other Decimal.calculatePrecision
           "BTC" 0.5 0.125 (Sim.fresh Sim.demo)
           {| Instrument.LotSz := "0.01"; Instrument.TickSz := "0.1" |} []
           eq_refl eq_refl).
Defined.

Lemma FormatQuantity_fallback_not_cached_witness :
  let query :=
    Public_GetInstruments
      {| GetInstrumentsRequest.InstType := "SWAP";
         GetInstrumentsRequest.InstID := "BTC-USDT-SWAP" |} in
  let first :=
    FormatQuantity Sim.answer Decimal.other Decimal.calculatePrecision
      "BTC" 0.5 (Sim.fresh Sim.no_metadata) in
  precisions (snd first) = ∅
  /\ sent (snd first) = [query]
  /\ sent (snd (FormatQuantity Sim.answer Decimal.other Decimal.calculatePrecision
                  "BTC" 0.5 (snd first)))
     = [query; query].
Proof.
  exact (FormatQuantity_fallback_not_cached Sim.answer Decimal.other
           Decimal.calculatePrecision "BTC" 0.5 0.5 (Sim.fresh Sim.no_metadata)
           eq_refl I).
Defined.

Lemma Format_at_cached_precision_witness :
  let w :=
    {| exchange := Sim.demo;
       precisions := <["BTC-USDT-SWAP_lotSz" := 2%Z]> (<["BTC-USDT-SWAP_tickSz" := 2%Z]> ∅);
       sent := [] |} in
  FormatQuantity Sim.answer Decimal.other Decimal.calculatePrecision "BTC" 0.5 w
  = (("0.50", None), w)
  /\ is_fixed_point 2
       (fst (fst (FormatPrice Sim.answer Decimal.other Decimal.calculatePrecision
                    "BTC" 64250.125 w))) = true.
Proof.
  intros w. split.
  - refine (proj1 (proj1 (Format_at_cached_precision Sim.answer Decimal.other
              Decimal.calculatePrecision "BTC" 0.5 w 2 _) eq_refl)). lia.
  - refine (proj2 (proj2 (Format_at_cached_precision Sim.answer Decimal.other
              Decimal.calculatePrecision "BTC" 64250.125 w 2 _) eq_refl) _ eq_refl); lia.
Defined.

Lemma precisions_are_kept_apart_witness :
  let first :=
    FormatQuantity Sim.answer Decimal.other Decimal.calculatePrecision
      "BTC" 0.5 (Sim.fresh Sim.demo) in
  precisions (snd first) !! "BTC-USDT-SWAP_tickSz" = None
  /\ precisions (snd first) !! "ETH-USDT-SWAP_lotSz" = None.
Proof.
  intros first. split.
  - exact (proj1 (precisions_are_kept_apart Sim.answer Decimal.other
             Decimal.calculatePrecision "BTC" 0.5 (Sim.fresh Sim.demo) "BTC-USDT-SWAP")).
  - refine (proj1 (proj2 (proj2 (precisions_are_kept_apart Sim.answer Decimal.other
              Decimal.calculatePrecision "BTC" 0.5 (Sim.fresh Sim.demo)
              "ETH-USDT-SWAP")) _)).
    discriminate.
Defined.

Lemma Open_sequence_witness :
  (exists precision,
     sent (snd (OpenLong Sim.answer Decimal.other Decimal.calculatePrecision
                  "BTCUSDT" 0.5 5 (Sim.fresh Sim.demo)))
     = [ listRequest "BTC-USDT-SWAP" "stop";
         cancelRequest "BTC-USDT-SWAP" {| AlgoOrder.AlgoID := "sl-1" |};
         listRequest "BTC-USDT-SWAP" "tp";
         cancelRequest "BTC-USDT-SWAP" {| AlgoOrder.AlgoID := "tp-1" |};
         cancelRequest "BTC-USDT-SWAP" {| AlgoOrder.AlgoID := "tp-2" |};
         leverageRequest "BTCUSDT" 5;
         Public_GetInstruments
           {| GetInstrumentsRequest.InstType := "SWAP";
              GetInstrumentsRequest.InstID := "BTC-USDT-SWAP-USDT-SWAP" |};
         Trade_PlaceOrder
           {| PlaceOrderRequest.InstID := "BTC-USDT-SWAP";
              PlaceOrderRequest.TdMode := "isolated";
              PlaceOrderRequest.Side := "buy";
              PlaceOrderRequest.OrdType := "market";
              PlaceOrderRequest.Sz := Sprintf Decimal.other (Sprintf_format precision) 0.5;
              PlaceOrderRequest.PosSide := "long" |} ])
  /\ fst (OpenShort Sim.answer Decimal.other Decimal.calculatePrecision
            "BTCUSDT" 0.5 5 (Sim.fresh Sim.leverage_dropped))
     = Err (wrapError "OKX SetLeverage 失败: " (errorString "connection reset by peer"))
  /\ sent (snd (OpenShort Sim.answer Decimal.other Decimal.calculatePrecision
                  "BTCUSDT" 0.5 5 (Sim.fresh Sim.leverage_dropped)))
     = [ listRequest "BTC-USDT-SWAP" "stop";
         cancelRequest "BTC-USDT-SWAP" {| AlgoOrder.AlgoID := "sl-1" |};
         listRequest "BTC-USDT-SWAP" "tp";
         cancelRequest "BTC-USDT-SWAP" {| AlgoOrder.AlgoID := "tp-1" |};
         cancelRequest "BTC-USDT-SWAP" {| AlgoOrder.AlgoID := "tp-2" |};
         leverageRequest "BTCUSDT" 5 ].
Proof.
  split.
  - destruct (proj1 (Open_sequence Sim.answer Decimal.other Decimal.calculatePrecision
                       "BTCUSDT" 0.5 5 (Sim.fresh Sim.demo)) I) as (p & L & _).
    exists p. exact L.
  - destruct (proj2 (Open_sequence Sim.answer Decimal.other Decimal.calculatePrecision
                       "BTCUSDT" 0.5 5 (Sim.fresh Sim.leverage_dropped))
                _ eq_refl eq_refl) as (_ & _ & E & S).
    split; [exact E | exact S].
Defined.

Lemma Close_given_quantity_witness :
  exists precision,
    sent (snd (CloseLong Sim.answer Decimal.scan Decimal.other Decimal.calculatePrecision
                 "SOLUSDT" 1.5 (Sim.fresh Sim.demo)))
    = [ Public_GetInstruments
          {| GetInstrumentsRequest.InstType := "SWAP";
             GetInstrumentsRequest.InstID := "SOL-USDT-SWAP-USDT-SWAP" |};
        Trade_PlaceOrder
          {| PlaceOrderRequest.InstID := "SOL-USDT-SWAP";
             PlaceOrderRequest.TdMode := "isolated";
             PlaceOrderRequest.Side := "sell";
             PlaceOrderRequest.OrdType := "market";
             PlaceOrderRequest.Sz := Sprintf Decimal.other (Sprintf_format precision) 1.5;
             PlaceOrderRequest.PosSide := "long" |} ].
Proof.
  destruct (Close_given_quantity Sim.answer Decimal.scan Decimal.other
              Decimal.calculatePrecision "SOLUSDT" 1.5 (Sim.fresh Sim.demo) eq_refl)
    as (p & L & _).
  exists p. exact L.
Defined.

Lemma Close_zero_listing_error_witness :
  let long :=
    CloseLong Sim.answer Decimal.scan Decimal.other Decimal.calculatePrecision
      "SOLUSDT" 0 (Sim.fresh Sim.positions_dropped) in
  fst long = Err (errorString "connection reset by peer")
  /\ sent (snd long)
     = [Account_GetPositions
          {| GetPositionsRequest.InstType := "";
             GetPositionsRequest.InstID := "SOL-USDT-SWAP" |}].
Proof.
  intros long.
  destruct (Close_zero_listing_error Sim.answer Decimal.scan Decimal.other
              Decimal.calculatePrecision "SOLUSDT" (Sim.fresh Sim.positions_dropped)
              (errorString "connection reset by peer") eq_refl) as (E & S & _).
  split; [exact E | exact S].
Defined.

Lemma GetMarketPrice_outcomes_witness :
  fst (GetMarketPrice (Sim.quoting [ {| Ticker.Last := "64250.5" |} ]) Decimal.scan
         "BTCUSDT" (Sim.fresh Sim.demo)) = Ok 64250.5%float
  /\ fst (GetMarketPrice (Sim.quoting [ {| Ticker.Last := "n/a" |} ]) Decimal.scan
            "BTCUSDT" (Sim.fresh Sim.demo)) = Ok 0%float
  /\ fst (GetMarketPrice (Sim.quoting [ {| Ticker.Last := "NaN" |} ]) Decimal.scan
            "BTCUSDT" (Sim.fresh Sim.demo)) = Ok nan
  /\ fst (GetMarketPrice Sim.answer Decimal.scan "BTCUSDT" (Sim.fresh Sim.demo))
     = Err (errorString "OKX GetTicker: 未返回 BTC-USDT-SWAP 的数据")
  /\ fst (GetMarketPrice Sim.answer Decimal.scan "BTCUSDT"
            (Sim.fresh Sim.ticker_dropped))
     = Err (wrapError "OKX GetTicker 失败: " (errorString "connection reset by peer")).
Proof.
  split; [|split; [|split; [|split]]].
  - exact (proj1 (proj2 (proj2 (proj2 (GetMarketPrice_outcomes
             (Sim.quoting [ {| Ticker.Last := "64250.5" |} ]) Decimal.scan
             "BTCUSDT" (Sim.fresh Sim.demo)))) _ _ eq_refl)).
  - exact (proj1 (proj2 (proj2 (proj2 (proj2 (GetMarketPrice_outcomes
             (Sim.quoting [ {| Ticker.Last := "n/a" |} ]) Decimal.scan
             "BTCUSDT" (Sim.fresh Sim.demo)))) _ _ eq_refl)) eq_refl).
  - exact (proj1 (proj2 (proj2 (proj2 (proj2 (proj2 (GetMarketPrice_outcomes
             (Sim.quoting [ {| Ticker.Last := "NaN" |} ]) Decimal.scan
             "BTCUSDT" (Sim.fresh Sim.demo)))) _ _ eq_refl))) eq_refl).
  - exact (proj1 (proj2 (proj2 (GetMarketPrice_outcomes Sim.answer Decimal.scan
             "BTCUSDT" (Sim.fresh Sim.demo)))) eq_refl).
  - exact (proj1 (proj2 (GetMarketPrice_outcomes Sim.answer Decimal.scan "BTCUSDT"
             (Sim.fresh Sim.ticker_dropped))) _ eq_refl).
Defined.

Lemma conditional_order_result_witness :
  fst (SetStopLoss Sim.answer Decimal.other Decimal.calculatePrecision
         "BTCUSDT" "LONG" 0.5 60000 (Sim.fresh Sim.no_metadata)) = None
  /\ fst (SetTakeProfit Sim.answer Decimal.other Decimal.calculatePrecision
            "BTCUSDT" "LONG" 0.5 70000
            (Sim.fresh Sim.algo_blank))
     = Some (errorString "OKX PlaceAlgoOrder 未返回数据").
Proof.
  split.
  - apply (proj1 (conditional_order_result Sim.answer Decimal.other
             Decimal.calculatePrecision "BTCUSDT" "LONG" 0.5 60000
             (Sim.fresh Sim.no_metadata))).
    eexists _, _. split; reflexivity.
  - exact (proj1 (proj2 (proj2 (proj2 (conditional_order_result Sim.answer Decimal.other
             Decimal.calculatePrecision "BTCUSDT" "LONG" 0.5 70000
             (Sim.fresh Sim.algo_blank))))) eq_refl).
Defined.

Lemma reported_symbol_finds_instrument_witness :
  let pos :=
    {| Position.InstID := "ETH-USDT-SWAP"; Position.Pos := "2.5";
       Position.PosSide := "short"; Position.AvgPx := "3000.5";
       Position.MarkPx := "2990"; Position.Upl := "26.25"; Position.Lever := "5";
       Position.LiqPx := "" |} in
  posMap Decimal.scan pos 2.5 !! "symbol" = Some (I_string "ETHUSDT")
  /\ okxSymbol (standardSymbol "ETH-USDT-SWAP") = "ETH-USDT-SWAP"
  /\ sent (snd (getSpecificPosition Sim.answer "ETHUSDT" "short" (Sim.fresh Sim.demo)))
     = [Account_GetPositions
          {| GetPositionsRequest.InstType := "";
             GetPositionsRequest.InstID := "ETH-USDT-SWAP" |}].
Proof.
  intros pos.
  exact (reported_symbol_finds_instrument Sim.answer Decimal.scan "ETH" pos 2.5 "short"
           (Sim.fresh Sim.demo) eq_refl eq_refl).
Defined.

Lemma okxSymbol_aliases_witness :
  okxSymbol "BTC" = okxSymbol "BTCUSDT"
  /\ "BTC" <> "BTCUSDT"
  /\ standardSymbol (okxSymbol "BTC") = "BTCUSDT".
Proof. exact (okxSymbol_aliases "BTC" eq_refl). Defined.

Lemma GetBalance_outcomes_witness :
  (exists res,
     fst (GetBalance Sim.answer Decimal.scan (Sim.fresh Sim.demo)) = Ok res
     /\ res !! "totalWalletBalance" = Some (I_float64 950)
     /\ res !! "availableBalance" = Some (I_float64 800)
     /\ res !! "totalUnrealizedProfit" = Some (I_float64 50))
  /\ fst (GetBalance Sim.answer Decimal.scan
            (Sim.fresh Sim.account_blank))
     = Err (errorString "OKX GetBalance: 未返回账户数据").
Proof.
  split.
  - destruct (proj2 (proj2 (proj2 (GetBalance_outcomes Sim.answer Decimal.scan
                (Sim.fresh Sim.demo)))) _ _ eq_refl) as (res & E & _ & Hw & Ha & Hu).
    exists res. repeat split; assumption.
  - exact (proj1 (proj2 (proj2 (GetBalance_outcomes Sim.answer Decimal.scan
             (Sim.fresh Sim.account_blank)))) eq_refl).
Defined.

Lemma FormatPrice_memoizes_witness :
  let first :=
    FormatPrice Sim.answer Decimal.other Decimal.calculatePrecision
      "SOL" 151.125 (Sim.fresh Sim.demo) in
  let failed :=
    FormatPrice Sim.answer Decimal.other Decimal.calculatePrecision
      "SOL" 151.125 (Sim.fresh Sim.no_metadata) in
  (fst first = ("151.125", None)
   /\ precisions (snd first) = <["SOL-USDT-SWAP_tickSz" := 3%Z]> ∅
   /\ FormatPrice Sim.answer Decimal.other Decimal.calculatePrecision
        "SOL" 0.5 (snd first)
      = (("0.500", None), snd first))
  /\ fst failed = ("151.12", None)
  /\ precisions (snd failed) = ∅.
Proof.
  intros first failed. split.
  - exact (proj2 (FormatPrice_memoizes Sim.answer Decimal.other
             Decimal.calculatePrecision "SOL" 151.125 0.5 (Sim.fresh Sim.demo) eq_refl)).
  - destruct (proj2 (FormatPrice_memoizes Sim.answer Decimal.other
                Decimal.calculatePrecision "SOL" 151.125 0.5 (Sim.fresh Sim.no_metadata)
                eq_refl)) as (F & P & _).
    split; [exact F | exact P].
Defined.

Lemma conditional_order_trace_witness :
  exists lot tick,
    sent (snd (SetStopLoss Sim.answer Decimal.other Decimal.calculatePrecision
                 "BTCUSDT" "Short" 0.5 70000 (Sim.fresh Sim.demo)))
    = [ Public_GetInstruments
          {| GetInstrumentsRequest.InstType := "SWAP";
             GetInstrumentsRequest.InstID := "BTC-USDT-SWAP-USDT-SWAP" |};
        Public_GetInstruments
          {| GetInstrumentsRequest.InstType := "SWAP";
             GetInstrumentsRequest.InstID := "BTC-USDT-SWAP-USDT-SWAP" |};
        Trade_PlaceAlgoOrder
          {| PlaceAlgoOrderRequest.InstID := "BTC-USDT-SWAP";
             PlaceAlgoOrderRequest.TdMode := "isolated";
             PlaceAlgoOrderRequest.Side := "buy";
             PlaceAlgoOrderRequest.PosSide := "short";
             PlaceAlgoOrderRequest.OrdType := "stop";
             PlaceAlgoOrderRequest.Sz := Sprintf Decimal.other (Sprintf_format lot) 0.5;
             PlaceAlgoOrderRequest.SlTriggerPx :=
               Sprintf Decimal.other (Sprintf_format tick) 70000;
             PlaceAlgoOrderRequest.SlOrdPx := "-1";
             PlaceAlgoOrderRequest.TpTriggerPx := "";
             PlaceAlgoOrderRequest.TpOrdPx := "" |} ].
Proof.
  destruct (conditional_order_trace Sim.answer Decimal.other Decimal.calculatePrecision
              "BTCUSDT" "Short" 0.5 70000 (Sim.fresh Sim.demo) eq_refl)
    as (lot & tick & E & _).
  exists lot, tick. exact E.
Defined.
